(** * Drexel Sentinel: calendar tools, thread identifiers and the Discord adapter

    A shallow embedding of [src/engine/tools.py], [src/engine/agent.py],
    [src/bot.py] and [src/engine/ingest.py], followed by the properties of
    the specification that were checked against it.

    Conventions of the embedding.
    - Python [str] values are [string]s.  The methods of [str] used by the
      source ([upper], [lower], [strip], [replace], [in]) are embedded on the
      ASCII repertoire: letters [a-z]/[A-Z] change case, the white space
      characters are the ASCII ones of [str.isspace], every other character is
      carried unchanged.  A character outside ASCII stands as the bytes of its
      UTF-8 encoding.
    - [datetime.strptime] is embedded on the same repertoire: the digits of
      its expressions are [0-9].  CPython also reads the other decimal digits
      of Unicode (["\d"] takes them, and so does [int]), so a statement about
      the texts that [strptime] rejects is made for the texts whose ASCII
      characters settle the matter ([Spec.ascii_settled]).
    - Python [int] is [Z]; the float returned by [datetime.timestamp()] is a
      rational number ([Q]): a finite double is one, and [//] on it is the
      exact floor of the quotient.
    - [None] is [None] of an [option]; a dict with a fixed set of keys is a
      record; a key that may be missing is an [option] field.
    - The external services (Google Calendar, the vector store, the hosted
      agents) are a record of reply functions that see the calls issued so
      far; a tool is a computation over the log of issued calls that either
      returns a value or raises.
    - The [logger] calls only write to the log file and are left out. *)

From Stdlib Require Import String Ascii List ZArith NArith Lia Bool.
From Stdlib Require Import QArith Qround.
From Stdlib Require Import DecimalString DecimalZ DecimalFacts.
Import ListNotations.

Local Close Scope Q_scope.
Local Open Scope string_scope.
Local Open Scope list_scope.

(** ** Python [str] *)

Module PyStr.

Definition ord (c : ascii) : N := N_of_ascii c.

Definition between (lo hi : N) (c : ascii) : bool :=
  ((lo <=? ord c) && (ord c <=? hi))%N.

(** [c.upper()] and [c.lower()] on one ASCII character. *)
Definition char_upper (c : ascii) : ascii :=
  if between 97 122 c then ascii_of_N (ord c - 32) else c.

Definition char_lower (c : ascii) : ascii :=
  if between 65 90 c then ascii_of_N (ord c + 32) else c.

(** [s.upper()] *)
Fixpoint upper (s : string) : string :=
  match s with
  | EmptyString => EmptyString
  | String c s' => String (char_upper c) (upper s')
  end.

(** [s.lower()] *)
Fixpoint lower (s : string) : string :=
  match s with
  | EmptyString => EmptyString
  | String c s' => String (char_lower c) (lower s')
  end.

(** [c.isspace()]: tab, line feed, vertical tab, form feed, carriage
    return, the four separators 0x1c-0x1f and the space. *)
Definition isspace (c : ascii) : bool :=
  between 9 13 c || between 28 32 c.

(** The ASCII digits [0-9]. *)
Definition isdigit (c : ascii) : bool := between 48 57 c.

(** [s.lstrip()], [s.rstrip()], [s.strip()] *)
Fixpoint lstrip (s : string) : string :=
  match s with
  | EmptyString => EmptyString
  | String c s' => if isspace c then lstrip s' else s
  end.

Fixpoint rstrip (s : string) : string :=
  match s with
  | EmptyString => EmptyString
  | String c s' =>
      match rstrip s' with
      | EmptyString => if isspace c then EmptyString else String c EmptyString
      | r => String c r
      end
  end.

Definition strip (s : string) : string := lstrip (rstrip s).

(** Truth value of a string: [bool(s)]. *)
Definition truthy (s : string) : bool := negb (s =? "")%string.

(** [sub in s] *)
Fixpoint contains (sub s : string) : bool :=
  prefix sub s ||
  match s with
  | EmptyString => false
  | String _ s' => contains sub s'
  end.

(** [x in xs] for a list of strings. *)
Definition mem (x : string) (xs : list string) : bool :=
  existsb (String.eqb x) xs.

(** [s.replace(old, new)] for a non-empty [old]: the occurrences of [old]
    are found from left to right, each search starting after the previous
    occurrence.  [skip] counts the characters of the occurrence just found
    that are still to be passed over. *)
Fixpoint replace_scan (old new : string) (skip : nat) (s : string) : string :=
  match s with
  | EmptyString => EmptyString
  | String c s' =>
      match skip with
      | S k => replace_scan old new k s'
      | O =>
          if prefix old s
          then new ++ replace_scan old new (String.length old - 1) s'
          else String c (replace_scan old new 0 s')
      end
  end.

(** With an empty [old], [new] is put before every character and at the
    end. *)
Fixpoint replace_empty (new s : string) : string :=
  match s with
  | EmptyString => new
  | String c s' => new ++ String c (replace_empty new s')
  end.

Definition replace (s old new : string) : string :=
  match old with
  | EmptyString => replace_empty new s
  | _ => replace_scan old new 0 s
  end.

(** [sep.join(xs)] *)
Fixpoint join (sep : string) (xs : list string) : string :=
  match xs with
  | [] => ""
  | [x] => x
  | x :: xs' => x ++ sep ++ join sep xs'
  end.

(** [str(n)] for an [int]: decimal digits, a leading [-] when negative. *)
Definition str_of_int (z : Z) : string := NilZero.string_of_int (Z.to_int z).

(** [int(s)] for the text captured by a numeric directive of [strptime]:
    decimal digits, possibly after a blank ([int] ignores surrounding
    white space). *)
Definition digit_value (c : ascii) : Z := Z.of_N (ord c) - 48.

Fixpoint int_of_digits_from (acc : Z) (s : string) : Z :=
  match s with
  | EmptyString => acc
  | String c s' =>
      if isdigit c then int_of_digits_from (10 * acc + digit_value c) s'
      else int_of_digits_from acc s'
  end.

Definition int_of_str (s : string) : Z := int_of_digits_from 0 s.

(** ["%02d" % n] and ["%04d" % n] for [0 <= n]. *)
Definition digit_char (d : Z) : ascii := ascii_of_N (Z.to_N (48 + d mod 10)).

Definition zfill2 (n : Z) : string :=
  String (digit_char (n / 10)) (String (digit_char n) "").

Definition zfill4 (n : Z) : string :=
  String (digit_char (n / 1000)) (String (digit_char (n / 100))
    (String (digit_char (n / 10)) (String (digit_char n) ""))).

End PyStr.

(** ** Exceptions and outcomes *)

(** The exceptions that occur in the modelled code.  [ExternalError msg] is
    any [Exception] raised by a call to an external service, [msg] being its
    [str()]. *)
Inductive exn : Type :=
| ValueError (msg : string)
| OverflowError (msg : string)
| KeyError (key : string)
| ExternalError (msg : string).

(** A call either returns a value or raises. *)
Inductive outcome (A : Type) : Type :=
| Returned (a : A)
| Raised (e : exn).

Arguments Returned {A} a.
Arguments Raised {A} e.

(** [str(e)] *)
Definition str_of_exn (e : exn) : string :=
  match e with
  | ValueError msg => msg
  | OverflowError msg => msg
  | KeyError key => "'" ++ key ++ "'"
  | ExternalError msg => msg
  end.

(** ** Python [datetime]: [strptime], [+ timedelta(hours=1)], [strftime] *)

Module PyDatetime.
Import PyStr.

Local Open Scope Z_scope.

Record datetime : Type := mkDatetime {
  year : Z; month : Z; day : Z; hour : Z; minute : Z; second : Z }.

Definition MINYEAR : Z := 1.
Definition MAXYEAR : Z := 9999.

Definition _is_leap (y : Z) : bool :=
  (y mod 4 =? 0) && (negb (y mod 100 =? 0) || (y mod 400 =? 0)).

(** The tables [_DAYS_IN_MONTH] and [_DAYS_BEFORE_MONTH], indexed by the month
    (index 0 is the placeholder [-1]). *)
Definition _DAYS_IN_MONTH (m : Z) : Z :=
  nth (Z.to_nat m) [-1; 31; 28; 31; 30; 31; 30; 31; 31; 30; 31; 30; 31] 0.

Definition _days_in_month (y m : Z) : Z :=
  if (m =? 2) && _is_leap y then 29 else _DAYS_IN_MONTH m.

Definition _DAYS_BEFORE_MONTH (m : Z) : Z :=
  nth (Z.to_nat m) [-1; 0; 31; 59; 90; 120; 151; 181; 212; 243; 273; 304; 334] 0.

Definition _days_before_year (y : Z) : Z :=
  let y := y - 1 in y * 365 + y / 4 - y / 100 + y / 400.

Definition _days_before_month (y m : Z) : Z :=
  _DAYS_BEFORE_MONTH m + (if (2 <? m) && _is_leap y then 1 else 0).

Definition _ymd2ord (y m d : Z) : Z :=
  _days_before_year y + _days_before_month y m + d.

(** [datetime(y, m, d, H, M, S)]: the constructor checks the fields in
    turn and raises [ValueError] at the first one out of range. *)
Definition datetime_new (y m d H M S : Z) : outcome datetime :=
  if negb ((MINYEAR <=? y) && (y <=? MAXYEAR))
  then Raised (ValueError ("year " ++ str_of_int y ++ " is out of range"))
  else if negb ((1 <=? m) && (m <=? 12))
  then Raised (ValueError "month must be in 1..12")
  else if negb ((1 <=? d) && (d <=? _days_in_month y m))
  then Raised (ValueError "day is out of range for month")
  else if negb ((0 <=? H) && (H <=? 23))
  then Raised (ValueError "hour must be in 0..23")
  else if negb ((0 <=? M) && (M <=? 59))
  then Raised (ValueError "minute must be in 0..59")
  else if negb ((0 <=? S) && (S <=? 59))
  then Raised (ValueError "second must be in 0..59")
  else Returned (mkDatetime y m d H M S).

(** The fields of a [datetime] that the constructor accepts. *)
Definition valid_datetime (dt : datetime) : Prop :=
  MINYEAR <= year dt <= MAXYEAR /\ 1 <= month dt <= 12 /\
  1 <= day dt <= _days_in_month (year dt) (month dt) /\
  0 <= hour dt <= 23 /\ 0 <= minute dt <= 59 /\ 0 <= second dt <= 59.

(** [dt.toordinal()]: the number of the day, day 1 being 0001-01-01. *)
Definition toordinal (dt : datetime) : Z :=
  _ymd2ord (year dt) (month dt) (day dt).

(** The seconds from the start of day 0 to [dt]: the time line on which
    "one hour later" is read. *)
Definition instant (dt : datetime) : Z :=
  toordinal dt * 86400 + hour dt * 3600 + minute dt * 60 + second dt.

(** *** The regular expressions of [_strptime]

    [strptime] turns the format into a regular expression, compiled with
    [IGNORECASE], and applies [re.match]: the first match in backtracking
    order, alternatives tried from left to right.  [re_run r s] lists the
    matches of [r] at the start of [s] in that order, each as the text
    consumed and the text left.  [Digit] is the class ["\d"] on the ASCII
    repertoire, the digits [0-9]; on a [str], CPython's class also holds the
    other decimal digits of Unicode, which the embedding does not read. *)
Inductive regex : Type :=
| Chr (c : ascii)
| Digit
| Rng (lo hi : ascii)
| Cat (r1 r2 : regex)
| Alt (r1 r2 : regex).

Definition chr_matches (c c' : ascii) : bool :=
  Ascii.eqb (char_lower c) (char_lower c').

Definition one_char (p : ascii -> bool) (s : string) : list (string * string) :=
  match s with
  | EmptyString => []
  | String c s' => if p c then [(String c "", s')] else []
  end.

Fixpoint re_run (r : regex) (s : string) : list (string * string) :=
  match r with
  | Chr c => one_char (chr_matches c) s
  | Digit => one_char isdigit s
  | Rng lo hi => one_char (between (ord lo) (ord hi)) s
  | Cat r1 r2 =>
      flat_map (fun m1 =>
        map (fun m2 => (fst m1 ++ fst m2, snd m2)%string) (re_run r2 (snd m1)))
        (re_run r1 s)
  | Alt r1 r2 => re_run r1 s ++ re_run r2 s
  end.

(** The entries of [TimeRE] for the directives of the format the source
    uses. *)
Definition re_Y : regex := Cat Digit (Cat Digit (Cat Digit Digit)).
Definition re_m : regex :=
  Alt (Cat (Chr "1") (Rng "0" "2")) (Alt (Cat (Chr "0") (Rng "1" "9")) (Rng "1" "9")).
Definition re_d : regex :=
  Alt (Cat (Chr "3") (Rng "0" "1"))
    (Alt (Cat (Rng "1" "2") Digit)
      (Alt (Cat (Chr "0") (Rng "1" "9"))
        (Alt (Rng "1" "9") (Cat (Chr " ") (Rng "1" "9"))))).
Definition re_H : regex :=
  Alt (Cat (Chr "2") (Rng "0" "3")) (Alt (Cat (Rng "0" "1") Digit) Digit).
Definition re_M : regex := Alt (Cat (Rng "0" "5") Digit) Digit.
Definition re_S : regex :=
  Alt (Cat (Chr "6") (Rng "0" "1")) (Alt (Cat (Rng "0" "5") Digit) Digit).

Definition directive_regex (d : ascii) : option regex :=
  if Ascii.eqb d "Y" then Some re_Y
  else if Ascii.eqb d "m" then Some re_m
  else if Ascii.eqb d "d" then Some re_d
  else if Ascii.eqb d "H" then Some re_H
  else if Ascii.eqb d "M" then Some re_M
  else if Ascii.eqb d "S" then Some re_S
  else None.

(** A format is a sequence of directives [%x] and literal characters. *)
Inductive fmt_item : Type :=
| Directive (d : ascii)
| Literal (c : ascii).

Fixpoint format_items (fmt : string) : list fmt_item :=
  match fmt with
  | EmptyString => []
  | String c rest =>
      match rest with
      | String d rest' =>
          if Ascii.eqb c "%" then Directive d :: format_items rest'
          else Literal c :: format_items rest
      | EmptyString => [Literal c]
      end
  end.

(** The matches of a whole format, with the text captured by each
    directive ([found_dict]). *)
Definition found_dict : Type := list (ascii * string).

Fixpoint fmt_run (items : list fmt_item) (s : string) : list (found_dict * string) :=
  match items with
  | [] => [([], s)]
  | Literal c :: items' =>
      flat_map (fun m1 => fmt_run items' (snd m1)) (re_run (Chr c) s)
  | Directive d :: items' =>
      match directive_regex d with
      | None => []
      | Some r =>
          flat_map (fun m1 =>
            map (fun m2 => ((d, fst m1) :: fst m2, snd m2)) (fmt_run items' (snd m1)))
            (re_run r s)
      end
  end.

Fixpoint found_get (found : found_dict) (d : ascii) (default : Z) : Z :=
  match found with
  | [] => default
  | (d', w) :: found' =>
      if Ascii.eqb d d' then int_of_str w else found_get found' d default
  end.

(** [repr(s)] of a text without quotes, backslashes or control
    characters; it only occurs in the message of a [ValueError]. *)
Definition repr (s : string) : string := ("'" ++ s ++ "'")%string.

(** [datetime.strptime(data, fmt)].  [ValueError] when the data does not
    match the format, when unconverted data remains after the match, and
    when the fields do not make a date and time. *)
Definition strptime (data fmt : string) : outcome datetime :=
  match fmt_run (format_items fmt) data with
  | [] =>
      Raised (ValueError ("time data " ++ repr data ++
                          " does not match format " ++ repr fmt))
  | (found, rest) :: _ =>
      if truthy rest
      then Raised (ValueError ("unconverted data remains: " ++ rest))
      else datetime_new (found_get found "Y" 1900) (found_get found "m" 1)
             (found_get found "d" 1) (found_get found "H" 0)
             (found_get found "M" 0) (found_get found "S" 0)
  end.

(** [dt + timedelta(hours=1)], as the C implementation normalises the
    fields: the hour is carried into the day, the day into the month and the
    month into the year; a year past [MAXYEAR] raises [OverflowError]. *)
Definition next_day (y m d : Z) : Z * Z * Z :=
  if d <? _days_in_month y m then (y, m, d + 1)
  else if m <? 12 then (y, m + 1, 1)
  else (y + 1, 1, 1).

Definition add_one_hour (dt : datetime) : outcome datetime :=
  if hour dt <? 23
  then Returned (mkDatetime (year dt) (month dt) (day dt)
                   (hour dt + 1) (minute dt) (second dt))
  else
    let '(y, m, d) := next_day (year dt) (month dt) (day dt) in
    if y <=? MAXYEAR
    then Returned (mkDatetime y m d 0 (minute dt) (second dt))
    else Raised (OverflowError "date value out of range").

(** [dt.strftime(fmt)] for the directives above.  The fields other than
    the year are written on two digits.  The year is written on four digits
    where the interpreter or the C library pads it ([pads_year], as the
    documentation of the format codes shows it), and without leading zeros
    where neither does (CPython before 3.13 on glibc); the two agree from
    year 1000 on. *)
Definition directive_text (pads_year : bool) (d : ascii) (dt : datetime) : string :=
  if Ascii.eqb d "Y"
  then (if pads_year then zfill4 (year dt) else str_of_int (year dt))
  else if Ascii.eqb d "m" then zfill2 (month dt)
  else if Ascii.eqb d "d" then zfill2 (day dt)
  else if Ascii.eqb d "H" then zfill2 (hour dt)
  else if Ascii.eqb d "M" then zfill2 (minute dt)
  else if Ascii.eqb d "S" then zfill2 (second dt)
  else String "%" (String d "").

Fixpoint strftime_items (pads_year : bool) (items : list fmt_item) (dt : datetime)
  : string :=
  match items with
  | [] => ""
  | Directive d :: items' =>
      (directive_text pads_year d dt ++ strftime_items pads_year items' dt)%string
  | Literal c :: items' => String c (strftime_items pads_year items' dt)
  end.

Definition strftime (pads_year : bool) (dt : datetime) (fmt : string) : string :=
  strftime_items pads_year (format_items fmt) dt.

End PyDatetime.

(** ** [src/engine/tools.py] *)

Module Tools.
Import PyStr PyDatetime.

Local Open Scope string_scope.

Definition TIMEZONE : string := "America/New_York".

(** The body of a calendar event.  [start] and [end] are either
    [{'dateTime': .., 'timeZone': ..}] or [{'date': ..}]. *)
Inductive event_time : Type :=
| Timed (dateTime timeZone : string)
| AllDay (date : string).

Record event : Type := mkEvent {
  summary : string;
  location : option string;
  description : option string;
  colorId : option string;
  start : event_time;
  end_ : event_time }.

(** An event as the calendar lists it; the keys ['id'] and ['summary'] may
    be missing. *)
Record listed_event : Type := mkListed {
  id : option string;
  listed_summary : option string }.

Record document : Type := mkDocument { page_content : string }.

(** The requests sent to the external services. *)
Inductive call : Type :=
| EventsInsert (calendarId : option string) (body : event)
| EventsList (calendarId : option string) (timeMin timeMax q : string)
| EventsDelete (calendarId : option string) (eventId : string)
| SimilaritySearch (query : string) (k : Z).

(** The external services: what each request answers, given the requests
    issued before it.  [events_insert] answers the created event's id,
    [events_list] the value of the key ['items'] when present. *)
Record service : Type := mkService {
  events_insert : list call -> option string -> event -> outcome (option string);
  events_list :
    list call -> option string -> string -> string -> string ->
    outcome (option (list listed_event));
  events_delete : list call -> option string -> string -> outcome unit;
  similarity_search : list call -> string -> Z -> outcome (list document) }.

(** A tool body: a computation over the log of issued requests. *)
Definition tool (A : Type) : Type := list call -> outcome A * list call.

Definition ret {A} (a : A) : tool A := fun log => (Returned a, log).

Definition raise {A} (e : exn) : tool A := fun log => (Raised e, log).

Definition bind {A B} (m : tool A) (k : A -> tool B) : tool B :=
  fun log =>
    match m log with
    | (Returned a, log') => k a log'
    | (Raised e, log') => (Raised e, log')
    end.

(** [try: m except Exception as e: handler e] *)
Definition try_except {A} (m : tool A) (handler : exn -> tool A) : tool A :=
  fun log =>
    match m log with
    | (Returned a, log') => (Returned a, log')
    | (Raised e, log') => handler e log'
    end.

Definition lift {A} (o : outcome A) : tool A := fun log => (o, log).

(** Issue a request: it is appended to the log, and answered from the
    requests that came before. *)
Definition perform {A} (c : call) (reply : list call -> outcome A) : tool A :=
  fun log => (reply log, (log ++ [c])%list).

Notation "x <- m ;; k" := (bind m (fun x => k))
  (at level 61, m at next level, right associativity).

(** [color_id = "8" if any(kw in title.lower() for kw in [..]) else None] *)
Definition exam_keywords : list string := ["exam"; "midterm"; "quiz"].

Definition color_id (title : string) : option string :=
  if existsb (fun kw => contains kw (lower title)) exam_keywords
  then Some "8" else None.

Definition is_timed (time_str : string) : bool :=
  truthy time_str && truthy (strip time_str) &&
  negb (mem (upper time_str) ["TBD"; "NONE"; "UNKNOWN"; "N/A"]).

(** The filters of [location] and [description], in the timed branch and
    in the all-day branch. *)
Definition keep_timed (x : string) : option string :=
  if truthy x && negb (mem (upper x) ["TBD"; "NONE"; "UNKNOWN"])
  then Some x else None.

Definition keep_all_day (x : string) : option string :=
  if truthy x && truthy (strip x) && negb (mem (upper x) ["TBD"; "NONE"; "UNKNOWN"])
  then Some x else None.

Definition time_format : string := "%Y-%m-%dT%H:%M:%S".

(** The surroundings of the tools: the platform's way of writing a year
    (see [strftime]), the external services and the configured calendar. *)
Section WithService.

Variable pads_year : bool.
Variable svc : service.
Variable CALENDAR_ID : option string.

(** The timed branch (the body of [if is_timed: try: ...]): [Returned None]
    when [except ValueError] sets [event = None]; any other exception is
    not caught there. *)
Definition timed_event (title date_str time_str location description : string)
  : outcome (option event) :=
  let start_time := date_str ++ "T" ++ time_str ++ ":00" in
  match strptime start_time time_format with
  | Raised (ValueError _) => Returned None
  | Raised e => Raised e
  | Returned start_obj =>
      match add_one_hour start_obj with
      | Raised (ValueError _) => Returned None
      | Raised e => Raised e
      | Returned end_obj =>
          let end_time := strftime pads_year end_obj time_format in
          Returned (Some {|
            summary := title;
            location := keep_timed location;
            description := keep_timed description;
            colorId := color_id title;
            start := Timed start_time TIMEZONE;
            end_ := Timed end_time TIMEZONE |})
      end
  end.

Definition all_day_event (title date_str location description : string) : event :=
  {| summary := title;
     location := keep_all_day location;
     description := keep_all_day description;
     colorId := color_id title;
     start := AllDay date_str;
     end_ := AllDay date_str |}.

(** Lines 76-117 of [add_to_calendar]: the event object that is built. *)
Definition build_event (title date_str time_str location description : string)
  : outcome event :=
  match (if is_timed time_str
         then timed_event title date_str time_str location description
         else Returned None) with
  | Raised e => Raised e
  | Returned (Some event) => Returned event
  | Returned None =>
      Returned (all_day_event title date_str location description)
  end.

Definition search_syllabi (query : string) : tool string :=
  docs <- perform (SimilaritySearch query 3) (fun log => similarity_search svc log query 3) ;;
  ret (join (String "010" (String "010" "")) (map page_content docs)).

Definition add_to_calendar (title date_str time_str location description : string)
  : tool string :=
  event <- lift (build_event title date_str time_str location description) ;;
  try_except
    (result <- perform (EventsInsert CALENDAR_ID event)
                 (fun log => events_insert svc log CALENDAR_ID event) ;;
     ret ("Successfully added '" ++ title ++ "' for " ++ date_str ++
          " (Room: " ++ (if truthy description then description else "N/A") ++ ")."))
    (fun e => ret ("Error adding event: " ++ str_of_exn e)).

(** [for event in events: ...delete(eventId=event['id']).execute()] *)
Fixpoint delete_each (events : list listed_event) : tool unit :=
  match events with
  | [] => ret tt
  | event :: events' =>
      event_id <- match id event with
                  | Some i => ret i
                  | None => raise (KeyError "id")
                  end ;;
      _ <- perform (EventsDelete CALENDAR_ID event_id)
             (fun log => events_delete svc log CALENDAR_ID event_id) ;;
      delete_each events'
  end.

Definition delete_event (event_title date_str : string) : tool string :=
  try_except
    (let t_min := date_str ++ "T00:00:00Z" in
     let t_max := date_str ++ "T23:59:59Z" in
     listed <- perform (EventsList CALENDAR_ID t_min t_max event_title)
                 (fun log => events_list svc log CALENDAR_ID t_min t_max event_title) ;;
     let events := match listed with Some items => items | None => [] end in
     match events with
     | [] => ret ("No events found matching '" ++ event_title ++ "' on " ++ date_str ++ ".")
     | _ =>
         _ <- delete_each events ;;
         ret ("Removed " ++ str_of_int (Z.of_nat (List.length events)) ++
              " event(s) matching '" ++ event_title ++ "' from " ++ date_str ++ ".")
     end)
    (fun e => ret ("Error deleting event: " ++ str_of_exn e)).

(** The list request of [delete_event] and the calendar's answer to it. *)
Definition list_request (event_title date_str : string) : call :=
  EventsList CALENDAR_ID (date_str ++ "T00:00:00Z") (date_str ++ "T23:59:59Z") event_title.

Definition list_reply (event_title date_str : string) (log : list call) :=
  events_list svc log CALENDAR_ID (date_str ++ "T00:00:00Z") (date_str ++ "T23:59:59Z")
    event_title.

End WithService.

(** The delete requests of a log. *)
Definition is_delete (c : call) : bool :=
  match c with EventsDelete _ _ => true | _ => false end.

Definition deletes (log : list call) : list call := filter is_delete log.

End Tools.

(** ** [src/engine/agent.py]: thread identifiers of the specialists *)

Module Agent.
Import PyStr.

Local Open Scope string_scope.

Inductive agent : Type :=
| advising_agent
| calendar_agent
| research_agent
| supervisor_agent.

(** [agent.invoke({"messages": [("user", request)]}, config)] with
    [config = {"configurable": {"thread_id": thread_id}}]. *)
Record invocation : Type := mkInvocation {
  invoked : agent;
  thread_id : string;
  request : string }.

(** The process: the module-level variable [_current_thread_id] and the
    invocations made so far. *)
Record process : Type := mkProcess {
  _current_thread_id : option string;
  invocations : list invocation }.

(** [_current_thread_id = None] when the module is loaded. *)
Definition initial : process :=
  {| _current_thread_id := None; invocations := [] |}.

(** The hosted agents: the content of the last message of the result, or
    an exception. *)
Definition hosted : Type := list invocation -> invocation -> outcome string.

Definition set_thread_id (thread_id : string) (p : process) : process :=
  {| _current_thread_id := Some thread_id; invocations := invocations p |}.

Definition invoke (h : hosted) (a : agent) (thread_id request : string)
                  (p : process) : outcome string * process :=
  let i := mkInvocation a thread_id request in
  (h (invocations p) i,
   {| _current_thread_id := _current_thread_id p;
      invocations := (invocations p ++ [i])%list |}).

(** [f"{_current_thread_id}_name" if _current_thread_id else "name"]:
    [None] and the empty string are both false. *)
Definition calendar_sub_thread_id (current : option string) : string :=
  match current with
  | Some t => if truthy t then t ++ "_calendar" else "calendar"
  | None => "calendar"
  end.

Definition research_sub_thread_id (current : option string) : string :=
  match current with
  | Some t => if truthy t then t ++ "_research" else "research"
  | None => "research"
  end.

Definition advisor_sub_thread_id (current : option string) : string :=
  match current with
  | Some t => if truthy t then t ++ "_advisor" else "advisor"
  | None => "advisor"
  end.

Definition calendar_assistant (h : hosted) (request : string) (p : process) :=
  invoke h calendar_agent (calendar_sub_thread_id (_current_thread_id p)) request p.

Definition research_assistant (h : hosted) (request : string) (p : process) :=
  invoke h research_agent (research_sub_thread_id (_current_thread_id p)) request p.

Definition advisor_assistant (h : hosted) (request : string) (p : process) :=
  invoke h advising_agent (advisor_sub_thread_id (_current_thread_id p)) request p.

Definition ask_sentinel (h : hosted) (user_input thread_id : string) (p : process) :=
  invoke h supervisor_agent thread_id user_input (set_thread_id thread_id p).

(** The three specialists, the wrapper tool of each and its thread id. *)
Inductive specialist : Type := calendar | research | advisor.

Definition specialist_name (s : specialist) : string :=
  match s with
  | calendar => "calendar"
  | research => "research"
  | advisor => "advisor"
  end.

Definition sub_thread_id (current : option string) (s : specialist) : string :=
  match s with
  | calendar => calendar_sub_thread_id current
  | research => research_sub_thread_id current
  | advisor => advisor_sub_thread_id current
  end.

Definition wrapper (s : specialist) :=
  match s with
  | calendar => calendar_assistant
  | research => research_assistant
  | advisor => advisor_assistant
  end.

Definition specialist_agent (s : specialist) : agent :=
  match s with
  | calendar => calendar_agent
  | research => research_agent
  | advisor => advising_agent
  end.

(** A sub-thread id splits into a head and its last seven characters,
    which tell the specialist. *)
Definition tail_of (s : specialist) : string :=
  match s with
  | calendar => "alendar"
  | research => "esearch"
  | advisor => "advisor"
  end.

Definition head_of (s : specialist) : string :=
  match s with
  | calendar => "c"
  | research => "r"
  | advisor => ""
  end.

End Agent.

(** ** [src/bot.py]: the Discord adapter *)

Module Bot.
Import PyStr.

Local Open Scope string_scope.

(** What [on_message] reads of a message: the author's id, the content,
    whether the bot user is mentioned ([self.user.mentioned_in(message)])
    and whether the channel is a direct-message channel. *)
Record message : Type := mkMessage {
  author_id : Z;
  content : string;
  mentions_bot : bool;
  is_dm : bool }.

(** [time_bucket = datetime.now().timestamp() // 1800] *)
Definition time_bucket (now_timestamp : Q) : Z :=
  Qfloor (now_timestamp / (1800 # 1))%Q.

(** [thread_id = f"user_{message.author.id}_{int(time_bucket)}"] *)
Definition thread_id (author : Z) (now_timestamp : Q) : string :=
  "user_" ++ str_of_int author ++ "_" ++ str_of_int (time_bucket now_timestamp).

(** [f'<@!{self.user.id}>'] *)
Definition mention_token (self_id : Z) : string :=
  "<@!" ++ str_of_int self_id ++ ">".

(** [message.content.replace(f'<@!{self.user.id}>', '').strip()] *)
Definition user_query (self_id : Z) (content : string) : string :=
  strip (replace content (mention_token self_id) "").

(** [on_message]: [None] when the message is ignored, otherwise the text
    passed to [message.reply], or the exception that [ask_sentinel]
    raised. *)
Definition on_message (h : Agent.hosted) (self_id : Z) (now_timestamp : Q)
                      (m : message) (p : Agent.process)
  : option (outcome string) * Agent.process :=
  if (author_id m =? self_id)%Z then (None, p)
  else
    let thread_id := thread_id (author_id m) now_timestamp in
    if mentions_bot m || is_dm m
    then
      let user_query := user_query self_id (content m) in
      let '(response, p') := Agent.ask_sentinel h user_query thread_id p in
      (Some response, p')
    else (None, p).

End Bot.

(** ** The words of a regular expression and of a format *)

Module RegexLang.
Import PyStr PyDatetime.

Local Open Scope string_scope.

(** [re_lang r w]: the expression [r] matches exactly the text [w]. *)
Fixpoint re_lang (r : regex) (w : string) : Prop :=
  match r with
  | Chr c => exists c', w = String c' "" /\ chr_matches c c' = true
  | Digit => exists c', w = String c' "" /\ isdigit c' = true
  | Rng lo hi => exists c', w = String c' "" /\ between (ord lo) (ord hi) c' = true
  | Cat r1 r2 => exists w1 w2, w = w1 ++ w2 /\ re_lang r1 w1 /\ re_lang r2 w2
  | Alt r1 r2 => re_lang r1 w \/ re_lang r2 w
  end.

(** [fmt_lang items found w]: the format matches exactly the text [w],
    the directives capturing [found]. *)
Fixpoint fmt_lang (items : list fmt_item) (found : found_dict) (w : string) : Prop :=
  match items with
  | [] => found = [] /\ w = ""
  | Literal c :: items' =>
      exists w1 w2, w = w1 ++ w2 /\ re_lang (Chr c) w1 /\ fmt_lang items' found w2
  | Directive d :: items' =>
      exists r w1 w2 found',
        directive_regex d = Some r /\ w = w1 ++ w2 /\ re_lang r w1 /\
        found = (d, w1) :: found' /\ fmt_lang items' found' w2
  end.

(** No character class of the expression holds the character [c]. *)
Fixpoint re_avoids (r : regex) (c : ascii) : bool :=
  match r with
  | Chr c0 => negb (chr_matches c0 c)
  | Digit => negb (isdigit c)
  | Rng lo hi => negb (between (ord lo) (ord hi) c)
  | Cat r1 r2 => re_avoids r1 c && re_avoids r2 c
  | Alt r1 r2 => re_avoids r1 c && re_avoids r2 c
  end.

Fixpoint fmt_avoids (items : list fmt_item) (c : ascii) : bool :=
  match items with
  | [] => true
  | Literal c0 :: items' => negb (chr_matches c0 c) && fmt_avoids items' c
  | Directive d :: items' =>
      match directive_regex d with
      | Some r => re_avoids r c
      | None => true
      end && fmt_avoids items' c
  end.

(** The format of the source, in three parts: the date, the letter [T],
    the time. *)
Definition date_items : list fmt_item :=
  [Directive "Y"; Literal "-"; Directive "m"; Literal "-"; Directive "d"].

Definition hour_minute_items : list fmt_item :=
  [Directive "H"; Literal ":"; Directive "M"].

Definition second_items : list fmt_item := [Literal ":"; Directive "S"].

End RegexLang.

(** ** Notions of the specification *)

Module Spec.
Import PyStr PyDatetime.

Local Open Scope string_scope.

(** A recognised placeholder: a text whose upper-casing is one of [""],
    ["TBD"], ["NONE"], ["UNKNOWN"], ["N/A"]. *)
Definition placeholder (p : string) : Prop :=
  In (upper p) [""; "TBD"; "NONE"; "UNKNOWN"; "N/A"].

(** The placeholders that the filters of [location] and [description]
    know. *)
Definition field_placeholder (p : string) : Prop :=
  In (upper p) [""; "TBD"; "NONE"; "UNKNOWN"].

(** The pattern [HH:MM] of a 24-hour time: two digits, a colon, two
    digits, the hour at most 23 and the minute at most 59. *)
Definition HH_MM (time_str : string) : bool :=
  match time_str with
  | String h1 (String h2 (String c (String m1 (String m2 EmptyString)))) =>
      isdigit h1 && isdigit h2 && Ascii.eqb c ":" && isdigit m1 && isdigit m2 &&
      (int_of_str (String h1 (String h2 "")) <=? 23)%Z &&
      (int_of_str (String m1 (String m2 "")) <=? 59)%Z
  | _ => false
  end.

(** The times that [strptime] reads under [%H:%M]: the whole text matches
    the expression of [%H], a colon and the expression of [%M], with the
    digits [0-9]. *)
Definition reads_as_H_M (time_str : string) : bool :=
  existsb (fun m => negb (truthy (snd m)))
    (fmt_run RegexLang.hour_minute_items time_str).

(** [s.isascii()]: every character of [s] is an ASCII character. *)
Fixpoint isascii (s : string) : bool :=
  match s with
  | EmptyString => true
  | String c s' => (ord c <? 128)%N && isascii s'
  end.

(** Some character of [s] satisfies [f]. *)
Fixpoint holds (f : ascii -> bool) (s : string) : bool :=
  match s with
  | EmptyString => false
  | String c s' => f c || holds f s'
  end.

(** An ASCII character that is neither a digit nor the colon: no
    expression of [%H:%M] takes it, whatever the decimal digits of the
    platform. *)
Definition outside_H_M (c : ascii) : bool :=
  (ord c <? 128)%N && negb (isdigit c) && negb (Ascii.eqb c ":").

(** The times whose reading under [%H:%M] is told by their ASCII
    characters: the texts made of ASCII characters, and the texts that hold
    an ASCII character that the format never takes.  What is left out are
    the texts written with characters outside ASCII only, next to ASCII
    digits and colons: such a character may be a decimal digit of Unicode,
    which [strptime] reads like [0-9]. *)
Definition ascii_settled (time_str : string) : bool :=
  isascii time_str || holds outside_H_M time_str.

(** [sub] occurs in [s]. *)
Definition occurs (sub s : string) : Prop :=
  exists pre post, s = pre ++ sub ++ post.




(** No character of [s] is [c]. *)
Fixpoint free_of (c : ascii) (s : string) : Prop :=
  match s with
  | EmptyString => True
  | String c' s' => c' <> c /\ free_of c s'
  end.

(** The text [w0 tok w1 tok ... wn]. *)
Fixpoint interleave (tok : string) (w0 : string) (ws : list string) : string :=
  match ws with
  | [] => w0
  | w :: ws' => w0 ++ tok ++ interleave tok w ws'
  end.

(** Every delete request for [ids], issued in turn after [log], succeeds. *)
Fixpoint deletes_succeed (svc : Tools.service) (calendar : option string)
                         (ids : list string) (log : list Tools.call) : Prop :=
  match ids with
  | [] => True
  | i :: ids' =>
      Tools.events_delete svc log calendar i = Returned tt /\
      deletes_succeed svc calendar ids' (log ++ [Tools.EventsDelete calendar i])%list
  end.

End Spec.

(** ** Sample services *)

Module Sample.
Import Tools.

Local Open Scope string_scope.

(** Services that accept every request and find nothing. *)
Definition accepting : service :=
  {| events_insert := fun _ _ _ => Returned (Some "evt1");
     events_list := fun _ _ _ _ _ => Returned (Some []);
     events_delete := fun _ _ _ => Returned tt;
     similarity_search := fun _ _ _ => Returned [] |}.

(** Services that fail every request with the same message. *)
Definition failing (msg : string) : service :=
  {| events_insert := fun _ _ _ => Raised (ExternalError msg);
     events_list := fun _ _ _ _ _ => Raised (ExternalError msg);
     events_delete := fun _ _ _ => Raised (ExternalError msg);
     similarity_search := fun _ _ _ => Raised (ExternalError msg) |}.

(** A calendar that lists the given events for every query, and accepts
    or refuses every delete request. *)
Definition listing (items : list listed_event) (delete_reply : outcome unit) : service :=
  {| events_insert := fun _ _ _ => Returned (Some "evt1");
     events_list := fun _ _ _ _ _ => Returned (Some items);
     events_delete := fun _ _ _ => delete_reply;
     similarity_search := fun _ _ _ => Returned [] |}.

Definition two_exams : list listed_event :=
  [mkListed (Some "a1") (Some "MATH 291: Exam 1");
   mkListed (Some "b2") (Some "MATH 291: Exam 1 (room change)")].

End Sample.

(** ** [src/engine/ingest.py] *)

Module Ingest.
Import PyStr.

Local Open Scope string_scope.

(** [s.endswith(suffix)] *)
Fixpoint endswith (s suffix : string) : bool :=
  (s =? suffix)%string ||
  match s with
  | EmptyString => false
  | String _ s' => endswith s' suffix
  end.

(** [os.path.join(a, b)] of [posixpath]. *)
Definition path_join (a b : string) : string :=
  if prefix "/" b then b
  else if (a =? "")%string || endswith a "/" then a ++ b
  else a ++ "/" ++ b.

Section WithDocuments.

(** The documents of the loader and of the splitter. *)
Variable Doc : Type.

(** What [run_ingestion] asks of the file system and of the libraries. *)
Inductive action : Type :=
| PathExists (path : string)
| ListDir (path : string)
| LoadPdf (path : string)
| SplitDocuments (chunk_size chunk_overlap : Z) (docs : list Doc)
| FromDocuments (documents : list Doc) (persist_directory : string).

(** The file system and the libraries: what each request answers, given
    the requests issued before it. *)
Record world : Type := mkWorld {
  path_exists : list action -> string -> bool;
  listdir : list action -> string -> outcome (list string);
  load_pdf : list action -> string -> outcome (list Doc);
  split_documents : list action -> Z -> Z -> list Doc -> outcome (list Doc);
  from_documents : list action -> list Doc -> string -> outcome unit }.

Definition script (A : Type) : Type := list action -> outcome A * list action.

Definition done {A} (a : A) : script A := fun log => (Returned a, log).

Definition andthen {A B} (m : script A) (k : A -> script B) : script B :=
  fun log =>
    match m log with
    | (Returned a, log') => k a log'
    | (Raised e, log') => (Raised e, log')
    end.

Definition ask {A} (a : action) (reply : list action -> outcome A) : script A :=
  fun log => (reply log, (log ++ [a])%list).

Variable w : world.

(** [for file in files: if file.endswith(".pdf"): all_docs.extend(load())] *)
Fixpoint load_each (source_dir : string) (files : list string) (all_docs : list Doc)
  : script (list Doc) :=
  match files with
  | [] => done all_docs
  | file :: files' =>
      if endswith file ".pdf"
      then
        andthen
          (ask (LoadPdf (path_join source_dir file))
             (fun log => load_pdf w log (path_join source_dir file)))
          (fun docs => load_each source_dir files' (all_docs ++ docs)%list)
      else load_each source_dir files' all_docs
  end.

(** [run_ingestion()]; the [print] calls are left out. *)
Definition run_ingestion : script unit :=
  let source_dir := "data/Syllabi" in
  let db_dir := "db" in
  andthen (ask (PathExists source_dir)
             (fun log => Returned (path_exists w log source_dir)))
    (fun found =>
       if negb found then done tt
       else
         andthen (ask (ListDir source_dir) (fun log => listdir w log source_dir))
           (fun files =>
              andthen (load_each source_dir files [])
                (fun all_docs =>
                   andthen
                     (ask (SplitDocuments 1000 200 all_docs)
                        (fun log => split_documents w log 1000 200 all_docs))
                     (fun chunks =>
                        andthen
                          (ask (FromDocuments chunks db_dir)
                             (fun log => from_documents w log chunks db_dir))
                          (fun _ => done tt))))).

(** Every load of [paths], issued in turn after [log], succeeds, with the
    pages [pages]. *)
Fixpoint loads_succeed (paths : list string) (pages : list (list Doc))
                       (log : list action) : Prop :=
  match paths, pages with
  | [], [] => True
  | path :: paths', docs :: pages' =>
      load_pdf w log path = Returned docs /\
      loads_succeed paths' pages' (log ++ [LoadPdf path])%list
  | _, _ => False
  end.

End WithDocuments.

Arguments PathExists {Doc} path.
Arguments ListDir {Doc} path.
Arguments LoadPdf {Doc} path.
Arguments SplitDocuments {Doc} chunk_size chunk_overlap docs.
Arguments FromDocuments {Doc} documents persist_directory.

(** The load, split and store requests of a log. *)
Definition is_load {Doc} (a : action Doc) : bool :=
  match a with LoadPdf _ => true | _ => false end.

Definition is_store {Doc} (a : action Doc) : bool :=
  match a with FromDocuments _ _ => true | _ => false end.

(** The paths of the files of a listing that [run_ingestion] loads. *)
Definition pdf_paths (source_dir : string) (files : list string) : list string :=
  map (path_join source_dir) (filter (fun file => endswith file ".pdf") files).

End Ingest.

(** ** Folders for the examples of the ingestion *)

Module IngestSample.
Import Ingest.

Local Open Scope string_scope.

(** A folder with two course files and a note; the second file is
    damaged. *)
Definition sample_world : world string :=
  {| path_exists := fun _ _ => true;
     listdir := fun _ _ => Returned ["math291.pdf"; "notes.txt"; "cs260.pdf"; "old.PDF"];
     load_pdf := fun _ path =>
       if (path =? "data/Syllabi/math291.pdf")%string
       then Returned ["page 1"; "page 2"]
       else Raised (ExternalError "damaged file");
     split_documents := fun _ _ _ docs => Returned docs;
     from_documents := fun _ _ _ => Returned tt |}.

(** The same folder when the second file reads well, and a machine
    without the folder. *)
Definition sound_world : world string :=
  {| path_exists := fun _ _ => true;
     listdir := fun _ _ => Returned ["math291.pdf"; "notes.txt"; "cs260.pdf"; "old.PDF"];
     load_pdf := fun _ path =>
       if (path =? "data/Syllabi/math291.pdf")%string
       then Returned ["page 1"; "page 2"]
       else Returned ["page A"];
     split_documents := fun _ _ _ docs => Returned docs;
     from_documents := fun _ _ _ => Returned tt |}.

Definition empty_world : world string :=
  {| path_exists := fun _ _ => false;
     listdir := fun _ _ => Raised (ExternalError "no such folder");
     load_pdf := fun _ _ => Raised (ExternalError "no such file");
     split_documents := fun _ _ _ docs => Returned docs;
     from_documents := fun _ _ _ => Returned tt |}.

End IngestSample.

(** ** Sequences of calls to the agents *)

Module Session.
Import Agent.

(** A call from outside the module: [ask_sentinel(user_input, thread_id)],
    or one of the wrapper tools applied to a request. *)
Inductive op : Type :=
| Ask (user_input thread_id : string)
| Call (s : specialist) (request : string).

Definition step (h : hosted) (p : process) (o : op) : process :=
  match o with
  | Ask user_input thread_id => snd (ask_sentinel h user_input thread_id p)
  | Call s request => snd (wrapper s h request p)
  end.

Definition run (h : hosted) (ops : list op) (p : process) : process :=
  fold_left (step h) ops p.

Definition is_call (o : op) : bool :=
  match o with Call _ _ => true | Ask _ _ => false end.

End Session.

(** ** Blank and zero-padded texts *)

Module Texts.
Import PyStr.

Local Open Scope string_scope.

(** Every character of [s] is white space. *)
Fixpoint all_space (s : string) : bool :=
  match s with
  | EmptyString => true
  | String c s' => isspace c && all_space s'
  end.

(** ["YYYY-MM-DD"] and ["HH:MM"] written with leading zeros. *)
Definition padded_date (y m d : Z) : string :=
  zfill4 y ++ "-" ++ zfill2 m ++ "-" ++ zfill2 d.

Definition padded_time (H M : Z) : string := zfill2 H ++ ":" ++ zfill2 M.

(** The text of six fields, in the shape that the format reads. *)
Definition padded_text (y m d H M S : Z) : string :=
  zfill4 y ++ String "-" (zfill2 m ++ String "-" (zfill2 d ++ String "T"
    (zfill2 H ++ String ":" (zfill2 M ++ String ":" (zfill2 S ++ ""))))).

(** The first and the last character of a text. *)
Definition first_char (s : string) : option ascii :=
  match s with
  | EmptyString => None
  | String c _ => Some c
  end.

Fixpoint last_char (s : string) : option ascii :=
  match s with
  | EmptyString => None
  | String c s' =>
      match last_char s' with
      | None => Some c
      | Some c' => Some c'
      end
  end.

End Texts.

(** * Properties *)

(** ** Strings *)

Section StringFacts.

Local Open Scope string_scope.

Lemma append_empty_r (s : string) : s ++ "" = s.
Proof. induction s as [|c s IH]; simpl; [reflexivity | now rewrite IH]. Qed.

Lemma append_assoc (a b c : string) : (a ++ b) ++ c = a ++ (b ++ c).
Proof. induction a as [|x a IH]; simpl; [reflexivity | now rewrite IH]. Qed.

Lemma length_append (a b : string) :
  String.length (a ++ b) = String.length a + String.length b.
Proof. induction a as [|x a IH]; simpl; [reflexivity | now rewrite IH]. Qed.

Lemma length_zero (s : string) : String.length s = 0 -> s = "".
Proof. destruct s; simpl; [reflexivity | discriminate]. Qed.

Lemma append_inv_head (a b c : string) : a ++ b = a ++ c -> b = c.
Proof.
  induction a as [|x a IH]; simpl; intros H; [exact H|].
  injection H as H. now apply IH.
Qed.

(** Two texts that end in suffixes of the same length agree on the
    suffixes and on what comes before. *)
Lemma append_same_length (a b u v : string) :
  String.length u = String.length v ->
  a ++ u = b ++ v -> a = b /\ u = v.
Proof.
  intros Hlen. revert b.
  induction a as [|x a IH]; intros [|y b] H; simpl in H.
  - now split.
  - exfalso. apply (f_equal String.length) in H. simpl in H.
    rewrite length_append in H. lia.
  - exfalso. apply (f_equal String.length) in H. simpl in H.
    rewrite length_append in H. lia.
  - injection H as -> H. destruct (IH _ H) as [-> ->]. now split.
Qed.

Lemma append_inv_tail (a b c : string) : a ++ c = b ++ c -> a = b.
Proof. intros H. now apply (append_same_length a b c c eq_refl). Qed.

Lemma truthy_true (s : string) : PyStr.truthy s = true <-> s <> "".
Proof.
  unfold PyStr.truthy. rewrite negb_true_iff. apply String.eqb_neq.
Qed.

Lemma truthy_false (s : string) : PyStr.truthy s = false <-> s = "".
Proof.
  unfold PyStr.truthy. rewrite negb_false_iff. apply String.eqb_eq.
Qed.

Lemma upper_empty (s : string) : PyStr.upper s = "" -> s = "".
Proof. destruct s; simpl; [reflexivity | discriminate]. Qed.

Lemma lower_append (a b : string) :
  PyStr.lower (a ++ b) = PyStr.lower a ++ PyStr.lower b.
Proof. induction a as [|x a IH]; simpl; [reflexivity | now rewrite IH]. Qed.

(** [str(n)] determines [n]. *)
Lemma str_of_int_inj (a b : Z) : PyStr.str_of_int a = PyStr.str_of_int b -> a = b.
Proof.
  unfold PyStr.str_of_int. intros H.
  assert (Hnn : forall z, Z.to_int z <> Decimal.Pos Decimal.Nil /\
                          Z.to_int z <> Decimal.Neg Decimal.Nil).
  { intros [|p|p]; simpl; split; try discriminate;
      intros [= E]; now apply (DecimalPos.Unsigned.to_uint_nonnil p). }
  apply (f_equal NilZero.int_of_string) in H.
  rewrite !NilZero.isi in H by apply Hnn.
  injection H as H. now apply DecimalZ.to_int_inj.
Qed.

End StringFacts.

(** ** Thread identifiers *)

Section ThreadIds.

Import Agent.
Local Open Scope string_scope.

Lemma sub_thread_id_split (t : string) (s : specialist) :
  sub_thread_id (Some t) s =
  ((if PyStr.truthy t then t ++ "_" else "") ++ head_of s) ++ tail_of s.
Proof.
  destruct s; simpl;
    unfold calendar_sub_thread_id, research_sub_thread_id, advisor_sub_thread_id;
    destruct (PyStr.truthy t); simpl; rewrite ?append_assoc; reflexivity.
Qed.

Lemma tail_of_inj (s1 s2 : specialist) : tail_of s1 = tail_of s2 -> s1 = s2.
Proof. destruct s1, s2; simpl; intros H; try reflexivity; discriminate. Qed.

Lemma parent_prefix_inj (t1 t2 : string) :
  (if PyStr.truthy t1 then t1 ++ "_" else "") =
  (if PyStr.truthy t2 then t2 ++ "_" else "") -> t1 = t2.
Proof.
  destruct (PyStr.truthy t1) eqn:E1, (PyStr.truthy t2) eqn:E2; intros H.
  - now apply append_inv_tail in H.
  - apply (f_equal String.length) in H. rewrite length_append in H.
    simpl in H. lia.
  - apply (f_equal String.length) in H. rewrite length_append in H.
    simpl in H. lia.
  - apply truthy_false in E1, E2. congruence.
Qed.

(** C4: the sub-thread id is an injective function of the parent thread
    id and the specialist: two derived ids are equal only if both the
    parent thread ids and the specialists are. *)
Theorem sub_thread_id_injective (t1 t2 : string) (s1 s2 : specialist) :
  sub_thread_id (Some t1) s1 = sub_thread_id (Some t2) s2 ->
  t1 = t2 /\ s1 = s2.
Proof.
  rewrite !sub_thread_id_split. intros H.
  apply append_same_length in H; [| now destruct s1, s2].
  destruct H as [Hhead Htail].
  apply tail_of_inj in Htail. subst s2. split; [| reflexivity].
  apply append_inv_tail in Hhead. now apply parent_prefix_inj.
Qed.

Lemma sub_thread_id_injective_witness :
  sub_thread_id (Some "user_7_964512") calendar =
    sub_thread_id (Some "user_7_964512") calendar /\
  ("user_7_964512" = "user_7_964512" /\ calendar = calendar).
Proof.
  split; [reflexivity |].
  apply (sub_thread_id_injective "user_7_964512" "user_7_964512" calendar calendar).
  reflexivity.
Defined.

(** C10: while [_current_thread_id] is [None] (never set) or the empty
    string, each wrapper tool invokes its specialist with the bare name
    ["calendar"], ["research"] or ["advisor"] as thread id, whatever the
    request and the process. *)
Theorem unset_thread_id_fallback (h : hosted) (request : string)
                                 (s : specialist) (p : process) :
  _current_thread_id p = None \/ _current_thread_id p = Some "" ->
  sub_thread_id (_current_thread_id p) s = specialist_name s /\
  invocations (snd (wrapper s h request p)) =
    (invocations p ++ [mkInvocation (specialist_agent s) (specialist_name s) request])%list /\
  fst (wrapper s h request p) =
    h (invocations p) (mkInvocation (specialist_agent s) (specialist_name s) request).
Proof.
  intros [H | H]; destruct s; simpl;
    unfold calendar_assistant, research_assistant, advisor_assistant, invoke;
    rewrite H; simpl; auto.
Qed.

Lemma unset_thread_id_fallback_witness :
  invocations (snd (calendar_assistant (fun _ _ => Returned "ok") "add exam" initial)) =
    [mkInvocation calendar_agent "calendar" "add exam"] /\
  invocations (snd (advisor_assistant (fun _ _ => Returned "ok") "grading?"
                      (set_thread_id "" initial))) =
    [mkInvocation advising_agent "advisor" "grading?"].
Proof.
  split.
  - apply (unset_thread_id_fallback (fun _ _ => Returned "ok") "add exam" calendar initial).
    left. reflexivity.
  - apply (unset_thread_id_fallback (fun _ _ => Returned "ok") "grading?" advisor
             (set_thread_id "" initial)).
    right. reflexivity.
Defined.

End ThreadIds.

(** ** The adapter's thread id *)

Section AdapterThreadId.

Import Bot.
Local Open Scope string_scope.

(** The bucket is the floor of the timestamp divided by 1800: the
    timestamp lies in the half-open window of 1800 seconds that the bucket
    numbers. *)
Lemma time_bucket_window (now : Q) :
  (inject_Z (1800 * time_bucket now) <= now)%Q /\
  (now < inject_Z (1800 * (time_bucket now + 1)))%Q.
Proof.
  unfold time_bucket.
  set (x := (now / (1800 # 1))%Q).
  assert (Hx : (now == x * (1800 # 1))%Q).
  { unfold x. field. }
  assert (Hpos : (0 < 1800 # 1)%Q) by reflexivity.
  split.
  - apply Qle_trans with (x * (1800 # 1))%Q; [| rewrite <- Hx; apply Qle_refl].
    rewrite inject_Z_mult, Qmult_comm.
    apply Qmult_le_compat_r; [apply Qfloor_le | now apply Qlt_le_weak].
  - apply Qle_lt_trans with (x * (1800 # 1))%Q; [rewrite <- Hx; apply Qle_refl |].
    rewrite inject_Z_mult, (Qmult_comm (inject_Z 1800)).
    apply Qmult_lt_compat_r; [exact Hpos | apply Qlt_floor].
Qed.

Lemma thread_id_of_bucket (author : Z) (now now' : Q) :
  thread_id author now = thread_id author now' <->
  time_bucket now = time_bucket now'.
Proof.
  unfold thread_id. split.
  - intros H.
    apply append_inv_head in H. apply append_inv_head in H.
    apply append_inv_head in H. now apply str_of_int_inj.
  - now intros ->.
Qed.

(** C5: the adapter's thread id is ["user_{author_id}_{bucket}"] with
    [bucket = floor(now_timestamp / 1800)]; for one author, two thread ids
    are the same text when the buckets are the same, and different texts
    when the buckets differ. *)
Theorem thread_id_bucket (author : Z) (now now' : Q) :
  thread_id author now =
    "user_" ++ PyStr.str_of_int author ++ "_" ++
    PyStr.str_of_int (Qfloor (now / inject_Z 1800)) /\
  ((inject_Z (1800 * time_bucket now) <= now)%Q /\
   (now < inject_Z (1800 * (time_bucket now + 1)))%Q) /\
  (time_bucket now = time_bucket now' ->
   thread_id author now = thread_id author now') /\
  (time_bucket now <> time_bucket now' ->
   thread_id author now <> thread_id author now').
Proof.
  split; [reflexivity |].
  split; [apply time_bucket_window |].
  split; intros H.
  - now apply thread_id_of_bucket.
  - intros E. apply H. now apply thread_id_of_bucket in E.
Qed.

Lemma thread_id_bucket_witness :
  thread_id 42 (3599 # 1) = thread_id 42 (1800 # 1) /\
  thread_id 42 (3599 # 1) <> thread_id 42 (3600 # 1) /\
  thread_id 42 (3599 # 1) = "user_42_1".
Proof.
  split; [| split].
  - apply (thread_id_bucket 42 (3599 # 1) (1800 # 1)). reflexivity.
  - apply (thread_id_bucket 42 (3599 # 1) (3600 # 1)). vm_compute. discriminate.
  - reflexivity.
Defined.

End AdapterThreadId.

(** ** Substrings, [replace] and [strip] *)

Section SubstringFacts.

Import PyStr Spec.
Local Open Scope string_scope.

Lemma prefix_append (a post : string) : prefix a (a ++ post) = true.
Proof.
  induction a as [|x a IH]; simpl; [now destruct post |].
  destruct (ascii_dec x x) as [_ | N]; [exact IH | now elim N].
Qed.

Lemma prefix_split (a s : string) :
  prefix a s = true -> exists post, s = a ++ post.
Proof.
  revert s. induction a as [|x a IH]; intros s H.
  - now exists s.
  - destruct s as [|y s]; simpl in H; [discriminate |].
    destruct (ascii_dec x y) as [-> | _]; [| discriminate].
    destruct (IH _ H) as [post ->]. now exists post.
Qed.

(** [sub in s] holds exactly when [s] is some text, [sub], some text. *)
Lemma contains_occurs (sub s : string) :
  contains sub s = true <-> occurs sub s.
Proof.
  split.
  - induction s as [|c s IH]; cbn [contains]; rewrite orb_true_iff; intros [H | H].
    + apply prefix_split in H as [post ->]. now exists "", post.
    + discriminate.
    + apply prefix_split in H as [post ->]. now exists "", post.
    + destruct (IH H) as (pre & post & ->). now exists (String c pre), post.
  - intros (pre & post & ->).
    induction pre as [|c pre IH].
    + simpl append. destruct (sub ++ post) eqn:E; cbn [contains]; rewrite <- E;
        now rewrite prefix_append.
    + simpl append. cbn [contains]. rewrite IH. apply orb_true_r.
Qed.

Lemma contains_false_iff (sub s : string) :
  contains sub s = false <-> ~ occurs sub s.
Proof.
  rewrite <- contains_occurs. destruct (contains sub s); split; intros H;
    try reflexivity; try discriminate; try (now elim H).
Qed.

Lemma free_of_append (c : ascii) (a b : string) :
  free_of c (a ++ b) <-> free_of c a /\ free_of c b.
Proof.
  induction a as [|x a IH]; simpl; [tauto | rewrite IH; tauto].
Qed.

(** A text without the first character of [sub] does not contain [sub]. *)
Lemma free_of_not_occurs (c : ascii) (sub' s : string) :
  free_of c s -> ~ occurs (String c sub') s.
Proof.
  intros Hfree (pre & post & ->).
  apply free_of_append in Hfree as [_ Hfree]. simpl in Hfree.
  now destruct Hfree as [N _].
Qed.

Lemma free_of_lstrip (c : ascii) (s : string) : free_of c s -> free_of c (lstrip s).
Proof.
  induction s as [|x s IH]; simpl; [trivial |].
  intros [Hx Hs]. destruct (isspace x); [now apply IH | now split].
Qed.

Lemma free_of_rstrip (c : ascii) (s : string) : free_of c s -> free_of c (rstrip s).
Proof.
  induction s as [|x s IH]; simpl; [trivial |].
  intros [Hx Hs]. specialize (IH Hs).
  destruct (rstrip s) as [|y r].
  - destruct (isspace x); simpl; auto.
  - simpl. simpl in IH. tauto.
Qed.

Lemma free_of_strip (c : ascii) (s : string) : free_of c s -> free_of c (strip s).
Proof. intros H. unfold strip. now apply free_of_lstrip, free_of_rstrip. Qed.

(** The characters of an occurrence just found are passed over. *)
Lemma replace_scan_skip (old new a rest : string) :
  replace_scan old new (String.length a) (a ++ rest) = replace_scan old new 0 rest.
Proof.
  induction a as [|x a IH]; simpl; [| exact IH].
  destruct rest; reflexivity.
Qed.

Lemma replace_scan_occurrence (c : ascii) (old' new rest : string) :
  replace_scan (String c old') new 0 (String c old' ++ rest) =
  new ++ replace_scan (String c old') new 0 rest.
Proof.
  cbn [append replace_scan].
  change (String c (old' ++ rest)) with (String c old' ++ rest).
  rewrite prefix_append.
  replace (String.length (String c old') - 1) with (String.length old')
    by (simpl; lia).
  now rewrite replace_scan_skip.
Qed.

(** A stretch without the first character of [old] is copied. *)
Lemma replace_scan_free (c : ascii) (old' new w rest : string) :
  free_of c w ->
  replace_scan (String c old') new 0 (w ++ rest) =
  w ++ replace_scan (String c old') new 0 rest.
Proof.
  induction w as [|x w IH]; intros Hfree; [reflexivity |].
  destruct Hfree as [Hx Hw]. cbn [append replace_scan prefix].
  destruct (ascii_dec c x) as [E | _]; [now elim Hx |].
  now rewrite IH.
Qed.

Lemma replace_scan_free_end (c : ascii) (old' new w : string) :
  free_of c w -> replace_scan (String c old') new 0 w = w.
Proof.
  intros H. rewrite <- (append_empty_r w) at 1.
  rewrite replace_scan_free by exact H. simpl. apply append_empty_r.
Qed.

(** Removing a token from a text made of token-free stretches separated by
    the token leaves the stretches. *)
Lemma replace_interleave (c : ascii) (old' w0 : string) (ws : list string) :
  Forall (free_of c) (w0 :: ws) ->
  replace (interleave (String c old') w0 ws) (String c old') "" =
  interleave "" w0 ws.
Proof.
  unfold replace. revert w0.
  induction ws as [|w ws IH]; intros w0 H.
  - simpl. apply replace_scan_free_end. now inversion H.
  - inversion H as [|? ? H0 Hrest]; subst. cbn [interleave].
    rewrite replace_scan_free by exact H0.
    rewrite replace_scan_occurrence. simpl append.
    now rewrite IH.
Qed.

Lemma free_of_interleave_empty (c : ascii) (w0 : string) (ws : list string) :
  Forall (free_of c) (w0 :: ws) -> free_of c (interleave "" w0 ws).
Proof.
  revert w0. induction ws as [|w ws IH]; intros w0 H.
  - now inversion H.
  - inversion H as [|? ? H0 Hrest]; subst. cbn [interleave].
    apply free_of_append. split; [exact H0 |]. simpl. now apply IH.
Qed.

Lemma occurs_here (sub post : string) : occurs sub (sub ++ post).
Proof. now exists "", post. Qed.

Lemma occurs_later (sub pre s : string) : occurs sub s -> occurs sub (pre ++ s).
Proof.
  intros (a & b & ->). exists (pre ++ a), b. now rewrite append_assoc.
Qed.















(** The text of an integer holds digits and the sign only. *)
Lemma string_of_uint_chars (c : ascii) (d : Decimal.uint) :
  isdigit c = false -> free_of c (NilEmpty.string_of_uint d).
Proof.
  intros Hc. induction d; simpl; try exact I;
    (split; [intros <-; discriminate | exact IHd]).
Qed.

Lemma str_of_int_chars (c : ascii) (z : Z) :
  isdigit c = false -> c <> "-"%char -> free_of c (str_of_int z).
Proof.
  intros Hc Hminus. unfold str_of_int, NilZero.string_of_int, NilZero.string_of_uint.
  assert (Z0 : free_of c "0") by (simpl; split; [intros <-; discriminate | exact I]).
  destruct (Z.to_int z) as [d | d].
  - destruct d; try exact Z0; now apply string_of_uint_chars.
  - split; [congruence |].
    destruct d; try exact Z0; now apply string_of_uint_chars.
Qed.

Lemma str_of_int_not_empty (z : Z) : str_of_int z <> "".
Proof.
  unfold str_of_int, NilZero.string_of_int, NilZero.string_of_uint.
  destruct (Z.to_int z) as [d | d]; [| discriminate].
  destruct d; discriminate.
Qed.

End SubstringFacts.

(** ** The text that the adapter dispatches *)

Section DispatchedText.

Import PyStr Spec Bot.
Local Open Scope string_scope.

Lemma mention_token_head (self_id : Z) :
  mention_token self_id = String "<" ("@!" ++ str_of_int self_id ++ ">").
Proof. reflexivity. Qed.








End DispatchedText.

(** ** The event that [add_to_calendar] builds *)

Section BuiltEvent.

Import PyStr PyDatetime Spec Tools.
Local Open Scope string_scope.

Variable pads_year : bool.

(** The two shapes of a built event. *)
Lemma timed_event_inv (title date_str time_str location description : string)
                      (event : event) :
  timed_event pads_year title date_str time_str location description = Returned (Some event) ->
  exists start_obj end_obj,
    strptime (date_str ++ "T" ++ time_str ++ ":00") time_format = Returned start_obj /\
    add_one_hour start_obj = Returned end_obj /\
    event = {| summary := title;
               location := keep_timed location;
               description := keep_timed description;
               colorId := color_id title;
               start := Timed (date_str ++ "T" ++ time_str ++ ":00") TIMEZONE;
               end_ := Timed (strftime pads_year end_obj time_format) TIMEZONE |}.
Proof.
  unfold timed_event.
  destruct (strptime _ _) as [start_obj | [m | m | k | m]] eqn:Es; try discriminate.
  destruct (add_one_hour start_obj) as [end_obj | [m | m | k | m]] eqn:Ee;
    try discriminate.
  intros [= <-]. now exists start_obj, end_obj.
Qed.

Lemma build_event_inv (title date_str time_str location description : string)
                      (event : event) :
  build_event pads_year title date_str time_str location description = Returned event ->
  (is_timed time_str = true /\
   timed_event pads_year title date_str time_str location description = Returned (Some event)) \/
  event = all_day_event title date_str location description.
Proof.
  unfold build_event. destruct (is_timed time_str).
  - destruct (timed_event pads_year _ _ _ _ _) as [[ev |] | e]; intros [= <-]; auto.
  - intros [= <-]. now right.
Qed.

Lemma build_event_color (title date_str time_str location description : string)
                        (event : event) :
  build_event pads_year title date_str time_str location description = Returned event ->
  colorId event = color_id title.
Proof.
  intros H. apply build_event_inv in H as [[_ H] | ->]; [| reflexivity].
  apply timed_event_inv in H as (s & e & _ & _ & ->). reflexivity.
Qed.

Lemma color_id_tagged (title : string) :
  color_id title = Some "8" <->
  exists kw, In kw exam_keywords /\ occurs kw (lower title).
Proof.
  unfold color_id.
  destruct (existsb _ exam_keywords) eqn:E.
  - apply existsb_exists in E as (kw & Hin & Hkw).
    apply contains_occurs in Hkw. split; [| reflexivity]. intros _. now exists kw.
  - split; [discriminate |]. intros (kw & Hin & Hkw). exfalso.
    apply contains_occurs in Hkw.
    assert (X : existsb (fun kw => contains kw (lower title)) exam_keywords = true)
      by (apply existsb_exists; now exists kw).
    congruence.
Qed.

Lemma color_id_values (title : string) :
  color_id title = Some "8" \/ color_id title = None.
Proof. unfold color_id. destruct (existsb _ _); auto. Qed.

(** C7: in the timed branch and in the all-day branch alike, the built
    event has [colorId] ["8"] exactly when the lower-cased title contains
    ["exam"], ["midterm"] or ["quiz"]; a title that contains ["midterm"]
    written in any case has the tag, and a title whose lower-casing contains
    none of the three keywords has [colorId] [None]. *)
Theorem exam_color_tag (title date_str time_str location description : string)
                       (event : event) :
  build_event pads_year title date_str time_str location description = Returned event ->
  (colorId event = Some "8" <->
   exists kw, In kw ["exam"; "midterm"; "quiz"] /\ occurs kw (lower title)) /\
  (forall word, lower word = "midterm" -> occurs word title ->
                colorId event = Some "8") /\
  ((forall kw, In kw ["exam"; "midterm"; "quiz"] -> ~ occurs kw (lower title)) ->
   colorId event = None).
Proof.
  intros Hbuilt. rewrite (build_event_color _ _ _ _ _ _ Hbuilt).
  split; [apply color_id_tagged |]. split.
  - intros word Hword (pre & post & ->).
    apply color_id_tagged. exists "midterm". split; [simpl; auto |].
    exists (lower pre), (lower post). now rewrite !lower_append, Hword.
  - intros Hnone. destruct (color_id_values title) as [H | H]; [| exact H].
    apply color_id_tagged in H as (kw & Hin & Hkw). now elim (Hnone kw).
Qed.

End BuiltEvent.

Section BuiltEventExamples.

Import PyStr PyDatetime Spec Tools.
Local Open Scope string_scope.

Lemma exam_color_tag_witness :
  colorId (all_day_event "MATH 291: MidTerm 1" "2025-02-04" "" "") = Some "8" /\
  (exists e,
     build_event false "CS 260: Quiz 2" "2025-02-04" "14:00" "" "" = Returned e /\
     start e = Timed "2025-02-04T14:00:00" TIMEZONE /\
     colorId e = Some "8") /\
  colorId (all_day_event "MATH 291: Homework 3" "2025-02-04" "" "") = None.
Proof.
  split; [| split].
  - apply (exam_color_tag false "MATH 291: MidTerm 1" "2025-02-04" "" "" "" _ eq_refl).
    exists "midterm". split; [simpl; auto |].
    now exists "math 291: ", " 1".
  - eexists. split; [vm_compute; reflexivity |]. split; [reflexivity |].
    apply (exam_color_tag false "CS 260: Quiz 2" "2025-02-04" "14:00" "" "" _ eq_refl).
    exists "quiz". split; [simpl; auto |]. now exists "cs 260: ", " 2".
  - apply (exam_color_tag false "MATH 291: Homework 3" "2025-02-04" "" "" "" _ eq_refl).
    intros kw Hkw. apply contains_false_iff.
    destruct Hkw as [<- | [<- | [<- | []]]]; reflexivity.
Defined.

End BuiltEventExamples.

(** ** Placeholders *)

Section Placeholders.

Import PyStr PyDatetime Spec Tools.
Local Open Scope string_scope.

Variable pads_year : bool.
Variable svc : service.
Variable CALENDAR_ID : option string.

Lemma placeholder_not_timed (p : string) : placeholder p -> is_timed p = false.
Proof.
  unfold placeholder, is_timed. simpl.
  intros [H | [H | [H | [H | [H | []]]]]].
  - symmetry in H. apply upper_empty in H. subst p. reflexivity.
  - rewrite <- H. apply andb_false_r.
  - rewrite <- H. apply andb_false_r.
  - rewrite <- H. apply andb_false_r.
  - rewrite <- H. apply andb_false_r.
Qed.

Lemma field_placeholder_dropped (p : string) :
  field_placeholder p -> keep_timed p = None /\ keep_all_day p = None.
Proof.
  unfold field_placeholder, keep_timed, keep_all_day. simpl.
  intros [H | [H | [H | [H | []]]]].
  - symmetry in H. apply upper_empty in H. subst p. now split.
  - rewrite <- H. now rewrite !andb_false_r.
  - rewrite <- H. now rewrite !andb_false_r.
  - rewrite <- H. now rewrite !andb_false_r.
Qed.

Lemma build_event_untimed (title date_str time_str location description : string) :
  is_timed time_str = false ->
  build_event pads_year title date_str time_str location description =
  Returned (all_day_event title date_str location description).
Proof. intros H. unfold build_event. now rewrite H. Qed.

Lemma build_event_location (title date_str time_str description p : string) :
  field_placeholder p ->
  build_event pads_year title date_str time_str p description =
  build_event pads_year title date_str time_str "" description.
Proof.
  intros H. apply field_placeholder_dropped in H as [Ht Ha].
  unfold build_event, timed_event, all_day_event. now rewrite Ht, Ha.
Qed.

Lemma build_event_description (title date_str time_str location p : string) :
  field_placeholder p ->
  build_event pads_year title date_str time_str location p =
  build_event pads_year title date_str time_str location "".
Proof.
  intros H. apply field_placeholder_dropped in H as [Ht Ha].
  unfold build_event, timed_event, all_day_event. now rewrite Ht, Ha.
Qed.

(** What [add_to_calendar] returns, by what happens to the event. *)
Lemma add_to_calendar_raised (title date_str time_str location description : string)
                             (e : exn) (log : list call) :
  build_event pads_year title date_str time_str location description = Raised e ->
  add_to_calendar pads_year svc CALENDAR_ID title date_str time_str location description log =
  (Raised e, log).
Proof. intros H. unfold add_to_calendar, bind, lift. now rewrite H. Qed.

Lemma add_to_calendar_inserted (title date_str time_str location description : string)
                               (event : event) (created : option string)
                               (log : list call) :
  build_event pads_year title date_str time_str location description = Returned event ->
  events_insert svc log CALENDAR_ID event = Returned created ->
  add_to_calendar pads_year svc CALENDAR_ID title date_str time_str location description log =
  (Returned ("Successfully added '" ++ title ++ "' for " ++ date_str ++
             " (Room: " ++ (if truthy description then description else "N/A") ++ ")."),
   (log ++ [EventsInsert CALENDAR_ID event])%list).
Proof.
  intros Hb Hi. unfold add_to_calendar, bind, lift, try_except, perform, ret.
  now rewrite Hb, Hi.
Qed.

Lemma add_to_calendar_failed (title date_str time_str location description : string)
                             (event : event) (e : exn) (log : list call) :
  build_event pads_year title date_str time_str location description = Returned event ->
  events_insert svc log CALENDAR_ID event = Raised e ->
  add_to_calendar pads_year svc CALENDAR_ID title date_str time_str location description log =
  (Returned ("Error adding event: " ++ str_of_exn e),
   (log ++ [EventsInsert CALENDAR_ID event])%list).
Proof.
  intros Hb Hi. unfold add_to_calendar, bind, lift, try_except, perform, ret.
  now rewrite Hb, Hi.
Qed.

(** C1 (amended): a time whose upper-casing is one of [""], ["TBD"],
    ["NONE"], ["UNKNOWN"], ["N/A"] gives the event and the result of the
    empty time; a location whose upper-casing is one of [""], ["TBD"],
    ["NONE"], ["UNKNOWN"] gives the event and the result of the empty
    location; a description whose upper-casing is one of these four gives
    the event of the empty description, hence the same request, and the
    same result when the event is not built or the insert fails, while the
    message of a successful insert quotes the description as it was
    passed. *)
Theorem placeholder_as_empty (title date_str time_str location description p : string)
                             (log : list call) :
  (placeholder p ->
   build_event pads_year title date_str p location description =
     build_event pads_year title date_str "" location description /\
   add_to_calendar pads_year svc CALENDAR_ID title date_str p location description log =
     add_to_calendar pads_year svc CALENDAR_ID title date_str "" location description log) /\
  (field_placeholder p ->
   build_event pads_year title date_str time_str p description =
     build_event pads_year title date_str time_str "" description /\
   add_to_calendar pads_year svc CALENDAR_ID title date_str time_str p description log =
     add_to_calendar pads_year svc CALENDAR_ID title date_str time_str "" description log) /\
  (field_placeholder p ->
   build_event pads_year title date_str time_str location p =
     build_event pads_year title date_str time_str location "" /\
   snd (add_to_calendar pads_year svc CALENDAR_ID title date_str time_str location p log) =
     snd (add_to_calendar pads_year svc CALENDAR_ID title date_str time_str location "" log) /\
   (forall e,
      build_event pads_year title date_str time_str location "" = Raised e ->
      add_to_calendar pads_year svc CALENDAR_ID title date_str time_str location p log =
        add_to_calendar pads_year svc CALENDAR_ID title date_str time_str location "" log) /\
   (forall event e,
      build_event pads_year title date_str time_str location "" = Returned event ->
      events_insert svc log CALENDAR_ID event = Raised e ->
      add_to_calendar pads_year svc CALENDAR_ID title date_str time_str location p log =
        add_to_calendar pads_year svc CALENDAR_ID title date_str time_str location "" log) /\
   (forall event created,
      build_event pads_year title date_str time_str location "" = Returned event ->
      events_insert svc log CALENDAR_ID event = Returned created ->
      fst (add_to_calendar pads_year svc CALENDAR_ID title date_str time_str location p log) =
        Returned ("Successfully added '" ++ title ++ "' for " ++ date_str ++
                  " (Room: " ++ (if truthy p then p else "N/A") ++ ")."))).
Proof.
  split; [| split].
  - intros Hp.
    assert (E : build_event pads_year title date_str p location description =
                build_event pads_year title date_str "" location description).
    { rewrite !build_event_untimed; [reflexivity | reflexivity |].
      now apply placeholder_not_timed. }
    split; [exact E |]. unfold add_to_calendar. now rewrite E.
  - intros Hp.
    pose proof (build_event_location title date_str time_str description p Hp) as E.
    split; [exact E |]. unfold add_to_calendar. now rewrite E.
  - intros Hp.
    pose proof (build_event_description title date_str time_str location p Hp) as E.
    split; [exact E |].
    destruct (build_event pads_year title date_str time_str location "") as [event | e] eqn:Hb.
    + destruct (events_insert svc log CALENDAR_ID event) as [created | e] eqn:Hi.
      * rewrite (add_to_calendar_inserted _ _ _ _ _ _ _ _ E Hi).
        rewrite (add_to_calendar_inserted _ _ _ _ _ _ _ _ Hb Hi).
        repeat split; try discriminate; try reflexivity.
        intros ev e [= <-]. congruence.
      * rewrite (add_to_calendar_failed _ _ _ _ _ _ _ _ E Hi).
        rewrite (add_to_calendar_failed _ _ _ _ _ _ _ _ Hb Hi).
        repeat split; try discriminate; try reflexivity.
        intros ev created [= <-]. congruence.
    + rewrite (add_to_calendar_raised _ _ _ _ _ _ _ E).
      rewrite (add_to_calendar_raised _ _ _ _ _ _ _ Hb).
      repeat split; try discriminate; reflexivity.
Qed.

End Placeholders.

Section PlaceholderExamples.

Import PyStr PyDatetime Spec Tools Sample.
Local Open Scope string_scope.

(** C1, as the specification states it, fails: ["N/A"] is a recognised
    placeholder, yet as a location it is kept in the event, where the empty
    location gives [None]; and the placeholder ["TBD"] as a description
    changes the returned message. *)
Lemma placeholder_counterexample :
  placeholder "N/A" /\ placeholder "TBD" /\
  build_event false "MATH 291: Exam 1" "2025-02-04" "" "N/A" "" =
    Returned {| summary := "MATH 291: Exam 1"; location := Some "N/A";
                description := None; colorId := Some "8";
                start := AllDay "2025-02-04"; end_ := AllDay "2025-02-04" |} /\
  build_event false "MATH 291: Exam 1" "2025-02-04" "" "" "" =
    Returned {| summary := "MATH 291: Exam 1"; location := None;
                description := None; colorId := Some "8";
                start := AllDay "2025-02-04"; end_ := AllDay "2025-02-04" |} /\
  fst (add_to_calendar false accepting None "MATH 291: Exam 1" "2025-02-04" "" "" "TBD" []) =
    Returned "Successfully added 'MATH 291: Exam 1' for 2025-02-04 (Room: TBD)." /\
  fst (add_to_calendar false accepting None "MATH 291: Exam 1" "2025-02-04" "" "" "" []) =
    Returned "Successfully added 'MATH 291: Exam 1' for 2025-02-04 (Room: N/A)." /\
  build_event false "MATH 291: Exam 1" "2025-02-04" "" "N/A" "" <>
    build_event false "MATH 291: Exam 1" "2025-02-04" "" "" "" /\
  fst (add_to_calendar false accepting None "MATH 291: Exam 1" "2025-02-04" "" "" "TBD" []) <>
    fst (add_to_calendar false accepting None "MATH 291: Exam 1" "2025-02-04" "" "" "" []).
Proof.
  unfold placeholder. repeat split; vm_compute; auto 10; discriminate.
Qed.

Lemma placeholder_as_empty_witness :
  build_event false "MATH 291: Exam 1" "2025-02-04" "n/a" "Bossone" "201" =
    build_event false "MATH 291: Exam 1" "2025-02-04" "" "Bossone" "201" /\
  build_event false "MATH 291: Exam 1" "2025-02-04" "14:00" "Unknown" "201" =
    build_event false "MATH 291: Exam 1" "2025-02-04" "14:00" "" "201" /\
  fst (add_to_calendar false accepting None "MATH 291: Exam 1" "2025-02-04" "14:00" "" "tbd" []) =
    Returned "Successfully added 'MATH 291: Exam 1' for 2025-02-04 (Room: tbd).".
Proof.
  split; [| split].
  - apply (placeholder_as_empty false accepting None "MATH 291: Exam 1" "2025-02-04" ""
             "Bossone" "201" "n/a" []).
    unfold placeholder. vm_compute. auto 10.
  - apply (placeholder_as_empty false accepting None "MATH 291: Exam 1" "2025-02-04" "14:00"
             "" "201" "Unknown" []).
    unfold field_placeholder. vm_compute. auto 10.
  - eapply (placeholder_as_empty false accepting None "MATH 291: Exam 1" "2025-02-04" "14:00"
              "" "" "tbd" []).
    + unfold field_placeholder. vm_compute. auto 10.
    + vm_compute. reflexivity.
    + reflexivity.
Defined.

End PlaceholderExamples.

(** ** Failures of the external calls *)

Section ToolBoundary.

Import PyStr Spec Tools.
Local Open Scope string_scope.

Variable pads_year : bool.
Variable svc : service.
Variable CALENDAR_ID : option string.

Lemma delete_event_list_failed (event_title date_str : string) (e : exn)
                               (log : list call) :
  list_reply svc CALENDAR_ID event_title date_str log = Raised e ->
  delete_event svc CALENDAR_ID event_title date_str log =
  (Returned ("Error deleting event: " ++ str_of_exn e),
   (log ++ [list_request CALENDAR_ID event_title date_str])%list).
Proof.
  unfold list_reply. intros H.
  unfold delete_event, try_except, bind, perform, ret. now rewrite H.
Qed.

Lemma delete_event_none (event_title date_str : string) (listed : option (list listed_event))
                        (log : list call) :
  list_reply svc CALENDAR_ID event_title date_str log = Returned listed ->
  match listed with Some items => items | None => [] end = [] ->
  delete_event svc CALENDAR_ID event_title date_str log =
  (Returned ("No events found matching '" ++ event_title ++ "' on " ++ date_str ++ "."),
   (log ++ [list_request CALENDAR_ID event_title date_str])%list).
Proof.
  unfold list_reply. intros H Hnil.
  unfold delete_event, try_except, bind, perform, ret. rewrite H, Hnil. reflexivity.
Qed.

Lemma delete_event_some (event_title date_str : string) (listed : option (list listed_event))
                        (log : list call) :
  list_reply svc CALENDAR_ID event_title date_str log = Returned listed ->
  match listed with Some items => items | None => [] end <> [] ->
  delete_event svc CALENDAR_ID event_title date_str log =
  match delete_each svc CALENDAR_ID
          (match listed with Some items => items | None => [] end)
          (log ++ [list_request CALENDAR_ID event_title date_str])%list with
  | (Returned _, log') =>
      (Returned ("Removed " ++
                 str_of_int (Z.of_nat (List.length
                   (match listed with Some items => items | None => [] end))) ++
                 " event(s) matching '" ++ event_title ++ "' from " ++ date_str ++ "."),
       log')
  | (Raised e, log') => (Returned ("Error deleting event: " ++ str_of_exn e), log')
  end.
Proof.
  unfold list_reply. intros H Hsome.
  unfold delete_event, try_except, bind, perform, ret, list_request. rewrite H.
  destruct (match listed with Some items => items | None => [] end) as [|ev evs] eqn:E;
    [now elim Hsome |].
  destruct (delete_each svc CALENDAR_ID (ev :: evs) _) as [[[] | e] log']; reflexivity.
Qed.

(** One turn of the loop. *)
Lemma delete_each_cons (ev : listed_event) (events : list listed_event) (log : list call) :
  delete_each svc CALENDAR_ID (ev :: events) log =
  match id ev with
  | None => (Raised (KeyError "id"), log)
  | Some i =>
      match events_delete svc log CALENDAR_ID i with
      | Returned _ =>
          delete_each svc CALENDAR_ID events (log ++ [EventsDelete CALENDAR_ID i])%list
      | Raised e => (Raised e, (log ++ [EventsDelete CALENDAR_ID i])%list)
      end
  end.
Proof.
  cbn [delete_each]. unfold bind, ret, raise, perform.
  destruct (id ev) as [i |]; [| reflexivity].
  destruct (events_delete svc log CALENDAR_ID i); reflexivity.
Qed.

(** The loop: when every event has an id and every delete request
    succeeds, one request per event is issued, in order. *)
Lemma delete_each_all (events : list listed_event) (ids : list string) (log : list call) :
  map id events = map Some ids ->
  deletes_succeed svc CALENDAR_ID ids log ->
  delete_each svc CALENDAR_ID events log =
  (Returned tt, (log ++ map (EventsDelete CALENDAR_ID) ids)%list).
Proof.
  revert ids log.
  induction events as [|ev events IH]; intros [|i ids] log Hids Hok;
    try discriminate.
  - simpl. unfold ret. now rewrite List.app_nil_r.
  - simpl in Hids. injection Hids as Hid Hids. destruct Hok as [Hdel Hok].
    rewrite delete_each_cons, Hid, Hdel.
    rewrite (IH ids _ Hids Hok). simpl. now rewrite <- List.app_assoc.
Qed.

(** The loop stops at the first failure. *)
Lemma delete_each_outcome (events : list listed_event) (log : list call) :
  (exists log', delete_each svc CALENDAR_ID events log = (Returned tt, log')) \/
  (exists e log', delete_each svc CALENDAR_ID events log = (Raised e, log')).
Proof.
  revert log. induction events as [|ev events IH]; intros log.
  - left. now exists log.
  - rewrite delete_each_cons.
    destruct (id ev) as [i |]; [| right; eauto].
    destruct (events_delete svc log CALENDAR_ID i) as [[] | e]; [apply IH | right; eauto].
Qed.

Lemma delete_event_returns (event_title date_str : string) (log : list call) :
  exists text, fst (delete_event svc CALENDAR_ID event_title date_str log) = Returned text.
Proof.
  destruct (list_reply svc CALENDAR_ID event_title date_str log) as [listed | e] eqn:Hl.
  - destruct (match listed with Some items => items | None => [] end) as [|ev evs] eqn:E.
    + rewrite (delete_event_none _ _ _ _ Hl E). simpl. eauto.
    + rewrite (delete_event_some _ _ _ _ Hl) by (rewrite E; discriminate).
      destruct (delete_each _ _ _ _) as [[[] | e] log']; simpl; eauto.
  - rewrite (delete_event_list_failed _ _ _ _ Hl). simpl. eauto.
Qed.

(** C3 (amended): a failure of the calendar insert inside
    [add_to_calendar], and a failure of the calendar list or of a calendar
    delete inside [delete_event], is caught in the tool and returned as the
    text ["Error adding event: ..."] or ["Error deleting event: ..."] with
    the message of the exception; [delete_event] raises nothing. *)
Theorem calendar_failures_caught (log : list call) :
  (forall title date_str time_str location description event e,
     build_event pads_year title date_str time_str location description = Returned event ->
     events_insert svc log CALENDAR_ID event = Raised e ->
     add_to_calendar pads_year svc CALENDAR_ID title date_str time_str location description log =
     (Returned ("Error adding event: " ++ str_of_exn e),
      (log ++ [EventsInsert CALENDAR_ID event])%list)) /\
  (forall event_title date_str e,
     list_reply svc CALENDAR_ID event_title date_str log = Raised e ->
     delete_event svc CALENDAR_ID event_title date_str log =
     (Returned ("Error deleting event: " ++ str_of_exn e),
      (log ++ [list_request CALENDAR_ID event_title date_str])%list)) /\
  (forall event_title date_str listed e log',
     list_reply svc CALENDAR_ID event_title date_str log = Returned listed ->
     delete_each svc CALENDAR_ID (match listed with Some items => items | None => [] end)
       (log ++ [list_request CALENDAR_ID event_title date_str])%list = (Raised e, log') ->
     delete_event svc CALENDAR_ID event_title date_str log =
     (Returned ("Error deleting event: " ++ str_of_exn e), log')) /\
  (forall event_title date_str,
     exists text,
       fst (delete_event svc CALENDAR_ID event_title date_str log) = Returned text).
Proof.
  split; [| split; [| split]].
  - intros. now apply add_to_calendar_failed.
  - intros. now apply delete_event_list_failed.
  - intros event_title date_str listed e log' Hl Hd.
    destruct (match listed with Some items => items | None => [] end) as [|ev evs] eqn:E.
    + discriminate.
    + rewrite (delete_event_some _ _ _ _ Hl) by (rewrite E; discriminate).
      rewrite E. now rewrite Hd.
  - intros. apply delete_event_returns.
Qed.

(** C6: when the calendar lists no event for the title and the day, no
    delete request is issued and the result is the message
    ["No events found matching '{title}' on {date}."]; when it lists N
    events, N at least one, and the calendar carries out the deletions,
    exactly N delete requests are issued, one per listed event in order,
    and the result is ["Removed N event(s) matching '{title}' from
    {date}."].  The listed events carry their ids, as every event of a
    listing does; a calendar that refuses a request is the matter of C3. *)
Theorem delete_event_counts (event_title date_str : string)
                            (listed : option (list listed_event))
                            (log : list call) :
  list_reply svc CALENDAR_ID event_title date_str log = Returned listed ->
  (match listed with Some items => items | None => [] end = [] ->
   delete_event svc CALENDAR_ID event_title date_str log =
     (Returned ("No events found matching '" ++ event_title ++ "' on " ++ date_str ++ "."),
      (log ++ [list_request CALENDAR_ID event_title date_str])%list) /\
   deletes (snd (delete_event svc CALENDAR_ID event_title date_str log)) = deletes log) /\
  (forall events ids,
     match listed with Some items => items | None => [] end = events ->
     events <> [] ->
     map id events = map Some ids ->
     deletes_succeed svc CALENDAR_ID ids (log ++ [list_request CALENDAR_ID event_title date_str])%list ->
     delete_event svc CALENDAR_ID event_title date_str log =
       (Returned ("Removed " ++ str_of_int (Z.of_nat (List.length events)) ++
                  " event(s) matching '" ++ event_title ++ "' from " ++ date_str ++ "."),
        (log ++ [list_request CALENDAR_ID event_title date_str] ++
         map (EventsDelete CALENDAR_ID) ids)%list) /\
     deletes (snd (delete_event svc CALENDAR_ID event_title date_str log)) =
       (deletes log ++ map (EventsDelete CALENDAR_ID) ids)%list /\
     List.length ids = List.length events).
Proof.
  intros Hl. split.
  - intros Hnil. rewrite (delete_event_none _ _ _ _ Hl Hnil). split; [reflexivity |].
    simpl. unfold deletes. rewrite filter_app. simpl. apply List.app_nil_r.
  - intros events ids Hev Hsome Hids Hok.
    rewrite (delete_event_some _ _ _ _ Hl) by (rewrite Hev; exact Hsome).
    rewrite Hev. rewrite (delete_each_all _ _ _ Hids Hok). rewrite <- List.app_assoc.
    split; [reflexivity |]. split.
    + simpl snd. unfold deletes, list_request. rewrite filter_app. f_equal.
      cbn [filter is_delete].
      clear. induction ids as [|i ids IH]; simpl; [reflexivity | now rewrite IH].
    + apply (f_equal (@List.length _)) in Hids. now rewrite !length_map in Hids.
Qed.

End ToolBoundary.

Section ToolBoundaryExamples.

Import PyStr Spec Tools Sample.
Local Open Scope string_scope.

(** C3, as the specification states it, fails for the document search:
    [search_syllabi] has no handler, and a failure of the vector store
    leaves the tool as the exception it is. *)
Lemma search_failure_counterexample :
  search_syllabi (failing "index unavailable") "grading policy" [] =
  (Raised (ExternalError "index unavailable"), [SimilaritySearch "grading policy" 3]).
Proof. vm_compute. reflexivity. Qed.

Lemma calendar_failures_caught_witness :
  add_to_calendar false (failing "quota exceeded") None "MATH 291: Exam 1" "2025-02-04"
    "" "" "" [] =
  (Returned "Error adding event: quota exceeded",
   [EventsInsert None (all_day_event "MATH 291: Exam 1" "2025-02-04" "" "")]) /\
  delete_event (failing "quota exceeded") None "MATH 291: Exam 1" "2025-02-04" [] =
  (Returned "Error deleting event: quota exceeded",
   [list_request None "MATH 291: Exam 1" "2025-02-04"]) /\
  delete_event (listing two_exams (Raised (ExternalError "forbidden"))) None
    "MATH 291: Exam 1" "2025-02-04" [] =
  (Returned "Error deleting event: forbidden",
   [list_request None "MATH 291: Exam 1" "2025-02-04"; EventsDelete None "a1"]).
Proof.
  destruct (calendar_failures_caught false (failing "quota exceeded") None [])
    as (Hinsert & Hlist & _ & _).
  destruct (calendar_failures_caught false
              (listing two_exams (Raised (ExternalError "forbidden"))) None [])
    as (_ & _ & Hdelete & _).
  split; [| split].
  - exact (Hinsert "MATH 291: Exam 1" "2025-02-04" "" "" "" _
             (ExternalError "quota exceeded") eq_refl eq_refl).
  - exact (Hlist "MATH 291: Exam 1" "2025-02-04" (ExternalError "quota exceeded") eq_refl).
  - exact (Hdelete "MATH 291: Exam 1" "2025-02-04" (Some two_exams)
             (ExternalError "forbidden") _ eq_refl eq_refl).
Defined.

(** Outside C6, under C3: with two listed events and a calendar that
    refuses deletions, one delete request is issued, the second event is
    never tried, and the result is an error text, not a count. *)
Lemma delete_refused_example :
  list_reply (listing two_exams (Raised (ExternalError "forbidden"))) None
    "MATH 291: Exam 1" "2025-02-04" [] = Returned (Some two_exams) /\
  List.length two_exams = 2 /\
  delete_event (listing two_exams (Raised (ExternalError "forbidden"))) None
    "MATH 291: Exam 1" "2025-02-04" [] =
  (Returned "Error deleting event: forbidden",
   [list_request None "MATH 291: Exam 1" "2025-02-04"; EventsDelete None "a1"]) /\
  List.length
    (deletes (snd (delete_event (listing two_exams (Raised (ExternalError "forbidden")))
                     None "MATH 291: Exam 1" "2025-02-04" []))) = 1.
Proof. repeat split. Qed.

Lemma delete_event_counts_witness :
  delete_event accepting None "MATH 291: Exam 1" "2025-02-04" [] =
  (Returned "No events found matching 'MATH 291: Exam 1' on 2025-02-04.",
   [list_request None "MATH 291: Exam 1" "2025-02-04"]) /\
  delete_event (listing two_exams (Returned tt)) None "MATH 291: Exam 1" "2025-02-04" [] =
  (Returned "Removed 2 event(s) matching 'MATH 291: Exam 1' from 2025-02-04.",
   [list_request None "MATH 291: Exam 1" "2025-02-04";
    EventsDelete None "a1"; EventsDelete None "b2"]).
Proof.
  destruct (delete_event_counts accepting None "MATH 291: Exam 1" "2025-02-04"
              (Some []) [] eq_refl) as [Hnone _].
  destruct (delete_event_counts (listing two_exams (Returned tt)) None
              "MATH 291: Exam 1" "2025-02-04" (Some two_exams) [] eq_refl) as [_ Hsome].
  split.
  - exact (proj1 (Hnone eq_refl)).
  - assert (Hall : deletes_succeed (listing two_exams (Returned tt)) None ["a1"; "b2"]
                     [list_request None "MATH 291: Exam 1" "2025-02-04"])
      by (simpl; auto).
    assert (Hne : two_exams <> []) by discriminate.
    exact (proj1 (Hsome two_exams ["a1"; "b2"] eq_refl Hne eq_refl Hall)).
Defined.

End ToolBoundaryExamples.

(** ** What [strptime] reads *)

Section Strptime.

Import PyStr PyDatetime RegexLang Spec.
Local Open Scope string_scope.

Lemma one_char_spec (p : ascii -> bool) (s w rest : string) :
  In (w, rest) (one_char p s) <->
  s = w ++ rest /\ exists c, w = String c "" /\ p c = true.
Proof.
  unfold one_char. destruct s as [|c s]; simpl.
  - split; [tauto |]. intros [H (c & -> & _)]. discriminate.
  - destruct (p c) eqn:E; simpl.
    + split.
      * intros [[= <- <-] | []]. split; [reflexivity | now exists c].
      * intros [H (c' & -> & Hc)]. simpl in H. injection H as <- <-. now left.
    + split; [tauto |]. intros [H (c' & -> & Hc)]. simpl in H.
      injection H as <- <-. congruence.
Qed.

(** The matches that [re_run] lists are the splits of the text into a
    word of the expression and the rest. *)
Lemma re_run_lang (r : regex) (s w rest : string) :
  In (w, rest) (re_run r s) <-> s = w ++ rest /\ re_lang r w.
Proof.
  revert s w rest. induction r as [c | | lo hi | r1 IH1 r2 IH2 | r1 IH1 r2 IH2];
    intros s w rest; cbn [re_run re_lang].
  - apply one_char_spec.
  - apply one_char_spec.
  - apply one_char_spec.
  - rewrite in_flat_map. split.
    + intros ([w1 s1] & H1 & H2). apply in_map_iff in H2 as ([w2 s2] & E & H2).
      simpl in E, H2. injection E as <- <-.
      apply IH1 in H1 as [-> L1]. apply IH2 in H2 as [-> L2].
      split; [now rewrite append_assoc | now exists w1, w2].
    + intros [-> (w1 & w2 & -> & L1 & L2)].
      exists (w1, w2 ++ rest). split.
      * apply IH1. split; [now rewrite append_assoc | exact L1].
      * apply in_map_iff. exists (w2, rest). split; [reflexivity |].
        apply IH2. now split.
  - rewrite in_app_iff, IH1, IH2. tauto.
Qed.

Lemma fmt_run_lang (items : list fmt_item) (s : string) (found : found_dict)
                   (rest : string) :
  In (found, rest) (fmt_run items s) <->
  exists w, s = w ++ rest /\ fmt_lang items found w.
Proof.
  revert s found rest. induction items as [|[d | c] items IH]; intros s found rest;
    cbn [fmt_run fmt_lang].
  - simpl. split.
    + intros [[= <- <-] | []]. now exists "".
    + intros (w & -> & -> & ->). now left.
  - destruct (directive_regex d) as [r |].
    + rewrite in_flat_map. split.
      * intros ([w1 s1] & H1 & H2). apply in_map_iff in H2 as ([f2 s2] & E & H2).
        simpl in E, H2. injection E as <- <-.
        apply re_run_lang in H1 as [-> L1]. apply IH in H2 as (w2 & -> & L2).
        exists (w1 ++ w2). split; [now rewrite append_assoc |].
        now exists r, w1, w2, f2.
      * intros (w & -> & r' & w1 & w2 & f2 & [= <-] & -> & L1 & -> & L2).
        exists (w1, w2 ++ rest). split.
        -- apply re_run_lang. split; [now rewrite append_assoc | exact L1].
        -- apply in_map_iff. exists (f2, rest). split; [reflexivity |].
           apply IH. now exists w2.
    + split; [intros [] |]. intros (w & _ & r' & w1 & w2 & f2 & [=] & _).
  - rewrite in_flat_map. split.
    + intros ([w1 s1] & H1 & H2). simpl in H2.
      apply (re_run_lang (Chr c)) in H1 as [-> L1]. apply IH in H2 as (w2 & -> & L2).
      exists (w1 ++ w2). split; [now rewrite append_assoc |]. now exists w1, w2.
    + intros (w & -> & w1 & w2 & -> & L1 & L2).
      exists (w1, w2 ++ rest). split.
      * apply (re_run_lang (Chr c)). split; [now rewrite append_assoc | exact L1].
      * apply IH. now exists w2.
Qed.

Lemma fmt_lang_app (a b : list fmt_item) (found : found_dict) (w : string) :
  fmt_lang (a ++ b) found w ->
  exists f1 f2 w1 w2, w = w1 ++ w2 /\ fmt_lang a f1 w1 /\ fmt_lang b f2 w2.
Proof.
  revert found w. induction a as [|[d | c] a IH]; intros found w; cbn [app fmt_lang].
  - intros H. now exists [], found, "", w.
  - intros (r & w1 & w2 & f' & Hd & -> & L1 & -> & L2).
    apply IH in L2 as (f1 & f2 & u1 & u2 & -> & La & Lb).
    exists ((d, w1) :: f1), f2, (w1 ++ u1), u2.
    split; [now rewrite append_assoc |]. split; [| exact Lb].
    now exists r, w1, u1, f1.
  - intros (w1 & w2 & -> & L1 & L2).
    apply IH in L2 as (f1 & f2 & u1 & u2 & -> & La & Lb).
    exists f1, f2, (w1 ++ u1), u2.
    split; [now rewrite append_assoc |]. split; [| exact Lb].
    now exists w1, u1.
Qed.

(** A word of an expression holds no character that its classes avoid. *)
Lemma re_lang_free (r : regex) (c : ascii) (w : string) :
  re_avoids r c = true -> re_lang r w -> free_of c w.
Proof.
  revert w. induction r as [c0 | | lo hi | r1 IH1 r2 IH2 | r1 IH1 r2 IH2];
    intros w; cbn [re_avoids re_lang].
  - intros Hc (c' & -> & Hm). simpl. split; [| exact I].
    intros ->. rewrite Hm in Hc. discriminate.
  - intros Hc (c' & -> & Hm). simpl. split; [| exact I].
    intros ->. rewrite Hm in Hc. discriminate.
  - intros Hc (c' & -> & Hm). simpl. split; [| exact I].
    intros ->. rewrite Hm in Hc. discriminate.
  - intros Hc (w1 & w2 & -> & L1 & L2). apply andb_true_iff in Hc as [H1 H2].
    apply free_of_append. split; auto.
  - intros Hc [L | L]; apply andb_true_iff in Hc as [H1 H2]; auto.
Qed.

Lemma fmt_lang_free (items : list fmt_item) (c : ascii) (found : found_dict) (w : string) :
  fmt_avoids items c = true -> fmt_lang items found w -> free_of c w.
Proof.
  revert found w. induction items as [|[d | c0] items IH]; intros found w;
    cbn [fmt_avoids fmt_lang].
  - intros _ [_ ->]. exact I.
  - intros Hc (r & w1 & w2 & f' & Hd & -> & L1 & -> & L2).
    rewrite Hd in Hc. apply andb_true_iff in Hc as [H1 H2].
    apply free_of_append. split; [now apply (re_lang_free r) | now apply (IH f')].
  - intros Hc (w1 & w2 & -> & L1 & L2). apply andb_true_iff in Hc as [H1 H2].
    apply free_of_append. split; [now apply (re_lang_free (Chr c0)) | now apply (IH found)].
Qed.

(** Two splits of a text at a character that occurs neither before nor
    after the second split point are the same split. *)
Lemma split_at_marker (c y : ascii) (a u b v : string) :
  free_of c b -> free_of c v ->
  a ++ String c u = b ++ String y v -> a = b /\ u = v.
Proof.
  revert b. induction a as [|x a IH]; intros [|z b] Hb Hv H; simpl in H.
  - injection H as _ H. now split.
  - injection H as H _. simpl in Hb. destruct Hb as [N _]. now elim N.
  - injection H as _ H. subst v. apply free_of_append in Hv as [_ Hv].
    simpl in Hv. destruct Hv as [N _]. now elim N.
  - injection H as -> H. simpl in Hb. destruct Hb as [_ Hb].
    destruct (IH b Hb Hv H) as [-> ->]. now split.
Qed.

End Strptime.

Section UnreadTime.

Import PyStr PyDatetime RegexLang Spec Tools.
Local Open Scope string_scope.

Variable pads_year : bool.

Lemma time_format_items :
  format_items time_format =
  (date_items ++ Literal "T" :: (hour_minute_items ++ second_items))%list.
Proof. reflexivity. Qed.

(** The words of [%S] have one or two characters. *)
Lemma re_S_length (w : string) :
  re_lang re_S w -> String.length w = 1 \/ String.length w = 2.
Proof.
  cbn [re_S re_lang].
  intros [(w1 & w2 & -> & (a & -> & _) & (b & -> & _)) |
          [(w1 & w2 & -> & (a & -> & _) & (b & -> & _)) | (a & -> & _)]];
    simpl; auto.
Qed.

(** When the whole of ["{date_str}T{time_str}:00"] matches the format of
    the source, the whole of [time_str] matches [%H:%M]. *)
Lemma full_match_reads (date_str time_str : string) (found : found_dict) :
  In (found, "") (fmt_run (format_items time_format) (date_str ++ "T" ++ time_str ++ ":00")) ->
  reads_as_H_M time_str = true.
Proof.
  rewrite time_format_items. intros H.
  apply fmt_run_lang in H as (w & E & L). rewrite append_empty_r in E.
  apply fmt_lang_app in L as (f1 & f2 & wD & wR' & -> & LD & LR).
  cbn [fmt_lang] in LR. destruct LR as (wT & wR & -> & (y & -> & _) & LR).
  assert (FD : free_of "T" wD) by (now apply (fmt_lang_free date_items "T" f1)).
  assert (FR : free_of "T" wR)
    by (now apply (fmt_lang_free (hour_minute_items ++ second_items) "T" f2)).
  cbn [append] in E.
  apply (split_at_marker "T" y) in E as [-> E]; [| exact FD | exact FR].
  apply fmt_lang_app in LR as (g1 & g2 & wHM & wCS & -> & LHM & LCS).
  assert (Etime : time_str = wHM).
  { cbn [second_items fmt_lang] in LCS.
    destruct LCS as (w1 & w2 & -> & (c4 & -> & Hc4) &
                     (r & u1 & u2 & f' & Hd & -> & LS & -> & [_ ->])).
    injection Hd as <-. rewrite append_empty_r in E.
    destruct (re_S_length _ LS) as [Hlen | Hlen].
    - exfalso.
      change (time_str ++ ":00") with (time_str ++ ":" ++ "00") in E.
      rewrite <- append_assoc in E.
      change (wHM ++ String c4 "" ++ u1) with (wHM ++ String c4 u1) in E.
      apply append_same_length in E as [_ E]; [| simpl; now rewrite Hlen].
      injection E as <- _. vm_compute in Hc4. discriminate.
    - apply append_same_length in E as [E _]; [exact E |].
      simpl. now rewrite Hlen. }
  subst wHM. unfold reads_as_H_M. apply existsb_exists.
  exists (g1, ""). split; [| reflexivity].
  apply fmt_run_lang. exists time_str. split; [now rewrite append_empty_r | exact LHM].
Qed.

(** [strptime] returns a date and time or raises [ValueError]. *)
Lemma datetime_new_outcome (y m d H M S : Z) :
  (exists dt, datetime_new y m d H M S = Returned dt) \/
  (exists msg, datetime_new y m d H M S = Raised (ValueError msg)).
Proof.
  unfold datetime_new.
  repeat match goal with
         | |- context [if ?b then _ else _] => destruct b
         end; eauto.
Qed.

Lemma strptime_outcome (data fmt : string) :
  (exists dt, strptime data fmt = Returned dt) \/
  (exists msg, strptime data fmt = Raised (ValueError msg)).
Proof.
  unfold strptime.
  destruct (fmt_run (format_items fmt) data) as [|[found rest] l]; [eauto |].
  destruct (truthy rest); [eauto |]. apply datetime_new_outcome.
Qed.

Lemma unread_time_fails (date_str time_str : string) :
  reads_as_H_M time_str = false ->
  exists msg,
    strptime (date_str ++ "T" ++ time_str ++ ":00") time_format = Raised (ValueError msg).
Proof.
  intros Hunread.
  destruct (strptime_outcome (date_str ++ "T" ++ time_str ++ ":00") time_format)
    as [[dt H] | H]; [| exact H].
  exfalso. unfold strptime in H.
  destruct (fmt_run _ _) as [|[found rest] l] eqn:E; [discriminate |].
  destruct (truthy rest) eqn:T; [discriminate |].
  apply truthy_false in T. subst rest.
  assert (R : reads_as_H_M time_str = true).
  { apply (full_match_reads date_str time_str found). rewrite E. now left. }
  congruence.
Qed.

Lemma build_event_unparsed (title date_str time_str location description msg : string) :
  strptime (date_str ++ "T" ++ time_str ++ ":00") time_format = Raised (ValueError msg) ->
  build_event pads_year title date_str time_str location description =
  Returned (all_day_event title date_str location description).
Proof.
  intros H. unfold build_event, timed_event. rewrite H.
  now destruct (is_timed time_str).
Qed.

End UnreadTime.

Section TimePatterns.

Import PyStr PyDatetime RegexLang Spec Tools.
Local Open Scope string_scope.

Lemma between_spec (lo hi : N) (c : ascii) :
  between lo hi c = true <-> (lo <= ord c <= hi)%N.
Proof.
  unfold between. rewrite andb_true_iff, !N.leb_le. tauto.
Qed.

Lemma ord_inj (c : ascii) (n : N) : ord c = n -> c = ascii_of_N n.
Proof. intros <-. unfold ord. now rewrite ascii_N_embedding. Qed.

(** The times that [%H:%M] reads: an hour and a minute, each a word of its
    expression, with a colon between them. *)
Lemma reads_as_H_M_shape (time_str : string) :
  reads_as_H_M time_str = true <->
  exists h m, time_str = h ++ ":" ++ m /\ re_lang re_H h /\ re_lang re_M m.
Proof.
  unfold reads_as_H_M. rewrite existsb_exists. split.
  - intros ([found rest] & Hin & Hrest). simpl in Hrest.
    apply negb_true_iff, truthy_false in Hrest. subst rest.
    apply fmt_run_lang in Hin as (w & E & L). rewrite append_empty_r in E. subst w.
    cbn [hour_minute_items fmt_lang] in L.
    destruct L as (r & h & w2 & f' & [= <-] & -> & LH & -> &
                   (wc & w3 & -> & (c & -> & Hc) &
                    (r' & m & w4 & f'' & [= <-] & -> & LM & -> & [_ ->]))).
    assert (c = ":"%char) as ->.
    { unfold chr_matches in Hc. apply Ascii.eqb_eq in Hc.
      unfold char_lower in Hc at 1. simpl in Hc.
      unfold char_lower in Hc. destruct (between 65 90 c) eqn:B; [| congruence].
      apply between_spec in B. apply (f_equal N_of_ascii) in Hc.
      rewrite N_ascii_embedding in Hc; [simpl in Hc; unfold ord in *; lia |].
      unfold ord in *. lia. }
    exists h, m. rewrite append_empty_r. auto.
  - intros (h & m & -> & LH & LM).
    exists ([("H"%char, h); ("M"%char, m)], ""). split; [| reflexivity].
    apply fmt_run_lang. exists (h ++ ":" ++ m).
    split; [now rewrite append_empty_r |].
    cbn [hour_minute_items fmt_lang].
    exists re_H, h, (":" ++ m), [("M"%char, m)]. repeat split; try assumption.
    exists ":", m. repeat split.
    + now exists ":"%char.
    + exists re_M, m, "", []. repeat split; try assumption. now rewrite append_empty_r.
Qed.

(** A time of the pattern [HH:MM] is read. *)
Lemma HH_MM_reads (time_str : string) :
  HH_MM time_str = true -> reads_as_H_M time_str = true.
Proof.
  unfold HH_MM.
  destruct time_str as [|h1 [|h2 [|c [|m1 [|m2 [|x t]]]]]]; try discriminate.
  rewrite !andb_true_iff.
  intros [[[[[[Hh1 Hh2] Hc] Hm1] Hm2] Hhour] Hminute].
  apply Ascii.eqb_eq in Hc. subst c.
  unfold int_of_str in Hhour, Hminute. cbn [int_of_digits_from] in Hhour, Hminute.
  rewrite Hh1, Hh2 in Hhour. rewrite Hm1, Hm2 in Hminute.
  apply Z.leb_le in Hhour, Hminute. unfold digit_value in Hhour, Hminute.
  unfold isdigit in *. apply between_spec in Hh1, Hh2, Hm1, Hm2.
  apply reads_as_H_M_shape.
  exists (String h1 (String h2 "")), (String m1 (String m2 "")).
  split; [reflexivity |]. split.
  - cbn [re_H re_lang].
    destruct (N.eq_dec (ord h1) 50) as [E | N].
    + left. exists (String h1 ""), (String h2 ""). split; [reflexivity |]. split.
      * exists h1. split; [reflexivity |]. apply ord_inj in E. now subst h1.
      * exists h2. split; [reflexivity |]. apply between_spec. simpl. lia.
    + right. left. exists (String h1 ""), (String h2 ""). split; [reflexivity |]. split.
      * exists h1. split; [reflexivity |]. apply between_spec. simpl. lia.
      * exists h2. split; [reflexivity |]. apply between_spec. lia.
  - cbn [re_M re_lang]. left.
    exists (String m1 ""), (String m2 ""). split; [reflexivity |]. split.
    + exists m1. split; [reflexivity |]. apply between_spec. simpl. lia.
    + exists m2. split; [reflexivity |]. apply between_spec. lia.
Qed.

(** No time that [%H:%M] reads holds an ASCII character other than a
    digit and the colon. *)
Lemma outside_avoided (c : ascii) :
  outside_H_M c = true -> fmt_avoids hour_minute_items c = true.
Proof.
  destruct c as [[|] [|] [|] [|] [|] [|] [|] [|]]; vm_compute; congruence.
Qed.

Lemma free_of_holds (f : ascii -> bool) (s : string) :
  holds f s = true -> exists c, f c = true /\ ~ free_of c s.
Proof.
  induction s as [|x s IH]; cbn [holds]; [discriminate |].
  intros H. apply orb_true_iff in H as [H | H].
  - exists x. split; [exact H |]. intros [N _]. now elim N.
  - destruct (IH H) as (c & Hc & Hs). exists c. split; [exact Hc |].
    intros [_ F]. now elim Hs.
Qed.

Lemma outside_unread (time_str : string) :
  holds outside_H_M time_str = true -> reads_as_H_M time_str = false.
Proof.
  intros H. destruct (free_of_holds _ _ H) as (c & Hc & Hs).
  destruct (reads_as_H_M time_str) eqn:R; [| reflexivity].
  exfalso. apply Hs. unfold reads_as_H_M in R.
  apply existsb_exists in R as ([found rest] & Hin & Hrest). simpl in Hrest.
  apply negb_true_iff, truthy_false in Hrest. subst rest.
  apply fmt_run_lang in Hin as (w & E & L). rewrite append_empty_r in E. subst w.
  apply (fmt_lang_free hour_minute_items c found); [now apply outside_avoided | exact L].
Qed.

Variable pads_year : bool.
Variable svc : service.
Variable CALENDAR_ID : option string.

(** C2 (amended): for every time that [strptime] does not read under
    [%H:%M] (an hour of one or two digits up to 23, a colon, a minute of one
    or two digits up to 59) and that is made of ASCII characters, or holds
    an ASCII character other than a digit and the colon, and for every
    title and date, the event built is the all-day event of the date, with
    [date] and no [dateTime] at both ends, and [add_to_calendar] returns a
    text: nothing is raised.  Such a time is never of the pattern [HH:MM].
    A time written with decimal digits outside ASCII, which [strptime]
    reads as well, is left out of the statement. *)
Theorem unread_time_all_day (title date_str time_str location description : string)
                            (log : list call) :
  ascii_settled time_str = true ->
  reads_as_H_M time_str = false ->
  HH_MM time_str = false /\
  build_event pads_year title date_str time_str location description =
    Returned (all_day_event title date_str location description) /\
  start (all_day_event title date_str location description) = AllDay date_str /\
  end_ (all_day_event title date_str location description) = AllDay date_str /\
  exists text,
    add_to_calendar pads_year svc CALENDAR_ID title date_str time_str location description log =
    (Returned text,
     (log ++ [EventsInsert CALENDAR_ID
                (all_day_event title date_str location description)])%list).
Proof.
  intros _ Hunread.
  assert (Hb : build_event pads_year title date_str time_str location description =
               Returned (all_day_event title date_str location description)).
  { destruct (unread_time_fails date_str time_str Hunread) as [msg Hmsg].
    now apply (build_event_unparsed _ _ _ _ _ _ msg). }
  split.
  { destruct (HH_MM time_str) eqn:E; [| reflexivity].
    apply HH_MM_reads in E. congruence. }
  split; [exact Hb |]. split; [reflexivity |]. split; [reflexivity |].
  destruct (events_insert svc log CALENDAR_ID
              (all_day_event title date_str location description)) as [created | e] eqn:Hi.
  - rewrite (add_to_calendar_inserted _ _ _ _ _ _ _ _ _ _ _ Hb Hi). eauto.
  - rewrite (add_to_calendar_failed _ _ _ _ _ _ _ _ _ _ _ Hb Hi). eauto.
Qed.

End TimePatterns.

Section TimePatternExamples.

Import PyStr PyDatetime RegexLang Spec Tools Sample.
Local Open Scope string_scope.

(** C2, as the specification states it, fails: ["9:30"] is not of the
    pattern [HH:MM], yet [strptime] reads it and the event is timed. *)
Lemma loose_time_counterexample :
  HH_MM "9:30" = false /\
  build_event false "MATH 291: Exam 1" "2025-02-04" "9:30" "" "" =
    Returned {| summary := "MATH 291: Exam 1"; location := None; description := None;
                colorId := Some "8";
                start := Timed "2025-02-04T9:30:00" "America/New_York";
                end_ := Timed "2025-02-04T10:30:00" "America/New_York" |} /\
  build_event false "MATH 291: Exam 1" "2025-02-04" "9:30" "" "" <>
    Returned (all_day_event "MATH 291: Exam 1" "2025-02-04" "" "").
Proof. repeat split; vm_compute; try reflexivity; discriminate. Qed.

Lemma unread_time_all_day_witness :
  reads_as_H_M "2pm" = false /\ reads_as_H_M "24:00" = false /\
  reads_as_H_M "14:00:00" = false /\ reads_as_H_M "09:30" = true /\
  build_event false "MATH 291: Exam 1" "2025-02-04" "2pm" "" "" =
    Returned (all_day_event "MATH 291: Exam 1" "2025-02-04" "" "") /\
  (isascii "après-midi" = false /\
   build_event false "MATH 291: Exam 1" "2025-02-04" "après-midi" "" "" =
     Returned (all_day_event "MATH 291: Exam 1" "2025-02-04" "" "")) /\
  exists text,
    add_to_calendar false (failing "quota exceeded") None "MATH 291: Exam 1" "2025-02-04"
      "24:00" "" "" [] =
    (Returned text,
     [EventsInsert None (all_day_event "MATH 291: Exam 1" "2025-02-04" "" "")]).
Proof.
  do 4 (split; [reflexivity |]). split; [| split; [split; [reflexivity |] |]].
  - apply (unread_time_all_day false accepting None "MATH 291: Exam 1" "2025-02-04" "2pm"
             "" "" []); reflexivity.
  - apply (unread_time_all_day false accepting None "MATH 291: Exam 1" "2025-02-04"
             "après-midi" "" "" []); reflexivity.
  - apply (unread_time_all_day false (failing "quota exceeded") None "MATH 291: Exam 1"
             "2025-02-04" "24:00" "" "" [] eq_refl eq_refl).
Defined.

End TimePatternExamples.

(** ** One hour later *)

Section OneHourLater.

Import PyStr PyDatetime RegexLang Spec Tools.
Local Open Scope Z_scope.

Lemma datetime_new_valid (y m d H M S : Z) (dt : datetime) :
  datetime_new y m d H M S = Returned dt ->
  dt = mkDatetime y m d H M S /\ valid_datetime dt.
Proof.
  unfold datetime_new.
  repeat match goal with
         | |- context [if negb ?b then _ else _] =>
             destruct b eqn:?; cbn [negb]; [| discriminate]
         end.
  intros [= <-]. split; [reflexivity |].
  repeat match goal with
         | H : _ && _ = true |- _ => apply andb_true_iff in H as [? ?]
         | H : (_ <=? _) = true |- _ => apply Z.leb_le in H
         end.
  unfold valid_datetime. simpl. lia.
Qed.

Lemma strptime_valid (data fmt : string) (dt : datetime) :
  strptime data fmt = Returned dt -> valid_datetime dt.
Proof.
  unfold strptime.
  destruct (fmt_run _ _) as [|[found rest] l]; [discriminate |].
  destruct (truthy rest); [discriminate |].
  intros H. now apply datetime_new_valid in H.
Qed.

Lemma is_leap_spec (y : Z) :
  _is_leap y = true <-> y mod 4 = 0 /\ (y mod 100 <> 0 \/ y mod 400 = 0).
Proof.
  unfold _is_leap.
  rewrite andb_true_iff, orb_true_iff, negb_true_iff, !Z.eqb_eq, Z.eqb_neq. tauto.
Qed.

(** A year has 365 days, and one more when it is a leap year. *)
Lemma days_before_year_succ (y : Z) :
  _days_before_year (y + 1) =
  _days_before_year y + 365 + (if _is_leap y then 1 else 0).
Proof.
  unfold _days_before_year. replace (y + 1 - 1) with y by lia.
  destruct (_is_leap y) eqn:L.
  - apply is_leap_spec in L. Z.to_euclidean_division_equations. lia.
  - assert (N : ~ (y mod 4 = 0 /\ (y mod 100 <> 0 \/ y mod 400 = 0))).
    { intros H. apply is_leap_spec in H. congruence. }
    Z.to_euclidean_division_equations. lia.
Qed.

Lemma days_before_month_succ (y m : Z) :
  1 <= m < 12 ->
  _days_before_month y (m + 1) = _days_before_month y m + _days_in_month y m.
Proof.
  intros Hm.
  assert (C : m = 1 \/ m = 2 \/ m = 3 \/ m = 4 \/ m = 5 \/ m = 6 \/ m = 7 \/
              m = 8 \/ m = 9 \/ m = 10 \/ m = 11) by lia.
  unfold _days_before_month, _days_in_month.
  repeat destruct C as [-> | C]; try subst m; simpl; destruct (_is_leap y); reflexivity.
Qed.

Lemma days_in_december (y : Z) :
  _days_before_month y 12 + _days_in_month y 12 =
  365 + (if _is_leap y then 1 else 0).
Proof.
  unfold _days_before_month, _days_in_month. simpl. now destruct (_is_leap y).
Qed.

Lemma days_in_month_bounds (y m : Z) :
  1 <= m <= 12 -> 28 <= _days_in_month y m <= 31.
Proof.
  intros Hm.
  assert (C : m = 1 \/ m = 2 \/ m = 3 \/ m = 4 \/ m = 5 \/ m = 6 \/ m = 7 \/
              m = 8 \/ m = 9 \/ m = 10 \/ m = 11 \/ m = 12) by lia.
  unfold _days_in_month.
  repeat destruct C as [-> | C]; try subst m; simpl; try destruct (_is_leap y);
    unfold _DAYS_IN_MONTH; simpl; lia.
Qed.

(** The day after a date is the next ordinal. *)
Lemma next_day_ordinal (y m d : Z) :
  1 <= m <= 12 -> 1 <= d <= _days_in_month y m ->
  let '(y', m', d') := next_day y m d in
  _ymd2ord y' m' d' = _ymd2ord y m d + 1 /\
  1 <= m' <= 12 /\ 1 <= d' <= _days_in_month y' m' /\
  (y' = y \/ (y' = y + 1 /\ m = 12 /\ d = 31)).
Proof.
  intros Hm Hd. unfold next_day.
  destruct (Z.ltb_spec d (_days_in_month y m)) as [Hlt | Hge].
  - unfold _ymd2ord. repeat split; lia.
  - assert (d = _days_in_month y m) as -> by lia.
    destruct (Z.ltb_spec m 12) as [Hm12 | Hm12].
    + unfold _ymd2ord. rewrite days_before_month_succ by lia.
      pose proof (days_in_month_bounds y (m + 1)). repeat split; lia.
    + assert (m = 12) as -> by lia.
      unfold _ymd2ord. rewrite days_before_year_succ.
      pose proof (days_in_december y) as D.
      assert (E31 : _days_in_month y 12 = 31) by reflexivity.
      assert (E1 : _days_before_month (y + 1) 1 = 0) by reflexivity.
      assert (E2 : _days_in_month (y + 1) 1 = 31) by reflexivity.
      rewrite E1, E2. repeat split; lia.
Qed.

(** [dt + timedelta(hours=1)] is the instant 3600 seconds later, unless
    [dt] is in the last hour of the last day of year 9999. *)
Lemma add_one_hour_spec (dt : datetime) :
  valid_datetime dt ->
  (year dt < 9999 \/ month dt < 12 \/ day dt < 31 \/ hour dt < 23) ->
  exists dt', add_one_hour dt = Returned dt' /\
              valid_datetime dt' /\ instant dt' = instant dt + 3600.
Proof.
  intros (Hy & Hm & Hd & Hh & Hmin & Hs) Hbefore. unfold add_one_hour.
  unfold MINYEAR, MAXYEAR in *.
  destruct (Z.ltb_spec (hour dt) 23) as [Hlt | Hge].
  - eexists. split; [reflexivity |]. split.
    + unfold valid_datetime, MINYEAR, MAXYEAR. simpl. lia.
    + unfold instant, toordinal. simpl. lia.
  - pose proof (next_day_ordinal (year dt) (month dt) (day dt) Hm Hd) as N.
    destruct (next_day (year dt) (month dt) (day dt)) as [[y' m'] d'].
    destruct N as (Hord & Hm' & Hd' & Hy').
    assert (Hy9 : y' <= 9999) by lia.
    apply Z.leb_le in Hy9. unfold MAXYEAR. rewrite Hy9.
    eexists. split; [reflexivity |]. split.
    + unfold valid_datetime, MINYEAR, MAXYEAR. simpl. apply Z.leb_le in Hy9. lia.
    + unfold instant, toordinal. simpl. rewrite Hord. lia.
Qed.

End OneHourLater.

(** ** [strptime] reads back what [strftime] writes *)

Section ReadBack.

Import PyStr PyDatetime RegexLang Spec Tools.
Local Open Scope string_scope.

Lemma ord_digit_char (k : Z) : ord (digit_char k) = Z.to_N (48 + k mod 10).
Proof.
  unfold ord, digit_char. apply N_ascii_embedding.
  pose proof (Z.mod_pos_bound k 10 eq_refl). lia.
Qed.

Lemma isdigit_digit_char (k : Z) : isdigit (digit_char k) = true.
Proof.
  unfold isdigit. apply between_spec. rewrite ord_digit_char.
  pose proof (Z.mod_pos_bound k 10 eq_refl). lia.
Qed.

Lemma digit_value_digit_char (k : Z) : digit_value (digit_char k) = (k mod 10)%Z.
Proof.
  unfold digit_value. rewrite ord_digit_char.
  pose proof (Z.mod_pos_bound k 10 eq_refl). lia.
Qed.

Lemma int_of_str_zfill2 (n : Z) : (0 <= n <= 99)%Z -> int_of_str (zfill2 n) = n.
Proof.
  intros Hn. unfold int_of_str, zfill2. cbn [int_of_digits_from].
  rewrite !isdigit_digit_char, !digit_value_digit_char.
  Z.to_euclidean_division_equations. lia.
Qed.

Lemma int_of_str_zfill4 (n : Z) : (0 <= n <= 9999)%Z -> int_of_str (zfill4 n) = n.
Proof.
  intros Hn. unfold int_of_str, zfill4. cbn [int_of_digits_from].
  rewrite !isdigit_digit_char, !digit_value_digit_char.
  Z.to_euclidean_division_equations. lia.
Qed.

(** The first match of a two-digit field is the field. *)
Ltac first_match_by_cases v bound :=
  let n := fresh "n" in
  let Hn := fresh "Hn" in
  assert (exists n, v = Z.of_nat n /\ (n < bound)%nat) as (n & -> & Hn)
    by (exists (Z.to_nat v); lia);
  repeat (destruct n as [|n]; [first [eexists; reflexivity | lia] | try lia]).

Lemma re_m_first (v : Z) (rest : string) :
  (1 <= v <= 12)%Z -> exists l, re_run re_m (zfill2 v ++ rest) = (zfill2 v, rest) :: l.
Proof. intros Hv. first_match_by_cases v 13%nat. Qed.

Lemma re_d_first (v : Z) (rest : string) :
  (1 <= v <= 31)%Z -> exists l, re_run re_d (zfill2 v ++ rest) = (zfill2 v, rest) :: l.
Proof. intros Hv. first_match_by_cases v 32%nat. Qed.

Lemma re_H_first (v : Z) (rest : string) :
  (0 <= v <= 23)%Z -> exists l, re_run re_H (zfill2 v ++ rest) = (zfill2 v, rest) :: l.
Proof. intros Hv. first_match_by_cases v 24%nat. Qed.

Lemma re_M_first (v : Z) (rest : string) :
  (0 <= v <= 59)%Z -> exists l, re_run re_M (zfill2 v ++ rest) = (zfill2 v, rest) :: l.
Proof. intros Hv. first_match_by_cases v 60%nat. Qed.

Lemma re_S_first (v : Z) (rest : string) :
  (0 <= v <= 59)%Z -> exists l, re_run re_S (zfill2 v ++ rest) = (zfill2 v, rest) :: l.
Proof. intros Hv. first_match_by_cases v 60%nat. Qed.

Lemma one_char_digit (k : Z) (s : string) :
  one_char isdigit (String (digit_char k) s) = [(String (digit_char k) "", s)].
Proof. unfold one_char. now rewrite isdigit_digit_char. Qed.

Lemma re_Y_first (v : Z) (rest : string) :
  re_run re_Y (zfill4 v ++ rest) = [(zfill4 v, rest)].
Proof.
  unfold re_Y, zfill4. cbn [re_run append].
  repeat (rewrite one_char_digit; cbn [flat_map map fst snd app append]).
  reflexivity.
Qed.

Lemma fmt_run_directive_first (d : ascii) (r : regex) (items : list fmt_item)
                               (s w rest : string) (l : list (string * string))
                               (found : found_dict) (rest' : string)
                               (l' : list (found_dict * string)) :
  directive_regex d = Some r ->
  re_run r s = (w, rest) :: l ->
  fmt_run items rest = (found, rest') :: l' ->
  exists l'', fmt_run (Directive d :: items) s = ((d, w) :: found, rest') :: l''.
Proof.
  intros Hd Hr Hf. cbn [fmt_run]. rewrite Hd, Hr. cbn [flat_map fst snd].
  rewrite Hf. cbn [map fst snd app]. eauto.
Qed.

Lemma fmt_run_literal_first (c : ascii) (items : list fmt_item) (rest : string)
                             (found : found_dict) (rest' : string)
                             (l' : list (found_dict * string)) :
  chr_matches c c = true ->
  fmt_run items rest = (found, rest') :: l' ->
  exists l'', fmt_run (Literal c :: items) (String c rest) = (found, rest') :: l''.
Proof.
  intros Hc Hf. cbn [fmt_run re_run]. unfold one_char. rewrite Hc.
  cbn [flat_map fst snd]. rewrite Hf. rewrite List.app_nil_r. eauto.
Qed.

Lemma datetime_new_of_valid (dt : datetime) :
  valid_datetime dt ->
  datetime_new (year dt) (month dt) (day dt) (hour dt) (minute dt) (second dt) =
  Returned dt.
Proof.
  intros (Hy & Hm & Hd & Hh & Hmin & Hs). unfold datetime_new.
  repeat match goal with
         | |- context [(?a <=? ?b)%Z] =>
             replace (a <=? b)%Z with true by (symmetry; apply Z.leb_le; lia)
         end.
  cbn [andb negb]. now destruct dt.
Qed.

(** With the year on four digits, [strptime(dt.strftime(fmt), fmt) = dt]
    for the format of the source. *)
Lemma strptime_strftime_padded (dt : datetime) :
  valid_datetime dt ->
  strptime (strftime true dt time_format) time_format = Returned dt.
Proof.
  intros V. pose proof V as (Hy & Hm & Hd & Hh & Hmin & Hs).
  unfold MINYEAR, MAXYEAR in *.
  pose proof (days_in_month_bounds (year dt) (month dt) Hm) as H31.
  assert (F : exists l,
    fmt_run (format_items time_format) (strftime true dt time_format) =
    ([("Y"%char, zfill4 (year dt)); ("m"%char, zfill2 (month dt));
      ("d"%char, zfill2 (day dt)); ("H"%char, zfill2 (hour dt));
      ("M"%char, zfill2 (minute dt)); ("S"%char, zfill2 (second dt))], "") :: l).
  { unfold strftime.
    change (format_items time_format) with
      [Directive "Y"; Literal "-"; Directive "m"; Literal "-"; Directive "d";
       Literal "T"; Directive "H"; Literal ":"; Directive "M"; Literal ":";
       Directive "S"].
    cbn [strftime_items].
    change (directive_text true "Y" dt) with (zfill4 (year dt)).
    change (directive_text true "m" dt) with (zfill2 (month dt)).
    change (directive_text true "d" dt) with (zfill2 (day dt)).
    change (directive_text true "H" dt) with (zfill2 (hour dt)).
    change (directive_text true "M" dt) with (zfill2 (minute dt)).
    change (directive_text true "S" dt) with (zfill2 (second dt)).
    destruct (re_S_first (second dt) "" Hs) as [lS HS].
    destruct (fmt_run_directive_first "S" re_S [] _ _ _ _ [] "" [] eq_refl HS eq_refl)
      as [l1 H1].
    destruct (fmt_run_literal_first ":" _ _ _ _ _ eq_refl H1) as [l2 H2].
    destruct (re_M_first (minute dt) (String ":" (zfill2 (second dt) ++ "")) Hmin)
      as [lM HM].
    destruct (fmt_run_directive_first "M" re_M _ _ _ _ _ _ _ _ eq_refl HM H2) as [l3 H3].
    destruct (fmt_run_literal_first ":" _ _ _ _ _ eq_refl H3) as [l4 H4].
    destruct (re_H_first (hour dt)
                (String ":" (zfill2 (minute dt) ++ String ":" (zfill2 (second dt) ++ "")))
                Hh) as [lH HH].
    destruct (fmt_run_directive_first "H" re_H _ _ _ _ _ _ _ _ eq_refl HH H4) as [l5 H5].
    destruct (fmt_run_literal_first "T" _ _ _ _ _ eq_refl H5) as [l6 H6].
    assert (Hd31 : (1 <= day dt <= 31)%Z) by lia.
    destruct (re_d_first (day dt)
                (String "T" (zfill2 (hour dt) ++ String ":" (zfill2 (minute dt) ++
                   String ":" (zfill2 (second dt) ++ "")))) Hd31) as [ld Hdd].
    destruct (fmt_run_directive_first "d" re_d _ _ _ _ _ _ _ _ eq_refl Hdd H6) as [l7 H7].
    destruct (fmt_run_literal_first "-" _ _ _ _ _ eq_refl H7) as [l8 H8].
    destruct (re_m_first (month dt)
                (String "-" (zfill2 (day dt) ++ String "T" (zfill2 (hour dt) ++
                   String ":" (zfill2 (minute dt) ++ String ":" (zfill2 (second dt) ++ "")))))
                Hm) as [lm Hmm].
    destruct (fmt_run_directive_first "m" re_m _ _ _ _ _ _ _ _ eq_refl Hmm H8) as [l9 H9].
    destruct (fmt_run_literal_first "-" _ _ _ _ _ eq_refl H9) as [l10 H10].
    pose proof (re_Y_first (year dt)
                  (String "-" (zfill2 (month dt) ++ String "-" (zfill2 (day dt) ++
                     String "T" (zfill2 (hour dt) ++ String ":" (zfill2 (minute dt) ++
                       String ":" (zfill2 (second dt) ++ ""))))))) as HY.
    destruct (fmt_run_directive_first "Y" re_Y _ _ _ _ _ _ _ _ eq_refl HY H10) as [l11 H11].
    exists l11. exact H11. }
  destruct F as [l F]. unfold strptime. rewrite F.
  cbn [truthy String.eqb negb found_get Ascii.eqb Bool.eqb].
  rewrite int_of_str_zfill4 by lia. rewrite !int_of_str_zfill2 by lia.
  now apply datetime_new_of_valid.
Qed.

(** From year 1000 on, [str] of the year has four digits. *)
Lemma str_of_int_four_digits (y : Z) :
  (1000 <= y <= 9999)%Z -> str_of_int y = zfill4 y.
Proof.
  intros Hy.
  assert (A : forallb (fun n => (str_of_int (Z.of_nat n) =? zfill4 (Z.of_nat n))%string)
                (seq (Z.to_nat 1000) (Z.to_nat 9000)) = true)
    by (vm_compute; reflexivity).
  rewrite forallb_forall in A. specialize (A (Z.to_nat y)).
  rewrite Z2Nat.id in A by lia. apply String.eqb_eq, A. apply in_seq. lia.
Qed.

Lemma strftime_year_padding (pads_year : bool) (dt : datetime) :
  pads_year = true \/ (1000 <= year dt <= 9999)%Z ->
  strftime pads_year dt time_format = strftime true dt time_format.
Proof.
  intros [-> | Hy]; [reflexivity |].
  destruct pads_year; [reflexivity |].
  unfold strftime.
  change (format_items time_format) with
    (Directive "Y" :: List.tl (format_items time_format)).
  cbn [strftime_items]. f_equal.
  change (directive_text false "Y" dt) with (str_of_int (year dt)).
  change (directive_text true "Y" dt) with (zfill4 (year dt)).
  now apply str_of_int_four_digits.
Qed.

(** [strptime(dt.strftime(fmt), fmt) = dt] for the format of the source,
    where the year is written on four digits. *)
Lemma strptime_strftime (pads_year : bool) (dt : datetime) :
  valid_datetime dt ->
  pads_year = true \/ (1000 <= year dt)%Z ->
  strptime (strftime pads_year dt time_format) time_format = Returned dt.
Proof.
  intros V Hpad. rewrite strftime_year_padding.
  - now apply strptime_strftime_padded.
  - destruct Hpad as [-> | Hy]; [now left | right].
    destruct V as (Hyear & _). unfold MAXYEAR in Hyear. lia.
Qed.

End ReadBack.

(** ** The timed event *)

Section TimedEvent.

Import PyStr PyDatetime RegexLang Spec Tools.
Local Open Scope string_scope.

Variable pads_year : bool.

(** C8 (amended): when the time is present (not a placeholder),
    ["{date_str}T{time_str}:00"] parses as [%Y-%m-%dT%H:%M:%S] and the
    parsed start is before 23:00 on 9999-12-31, the event built is timed:
    its start [dateTime] is ["{date_str}T{time_str}:00"], its end
    [dateTime] is the text of the instant exactly 3600 seconds after the
    parsed start (a text that parses back to that instant where the year is
    written on four digits), and both carry the time zone
    ["America/New_York"]. *)
Theorem timed_event_one_hour (title date_str time_str location description : string)
                             (start_obj : datetime) :
  is_timed time_str = true ->
  strptime (date_str ++ "T" ++ time_str ++ ":00") "%Y-%m-%dT%H:%M:%S" =
    Returned start_obj ->
  (year start_obj < 9999 \/ month start_obj < 12 \/
   day start_obj < 31 \/ hour start_obj < 23)%Z ->
  exists end_obj event,
    build_event pads_year title date_str time_str location description =
      Returned event /\
    start event = Timed (date_str ++ "T" ++ time_str ++ ":00") "America/New_York" /\
    end_ event =
      Timed (strftime pads_year end_obj "%Y-%m-%dT%H:%M:%S") "America/New_York" /\
    instant end_obj = (instant start_obj + 3600)%Z /\
    (pads_year = true \/ (1000 <= year end_obj)%Z ->
     strptime (strftime pads_year end_obj "%Y-%m-%dT%H:%M:%S") "%Y-%m-%dT%H:%M:%S" =
       Returned end_obj) /\
    summary event = title /\ colorId event = color_id title.
Proof.
  intros Htimed Hparse Hbefore.
  pose proof (strptime_valid _ _ _ Hparse) as V.
  destruct (add_one_hour_spec start_obj V Hbefore) as (end_obj & Hadd & Vend & Hinstant).
  exists end_obj. eexists. split.
  - unfold build_event, timed_event. rewrite Htimed.
    change time_format with "%Y-%m-%dT%H:%M:%S". rewrite Hparse, Hadd. reflexivity.
  - cbn [start end_ summary colorId]. repeat split; try assumption.
    intros Hpad. now apply strptime_strftime.
Qed.

End TimedEvent.

Section TimedEventExamples.

Import PyStr PyDatetime RegexLang Spec Tools Sample.
Local Open Scope string_scope.

(** C8, as the specification states it, fails in the last hour of the
    calendar: the time is present and the text parses, but one hour later
    is past year 9999, [+ timedelta(hours=1)] raises [OverflowError],
    [except ValueError] does not catch it, and no event is built. *)
Lemma last_hour_counterexample :
  is_timed "23:00" = true /\
  strptime ("9999-12-31" ++ "T" ++ "23:00" ++ ":00") "%Y-%m-%dT%H:%M:%S" =
    Returned (mkDatetime 9999 12 31 23 0 0) /\
  build_event false "New Year" "9999-12-31" "23:00" "" "" =
    Raised (OverflowError "date value out of range") /\
  build_event true "New Year" "9999-12-31" "23:00" "" "" =
    Raised (OverflowError "date value out of range") /\
  add_to_calendar false accepting None "New Year" "9999-12-31" "23:00" "" "" [] =
    (Raised (OverflowError "date value out of range"), []).
Proof. repeat split; vm_compute; reflexivity. Qed.

Lemma timed_event_one_hour_witness :
  exists end_obj event,
    build_event false "MATH 291: Exam 1" "2024-02-28" "23:30" "Bossone" "201" =
      Returned event /\
    start event = Timed "2024-02-28T23:30:00" "America/New_York" /\
    end_ event = Timed (strftime false end_obj "%Y-%m-%dT%H:%M:%S") "America/New_York" /\
    strftime false end_obj "%Y-%m-%dT%H:%M:%S" = "2024-02-29T00:30:00" /\
    instant end_obj = (instant (mkDatetime 2024 2 28 23 30 0) + 3600)%Z.
Proof.
  assert (Hbefore : (year (mkDatetime 2024 2 28 23 30 0) < 9999 \/
                     month (mkDatetime 2024 2 28 23 30 0) < 12 \/
                     day (mkDatetime 2024 2 28 23 30 0) < 31 \/
                     hour (mkDatetime 2024 2 28 23 30 0) < 23)%Z)
    by (left; reflexivity).
  destruct (timed_event_one_hour false "MATH 291: Exam 1" "2024-02-28" "23:30"
              "Bossone" "201" (mkDatetime 2024 2 28 23 30 0) eq_refl eq_refl Hbefore)
    as (end_obj & event & Hb & Hs & He & Hi & _).
  exists end_obj, event. repeat split; try assumption.
  assert (E : build_event false "MATH 291: Exam 1" "2024-02-28" "23:30" "Bossone" "201" =
              Returned {| summary := "MATH 291: Exam 1"; location := Some "Bossone";
                          description := Some "201"; colorId := Some "8";
                          start := Timed "2024-02-28T23:30:00" "America/New_York";
                          end_ := Timed "2024-02-29T00:30:00" "America/New_York" |})
    by (vm_compute; reflexivity).
  rewrite E in Hb. injection Hb as <-. cbn [end_] in He. congruence.
Defined.

End TimedEventExamples.

(** * Further properties of the tools *)

(** ** The requests that the tools issue *)

Section ToolRequests.

Import PyStr PyDatetime RegexLang Spec Tools.
Local Open Scope string_scope.

Variable pads_year : bool.
Variable svc : service.
Variable CALENDAR_ID : option string.

(** Each of the joined texts occurs in the result of [join]. *)
Lemma join_occurs (sep : string) (xs : list string) (x : string) :
  In x xs -> occurs x (join sep xs).
Proof.
  induction xs as [|y [|z xs] IH]; intros Hin.
  - destruct Hin.
  - destruct Hin as [<- | []]. exists "", "". simpl. now rewrite append_empty_r.
  - change (join sep (y :: z :: xs)) with (y ++ sep ++ join sep (z :: xs)).
    destruct Hin as [<- | Hin]; [apply occurs_here |].
    apply occurs_later, occurs_later. now apply IH.
Qed.

(** X1: when the vector store answers, [search_syllabi] has issued the one
    request for the three nearest documents and returns a text in which the
    page of every retrieved document occurs; with no document the text is
    empty.  When the store raises, the exception is the outcome of the
    tool. *)
Theorem search_syllabi_pages (query : string) (log : list call) :
  (forall docs,
     similarity_search svc log query 3 = Returned docs ->
     exists text,
       search_syllabi svc query log =
         (Returned text, (log ++ [SimilaritySearch query 3])%list) /\
       (docs = [] -> text = "") /\
       (forall d, In d docs -> occurs (page_content d) text)) /\
  (forall e,
     similarity_search svc log query 3 = Raised e ->
     search_syllabi svc query log =
       (Raised e, (log ++ [SimilaritySearch query 3])%list)).
Proof.
  split.
  - intros docs H. eexists. split.
    + unfold search_syllabi, bind, perform, ret. rewrite H. reflexivity.
    + split.
      * now intros ->.
      * intros d Hd. apply join_occurs. now apply in_map.
  - intros e H. unfold search_syllabi, bind, perform, ret. now rewrite H.
Qed.

(** [+ timedelta(hours=1)] raises only in the last hour of year 9999. *)
Lemma add_one_hour_raises (dt : datetime) (e : exn) :
  valid_datetime dt ->
  add_one_hour dt = Raised e ->
  e = OverflowError "date value out of range" /\
  year dt = 9999%Z /\ month dt = 12%Z /\ day dt = 31%Z /\ hour dt = 23%Z.
Proof.
  intros V H.
  assert (D : (year dt < 9999 \/ month dt < 12 \/ day dt < 31 \/ hour dt < 23)%Z \/
              (year dt = 9999 /\ month dt = 12 /\ day dt = 31 /\ hour dt = 23)%Z).
  { pose proof V as (Hy & Hm & Hd & Hh & _). unfold MAXYEAR in Hy.
    pose proof (days_in_month_bounds (year dt) (month dt) Hm). lia. }
  destruct D as [D | D].
  - destruct (add_one_hour_spec dt V D) as (dt' & E & _). congruence.
  - split; [| exact D]. unfold add_one_hour in H.
    destruct (hour dt <? 23)%Z; [discriminate |].
    destruct (next_day _ _ _) as [[y m] d].
    destruct (y <=? MAXYEAR)%Z; [discriminate |]. congruence.
Qed.

(** The only exception that the building of the event lets through. *)
Lemma build_event_raises (title date_str time_str location description : string)
                         (e : exn) :
  build_event pads_year title date_str time_str location description = Raised e ->
  e = OverflowError "date value out of range" /\
  exists start_obj,
    strptime (date_str ++ "T" ++ time_str ++ ":00") time_format = Returned start_obj /\
    year start_obj = 9999%Z /\ month start_obj = 12%Z /\
    day start_obj = 31%Z /\ hour start_obj = 23%Z.
Proof.
  unfold build_event. destruct (is_timed time_str); [| discriminate].
  unfold timed_event.
  destruct (strptime_outcome (date_str ++ "T" ++ time_str ++ ":00") time_format)
    as [[start_obj Hs] | [msg Hs]]; rewrite Hs; [| discriminate].
  destruct (add_one_hour start_obj) as [end_obj | e'] eqn:Ha; [discriminate |].
  pose proof (add_one_hour_raises _ _ (strptime_valid _ _ _ Hs) Ha) as [-> Hlast].
  intros [= <-]. split; [reflexivity |]. now exists start_obj.
Qed.

(** X2: [add_to_calendar] either builds an event, issues exactly one
    request, the insert of that event, and returns a text; or the start
    parses into the last hour of 9999-12-31, no request is issued and
    [OverflowError] leaves the tool.  It never lists, deletes or searches,
    and nothing else is ever raised. *)
Theorem add_to_calendar_total (title date_str time_str location description : string)
                              (log : list call) :
  (exists event text,
     build_event pads_year title date_str time_str location description =
       Returned event /\
     add_to_calendar pads_year svc CALENDAR_ID title date_str time_str location
       description log =
       (Returned text, (log ++ [EventsInsert CALENDAR_ID event])%list)) \/
  (exists start_obj,
     strptime (date_str ++ "T" ++ time_str ++ ":00") time_format = Returned start_obj /\
     (year start_obj = 9999 /\ month start_obj = 12 /\
      day start_obj = 31 /\ hour start_obj = 23)%Z /\
     add_to_calendar pads_year svc CALENDAR_ID title date_str time_str location
       description log =
       (Raised (OverflowError "date value out of range"), log)).
Proof.
  destruct (build_event pads_year title date_str time_str location description)
    as [event | e] eqn:Hb.
  - left. exists event.
    destruct (events_insert svc log CALENDAR_ID event) as [created | e] eqn:Hi.
    + rewrite (add_to_calendar_inserted pads_year svc CALENDAR_ID _ _ _ _ _ _ _ _ Hb Hi).
      eexists. split; reflexivity.
    + rewrite (add_to_calendar_failed pads_year svc CALENDAR_ID _ _ _ _ _ _ _ _ Hb Hi).
      eexists. split; reflexivity.
  - right. destruct (build_event_raises _ _ _ _ _ _ Hb) as [-> (start_obj & Hs & Hlast)].
    exists start_obj. split; [exact Hs |]. split; [exact Hlast |].
    now apply add_to_calendar_raised.
Qed.

(** The loop over a list of events that starts with events that are
    deleted. *)
Lemma delete_each_app (before rest : list listed_event) (ids : list string)
                      (log : list call) :
  map id before = map Some ids ->
  deletes_succeed svc CALENDAR_ID ids log ->
  delete_each svc CALENDAR_ID (before ++ rest) log =
  delete_each svc CALENDAR_ID rest (log ++ map (EventsDelete CALENDAR_ID) ids)%list.
Proof.
  revert ids log. induction before as [|ev before IH]; intros [|i ids] log Hids Hok;
    try discriminate.
  - simpl. now rewrite List.app_nil_r.
  - simpl in Hids. injection Hids as Hid Hids. destruct Hok as [Hdel Hok].
    cbn [app]. rewrite delete_each_cons, Hid, Hdel.
    rewrite (IH ids _ Hids Hok). cbn [map]. now rewrite <- List.app_assoc.
Qed.

(** The delete requests of the loop are for the ids of the first events of
    the list, in order; when the loop ends without exception, for all of
    them. *)
Lemma delete_each_prefix (events : list listed_event) (log : list call) :
  exists ids rest,
    map id events = (map Some ids ++ rest)%list /\
    snd (delete_each svc CALENDAR_ID events log) =
      (log ++ map (EventsDelete CALENDAR_ID) ids)%list /\
    (forall u, fst (delete_each svc CALENDAR_ID events log) = Returned u -> rest = []).
Proof.
  revert log. induction events as [|ev events IH]; intros log.
  - exists [], []. simpl. now rewrite List.app_nil_r.
  - rewrite delete_each_cons. destruct (id ev) as [i |] eqn:Hid.
    + destruct (events_delete svc log CALENDAR_ID i) as [[] | e].
      * destruct (IH (log ++ [EventsDelete CALENDAR_ID i])%list)
          as (ids & rest & Hmap & Hlog & Hdone).
        exists (i :: ids), rest. cbn [map app]. rewrite Hid, Hmap, Hlog.
        split; [reflexivity |]. split; [now rewrite <- List.app_assoc | exact Hdone].
      * exists [i], (map id events). cbn [map app fst snd]. rewrite Hid.
        split; [reflexivity |]. split; [reflexivity | discriminate].
    + exists [], (map id (ev :: events)). cbn [map app fst snd].
      rewrite List.app_nil_r. split; [reflexivity |]. split; [reflexivity | discriminate].
Qed.

(** X3: whatever the calendar answers, the requests of [delete_event] are
    the list request followed by delete requests for the ids of the first
    events of the listing, in the order of the listing: it never deletes an
    event that was not listed for the title and the day, never inserts, and
    deletes nothing when the list request fails. *)
Theorem delete_event_only_listed (event_title date_str : string) (log : list call) :
  exists ids,
    snd (delete_event svc CALENDAR_ID event_title date_str log) =
      (log ++ list_request CALENDAR_ID event_title date_str ::
              map (EventsDelete CALENDAR_ID) ids)%list /\
    match list_reply svc CALENDAR_ID event_title date_str log with
    | Returned listed =>
        exists rest,
          map id (match listed with Some items => items | None => [] end) =
          (map Some ids ++ rest)%list
    | Raised _ => ids = []
    end.
Proof.
  destruct (list_reply svc CALENDAR_ID event_title date_str log) as [listed | e] eqn:Hl.
  - destruct (match listed with Some items => items | None => [] end)
      as [|ev evs] eqn:E.
    + exists []. rewrite (delete_event_none _ _ _ _ _ _ Hl E).
      split; [reflexivity | now exists []].
    + rewrite (delete_event_some _ _ _ _ _ _ Hl) by (rewrite E; discriminate).
      rewrite E.
      destruct (delete_each_prefix (ev :: evs)
                  (log ++ [list_request CALENDAR_ID event_title date_str])%list)
        as (ids & rest & Hmap & Hlog & _).
      exists ids. split; [| now exists rest].
      destruct (delete_each _ _ _ _) as [[[] | e] log']; simpl in *;
        rewrite Hlog; now rewrite <- List.app_assoc.
  - exists []. rewrite (delete_event_list_failed _ _ _ _ _ _ Hl). now split.
Qed.

(** X4: when the listing holds an event without id after events that are
    deleted, the loop stops there: the result is the text of the
    [KeyError], the events before it are deleted, and neither it nor the
    events after it are. *)
Theorem delete_event_missing_id (event_title date_str : string)
                                (listed : option (list listed_event))
                                (before after : list listed_event) (ev : listed_event)
                                (ids : list string) (log : list call) :
  list_reply svc CALENDAR_ID event_title date_str log = Returned listed ->
  match listed with Some items => items | None => [] end = (before ++ ev :: after)%list ->
  map id before = map Some ids ->
  id ev = None ->
  deletes_succeed svc CALENDAR_ID ids
    (log ++ [list_request CALENDAR_ID event_title date_str])%list ->
  delete_event svc CALENDAR_ID event_title date_str log =
  (Returned "Error deleting event: 'id'",
   (log ++ list_request CALENDAR_ID event_title date_str ::
           map (EventsDelete CALENDAR_ID) ids)%list).
Proof.
  intros Hl Hev Hids Hnone Hok.
  rewrite (delete_event_some _ _ _ _ _ _ Hl)
    by (rewrite Hev; now destruct before).
  rewrite Hev, (delete_each_app _ _ _ _ Hids Hok), delete_each_cons, Hnone.
  now rewrite <- List.app_assoc.
Qed.

End ToolRequests.

Section ToolRequestExamples.

Import PyStr PyDatetime Spec Tools Sample.
Local Open Scope string_scope.

Lemma delete_event_missing_id_witness :
  delete_event
    (listing [mkListed (Some "a1") None; mkListed None (Some "draft");
              mkListed (Some "c3") None] (Returned tt))
    None "MATH 291: Exam 1" "2025-02-04" [] =
  (Returned "Error deleting event: 'id'",
   [list_request None "MATH 291: Exam 1" "2025-02-04"; EventsDelete None "a1"]).
Proof.
  apply (delete_event_missing_id
           (listing [mkListed (Some "a1") None; mkListed None (Some "draft");
                     mkListed (Some "c3") None] (Returned tt))
           None "MATH 291: Exam 1" "2025-02-04"
           (Some [mkListed (Some "a1") None; mkListed None (Some "draft");
                  mkListed (Some "c3") None])
           [mkListed (Some "a1") None] [mkListed (Some "c3") None]
           (mkListed None (Some "draft")) ["a1"] []);
    try reflexivity.
  simpl. auto.
Defined.

End ToolRequestExamples.

(** ** Blank fields *)

Section BlankFields.

Import PyStr PyDatetime RegexLang Spec Tools Texts.
Local Open Scope string_scope.

Variable pads_year : bool.

Lemma rstrip_all_space (s : string) : all_space s = true -> rstrip s = "".
Proof.
  induction s as [|c s IH]; [reflexivity |]. cbn [all_space rstrip].
  rewrite andb_true_iff. intros [Hc Hs]. now rewrite (IH Hs), Hc.
Qed.

Lemma strip_all_space (s : string) : all_space s = true -> strip s = "".
Proof. intros H. unfold strip. now rewrite rstrip_all_space. Qed.

Lemma char_upper_space (c : ascii) : isspace c = true -> char_upper c = c.
Proof.
  unfold isspace, char_upper. rewrite orb_true_iff, !between_spec. intros H.
  destruct (between 97 122 c) eqn:B; [| reflexivity].
  apply between_spec in B. lia.
Qed.

Lemma upper_all_space (s : string) : all_space s = true -> upper s = s.
Proof.
  induction s as [|c s IH]; [reflexivity |]. cbn [all_space upper].
  rewrite andb_true_iff. intros [Hc Hs]. now rewrite (IH Hs), char_upper_space.
Qed.

(** A text of white space is none of the words that the filters know. *)
Lemma all_space_not_word (s : string) (ws : list string) :
  all_space s = true ->
  forallb (fun w => negb (all_space w)) ws = true ->
  mem (upper s) ws = false.
Proof.
  intros Hs Hws. rewrite (upper_all_space s Hs). unfold mem.
  induction ws as [|w ws IH]; [reflexivity |]. cbn [existsb forallb] in *.
  apply andb_true_iff in Hws as [Hw Hws]. rewrite (IH Hws), orb_false_r.
  apply String.eqb_neq. intros ->. rewrite Hs in Hw. discriminate.
Qed.

Lemma blank_filters (x : string) :
  x <> "" -> all_space x = true ->
  keep_all_day x = None /\ keep_timed x = Some x /\ is_timed x = false.
Proof.
  intros Hne Hs. apply truthy_true in Hne.
  unfold keep_all_day, keep_timed, is_timed.
  rewrite Hne, (strip_all_space x Hs).
  rewrite !(all_space_not_word x) by (exact Hs || reflexivity).
  now repeat split.
Qed.

(** X5: a time made of white space only, like the empty time, gives the
    all-day event of the date, whatever the date. *)
Theorem blank_time_all_day (title date_str time_str location description : string) :
  all_space time_str = true ->
  build_event pads_year title date_str time_str location description =
  Returned (all_day_event title date_str location description).
Proof.
  intros Hs. apply build_event_untimed.
  destruct time_str as [|c t]; [reflexivity |].
  now apply blank_filters.
Qed.

(** X6: a location or a description made of white space only is dropped
    from an all-day event and kept, as it is, in a timed event: the two
    branches do not filter alike. *)
Theorem blank_field_by_branch (title date_str time_str location description : string)
                              (event : event) :
  build_event pads_year title date_str time_str location description = Returned event ->
  (location <> "" -> all_space location = true ->
   Tools.location event =
     match start event with AllDay _ => None | Timed _ _ => Some location end) /\
  (description <> "" -> all_space description = true ->
   Tools.description event =
     match start event with AllDay _ => None | Timed _ _ => Some description end).
Proof.
  intros Hb. apply build_event_inv in Hb as [[_ Hb] | ->].
  - apply timed_event_inv in Hb as (s & e & _ & _ & ->). cbn [Tools.location Tools.description start].
    split; intros Hne Hs; now destruct (blank_filters _ Hne Hs) as (_ & -> & _).
  - cbn [Tools.location Tools.description start all_day_event].
    split; intros Hne Hs; now destruct (blank_filters _ Hne Hs) as (-> & _ & _).
Qed.

(** X7: whatever the arguments, a built event carries the title as
    summary, the location and the description either absent or exactly as
    passed, and two ends of one kind: both the date passed, or both a
    [dateTime] in the time zone ["America/New_York"], the start being
    ["{date_str}T{time_str}:00"]. *)
Theorem built_event_shape (title date_str time_str location description : string)
                          (event : event) :
  build_event pads_year title date_str time_str location description = Returned event ->
  summary event = title /\
  (Tools.location event = None \/ Tools.location event = Some location) /\
  (Tools.description event = None \/ Tools.description event = Some description) /\
  ((start event = AllDay date_str /\ end_ event = AllDay date_str) \/
   (start event = Timed (date_str ++ "T" ++ time_str ++ ":00") "America/New_York" /\
    exists end_time, end_ event = Timed end_time "America/New_York")).
Proof.
  assert (K1 : forall x, keep_timed x = None \/ keep_timed x = Some x)
    by (intros x; unfold keep_timed; destruct (_ && _); auto).
  assert (K2 : forall x, keep_all_day x = None \/ keep_all_day x = Some x)
    by (intros x; unfold keep_all_day; destruct (_ && _); auto).
  intros Hb. apply build_event_inv in Hb as [[_ Hb] | ->].
  - apply timed_event_inv in Hb as (s & e & _ & _ & ->).
    cbn [summary Tools.location Tools.description start end_].
    repeat split; auto. right. split; [reflexivity | eauto].
  - cbn [summary Tools.location Tools.description start end_ all_day_event].
    repeat split; auto.
Qed.

End BlankFields.

Section BlankFieldExamples.

Import PyStr PyDatetime Spec Tools Texts.
Local Open Scope string_scope.

Lemma blank_time_all_day_witness :
  build_event false "MATH 291: Exam 1" "2025-02-04" "   " "Bossone" "201" =
  Returned (all_day_event "MATH 291: Exam 1" "2025-02-04" "Bossone" "201").
Proof.
  apply (blank_time_all_day false "MATH 291: Exam 1" "2025-02-04" "   " "Bossone" "201").
  reflexivity.
Defined.

Lemma blank_field_by_branch_witness :
  Tools.location (all_day_event "MATH 291: Exam 1" "2025-02-04" "  " "201") = None /\
  exists event,
    build_event false "MATH 291: Exam 1" "2025-02-04" "14:00" "  " "201" =
      Returned event /\
    start event = Timed "2025-02-04T14:00:00" "America/New_York" /\
    Tools.location event = Some "  ".
Proof.
  split.
  - apply (blank_field_by_branch false "MATH 291: Exam 1" "2025-02-04" "" "  " "201"
             _ eq_refl); [discriminate | reflexivity].
  - eexists. split; [vm_compute; reflexivity |]. split; [reflexivity |].
    apply (blank_field_by_branch false "MATH 291: Exam 1" "2025-02-04" "14:00" "  " "201"
             _ eq_refl); [discriminate | reflexivity].
Defined.

Lemma built_event_shape_witness :
  summary (all_day_event "MATH 291: Exam 1" "2025-02-04" "Bossone" "TBD") =
    "MATH 291: Exam 1" /\
  (Tools.description (all_day_event "MATH 291: Exam 1" "2025-02-04" "Bossone" "TBD") = None \/
   Tools.description (all_day_event "MATH 291: Exam 1" "2025-02-04" "Bossone" "TBD") =
     Some "TBD").
Proof.
  destruct (built_event_shape false "MATH 291: Exam 1" "2025-02-04" "" "Bossone" "TBD"
              _ eq_refl) as (Hs & _ & Hd & _).
  split; [exact Hs | exact Hd].
Defined.

End BlankFieldExamples.

(** ** Dates and times written with leading zeros *)

Section PaddedFields.

Import PyStr PyDatetime RegexLang Spec Tools Texts.
Local Open Scope string_scope.

Variable pads_year : bool.

Lemma padded_text_start (y m d H M : Z) :
  padded_date y m d ++ "T" ++ padded_time H M ++ ":00" = padded_text y m d H M 0.
Proof. reflexivity. Qed.

(** The first match of the format on the text of six fields captures the
    six texts. *)
Lemma fmt_run_padded (y m d H M S : Z) :
  (1 <= m <= 12)%Z -> (1 <= d <= 31)%Z -> (0 <= H <= 23)%Z ->
  (0 <= M <= 59)%Z -> (0 <= S <= 59)%Z ->
  exists l,
    fmt_run (format_items time_format) (padded_text y m d H M S) =
    ([("Y"%char, zfill4 y); ("m"%char, zfill2 m); ("d"%char, zfill2 d);
      ("H"%char, zfill2 H); ("M"%char, zfill2 M); ("S"%char, zfill2 S)], "") :: l.
Proof.
  intros Hm Hd HH HM HS. unfold padded_text.
  change (format_items time_format) with
    [Directive "Y"; Literal "-"; Directive "m"; Literal "-"; Directive "d";
     Literal "T"; Directive "H"; Literal ":"; Directive "M"; Literal ":";
     Directive "S"].
  destruct (re_S_first S "" HS) as [lS ES].
  destruct (fmt_run_directive_first "S" re_S [] _ _ _ _ [] "" [] eq_refl ES eq_refl)
    as [l1 H1].
  destruct (fmt_run_literal_first ":" _ _ _ _ _ eq_refl H1) as [l2 H2].
  destruct (re_M_first M (String ":" (zfill2 S ++ "")) HM) as [lM EM].
  destruct (fmt_run_directive_first "M" re_M _ _ _ _ _ _ _ _ eq_refl EM H2) as [l3 H3].
  destruct (fmt_run_literal_first ":" _ _ _ _ _ eq_refl H3) as [l4 H4].
  destruct (re_H_first H (String ":" (zfill2 M ++ String ":" (zfill2 S ++ ""))) HH)
    as [lH EH].
  destruct (fmt_run_directive_first "H" re_H _ _ _ _ _ _ _ _ eq_refl EH H4) as [l5 H5].
  destruct (fmt_run_literal_first "T" _ _ _ _ _ eq_refl H5) as [l6 H6].
  destruct (re_d_first d
              (String "T" (zfill2 H ++ String ":" (zfill2 M ++ String ":" (zfill2 S ++ ""))))
              Hd) as [ld Ed].
  destruct (fmt_run_directive_first "d" re_d _ _ _ _ _ _ _ _ eq_refl Ed H6) as [l7 H7].
  destruct (fmt_run_literal_first "-" _ _ _ _ _ eq_refl H7) as [l8 H8].
  destruct (re_m_first m
              (String "-" (zfill2 d ++ String "T" (zfill2 H ++ String ":"
                 (zfill2 M ++ String ":" (zfill2 S ++ ""))))) Hm) as [lm Em].
  destruct (fmt_run_directive_first "m" re_m _ _ _ _ _ _ _ _ eq_refl Em H8) as [l9 H9].
  destruct (fmt_run_literal_first "-" _ _ _ _ _ eq_refl H9) as [l10 H10].
  pose proof (re_Y_first y
                (String "-" (zfill2 m ++ String "-" (zfill2 d ++ String "T"
                   (zfill2 H ++ String ":" (zfill2 M ++ String ":" (zfill2 S ++ ""))))))) as EY.
  destruct (fmt_run_directive_first "Y" re_Y _ _ _ _ _ _ _ _ eq_refl EY H10) as [l11 H11].
  exists l11. exact H11.
Qed.

(** [strptime] of the text of six fields is the constructor applied to the
    fields. *)
Lemma strptime_padded (y m d H M S : Z) :
  (0 <= y <= 9999)%Z -> (1 <= m <= 12)%Z -> (1 <= d <= 31)%Z -> (0 <= H <= 23)%Z ->
  (0 <= M <= 59)%Z -> (0 <= S <= 59)%Z ->
  strptime (padded_text y m d H M S) time_format = datetime_new y m d H M S.
Proof.
  intros Hy Hm Hd HH HM HS.
  destruct (fmt_run_padded y m d H M S Hm Hd HH HM HS) as [l F].
  unfold strptime. rewrite F.
  cbn [truthy String.eqb negb found_get Ascii.eqb Bool.eqb].
  rewrite int_of_str_zfill4 by lia. now rewrite !int_of_str_zfill2 by lia.
Qed.

Lemma between_false (lo hi : N) (c : ascii) :
  (ord c < lo \/ hi < ord c)%N -> between lo hi c = false.
Proof.
  intros H. destruct (between lo hi c) eqn:B; [| reflexivity].
  apply between_spec in B. lia.
Qed.

Lemma digit_char_range (k : Z) : (48 <= ord (digit_char k) <= 57)%N.
Proof. apply between_spec, isdigit_digit_char. Qed.

Lemma isspace_digit_char (k : Z) : isspace (digit_char k) = false.
Proof.
  pose proof (digit_char_range k). unfold isspace.
  rewrite !between_false by lia. reflexivity.
Qed.

Lemma char_upper_digit_char (k : Z) : char_upper (digit_char k) = digit_char k.
Proof.
  pose proof (digit_char_range k). unfold char_upper.
  now rewrite between_false by lia.
Qed.

(** A time written [HH:MM] is present. *)
Lemma is_timed_padded (H M : Z) : is_timed (padded_time H M) = true.
Proof.
  unfold is_timed, padded_time, zfill2, strip. cbn [append upper rstrip].
  rewrite !char_upper_digit_char, !isspace_digit_char. cbn [lstrip].
  rewrite isspace_digit_char. unfold truthy, mem. cbn [existsb].
  repeat match goal with
         | |- context [(?a =? ?b)%string] =>
             replace (a =? b)%string with false
               by (symmetry; apply String.eqb_neq; intros E;
                   apply (f_equal String.length) in E; discriminate)
         end.
  reflexivity.
Qed.

(** X8: for a date and a time written with leading zeros from fields in
    the ranges of the format, the event is the all-day event of the date
    when the year is 0000 or the day does not exist in the month (the text
    of the date is sent as it is), and a timed event that starts at the
    text of the date and time and ends one hour later when the date exists
    and the start is before the last hour of 9999-12-31. *)
Theorem padded_fields_event (title location description : string) (y m d H M : Z) :
  (0 <= y <= 9999)%Z -> (1 <= m <= 12)%Z -> (1 <= d <= 31)%Z ->
  (0 <= H <= 23)%Z -> (0 <= M <= 59)%Z ->
  (y = 0%Z \/ (_days_in_month y m < d)%Z ->
   build_event pads_year title (padded_date y m d) (padded_time H M) location description =
   Returned (all_day_event title (padded_date y m d) location description)) /\
  ((1 <= y)%Z -> (d <= _days_in_month y m)%Z ->
   (y < 9999 \/ m < 12 \/ d < 31 \/ H < 23)%Z ->
   exists end_obj,
     add_one_hour (mkDatetime y m d H M 0) = Returned end_obj /\
     instant end_obj = (instant (mkDatetime y m d H M 0) + 3600)%Z /\
     build_event pads_year title (padded_date y m d) (padded_time H M) location
       description =
     Returned {| summary := title;
                 Tools.location := keep_timed location;
                 Tools.description := keep_timed description;
                 colorId := color_id title;
                 start := Timed (padded_date y m d ++ "T" ++ padded_time H M ++ ":00")
                            "America/New_York";
                 end_ := Timed (strftime pads_year end_obj time_format)
                           "America/New_York" |}).
Proof.
  intros Hy Hm Hd HH HM.
  assert (Hs : strptime (padded_date y m d ++ "T" ++ padded_time H M ++ ":00") time_format =
               datetime_new y m d H M 0).
  { rewrite padded_text_start. apply strptime_padded; lia. }
  split.
  - intros Hbad.
    destruct (datetime_new_outcome y m d H M 0) as [[dt Hdt] | [msg Hmsg]].
    + exfalso. apply datetime_new_valid in Hdt as [-> (Vy & _ & Vd & _)].
      unfold MINYEAR in Vy. simpl in Vy, Vd. lia.
    + apply (build_event_unparsed pads_year _ _ _ _ _ msg). now rewrite Hs.
  - intros Hy1 Hdim Hbefore.
    assert (V : valid_datetime (mkDatetime y m d H M 0)).
    { unfold valid_datetime, MINYEAR, MAXYEAR. simpl. lia. }
    destruct (add_one_hour_spec _ V Hbefore) as (end_obj & Hadd & _ & Hinstant).
    exists end_obj. split; [exact Hadd |]. split; [exact Hinstant |].
    pose proof (datetime_new_of_valid _ V) as Hnew. cbn [year month day hour minute second] in Hnew.
    unfold build_event, timed_event. rewrite is_timed_padded, Hs, Hnew.
    now rewrite Hadd.
Qed.

End PaddedFields.

Section PaddedFieldExamples.

Import PyStr PyDatetime Spec Tools Texts.
Local Open Scope string_scope.

Lemma padded_fields_event_witness :
  build_event false "MATH 291: Exam 1" "2025-02-30" "14:00" "" "" =
    Returned (all_day_event "MATH 291: Exam 1" "2025-02-30" "" "") /\
  exists end_obj,
    add_one_hour (mkDatetime 2024 12 31 23 15 0) = Returned end_obj /\
    instant end_obj = (instant (mkDatetime 2024 12 31 23 15 0) + 3600)%Z.
Proof.
  assert (R : (0 <= 23 <= 23)%Z /\ (0 <= 15 <= 59)%Z /\ (0 <= 14 <= 23)%Z /\
              (0 <= 0 <= 59)%Z /\ (0 <= 2025 <= 9999)%Z /\ (0 <= 2024 <= 9999)%Z /\
              (1 <= 2 <= 12)%Z /\ (1 <= 12 <= 12)%Z /\ (1 <= 30 <= 31)%Z /\
              (1 <= 31 <= 31)%Z) by lia.
  destruct R as (R1 & R2 & R3 & R4 & R5 & R6 & R7 & R8 & R9 & R10).
  destruct (padded_fields_event false "MATH 291: Exam 1" "" "" 2025 2 30 14 0
              R5 R7 R9 R3 R4) as [Hbad _].
  destruct (padded_fields_event false "MATH 291: Exam 1" "" "" 2024 12 31 23 15
              R6 R8 R10 R1 R2) as [_ Hgood].
  split.
  - apply Hbad. right. vm_compute. reflexivity.
  - assert (H1 : (1 <= 2024)%Z) by lia.
    assert (H2 : (31 <= _days_in_month 2024 12)%Z) by (vm_compute; discriminate).
    assert (H3 : (2024 < 9999 \/ 12 < 12 \/ 31 < 31 \/ 23 < 23)%Z) by lia.
    destruct (Hgood H1 H2 H3) as (end_obj & Ha & Hi & _).
    now exists end_obj.
Defined.

End PaddedFieldExamples.

(** * Further properties of the threads and of the adapter *)

(** ** Sub-threads in a sequence of calls *)

Section Sessions.

Import PyStr Agent Session.
Local Open Scope string_scope.

Variable h : hosted.

Lemma sub_thread_id_of_parent (t : string) (s : specialist) :
  t <> "" -> sub_thread_id (Some t) s = t ++ "_" ++ specialist_name s.
Proof.
  intros Ht. apply truthy_true in Ht.
  destruct s; simpl;
    unfold calendar_sub_thread_id, research_sub_thread_id, advisor_sub_thread_id;
    now rewrite Ht.
Qed.

(** X9: the thread id that a wrapper tool gives to its specialist is never
    the thread id of the supervisor that [ask_sentinel] was called with:
    the specialist's history is kept apart from the parent's. *)
Theorem sub_thread_differs_from_parent (user_input t request : string)
                                       (s : specialist) (p : process) :
  sub_thread_id (Some t) s <> t /\
  exists reply p',
    wrapper s h request (snd (ask_sentinel h user_input t p)) = (reply, p') /\
    exists i,
      invocations p' =
        (invocations (snd (ask_sentinel h user_input t p)) ++ [i])%list /\
      invoked i = specialist_agent s /\ thread_id i <> t.
Proof.
  assert (N : sub_thread_id (Some t) s <> t).
  { destruct t as [|c t'] eqn:Et.
    - destruct s; discriminate.
    - rewrite <- Et. rewrite sub_thread_id_of_parent by (rewrite Et; discriminate).
      intros E. apply (f_equal String.length) in E. rewrite length_append in E.
      destruct s; simpl in E; lia. }
  split; [exact N |].
  destruct s; simpl; unfold calendar_assistant, research_assistant, advisor_assistant,
    invoke, ask_sentinel; simpl; eexists; eexists; (split; [reflexivity |]);
    eexists; (split; [reflexivity |]); split; try reflexivity; exact N.
Qed.

Lemma step_call_keeps_thread (p : process) (o : op) :
  is_call o = true -> _current_thread_id (step h p o) = _current_thread_id p.
Proof. destruct o as [q t | [] r]; [discriminate | | |]; reflexivity. Qed.

Lemma run_calls_keep_thread (calls : list op) (p : process) :
  forallb is_call calls = true ->
  _current_thread_id (run h calls p) = _current_thread_id p.
Proof.
  revert p. induction calls as [|o calls IH]; intros p H; [reflexivity |].
  cbn [forallb] in H. apply andb_true_iff in H as [Ho Hs].
  unfold run in *. cbn [fold_left]. rewrite (IH _ Hs). now apply step_call_keeps_thread.
Qed.

(** X10: in any sequence of calls, after a call of [ask_sentinel] with a
    non-empty thread id and any number of wrapper calls, every wrapper tool
    gives its specialist that thread id followed by ["_"] and the
    specialist's name, whatever was called before: the thread id of the
    latest [ask_sentinel] is the one in force, also for a request that an
    earlier [ask_sentinel] brought. *)
Theorem latest_ask_names_the_threads (before calls : list op)
                                     (user_input t request : string)
                                     (s : specialist) (p : process) :
  t <> "" ->
  forallb is_call calls = true ->
  sub_thread_id (_current_thread_id (run h (before ++ Ask user_input t :: calls) p)) s =
    t ++ "_" ++ specialist_name s /\
  invocations (snd (wrapper s h request (run h (before ++ Ask user_input t :: calls) p))) =
    (invocations (run h (before ++ Ask user_input t :: calls) p) ++
     [mkInvocation (specialist_agent s) (t ++ "_" ++ specialist_name s) request])%list.
Proof.
  intros Ht Hcalls.
  assert (E : _current_thread_id (run h (before ++ Ask user_input t :: calls) p) = Some t).
  { unfold run. rewrite fold_left_app. cbn [fold_left].
    fold (run h calls (step h (fold_left (step h) before p) (Ask user_input t))).
    now rewrite run_calls_keep_thread. }
  split.
  - rewrite E. now apply sub_thread_id_of_parent.
  - rewrite <- (sub_thread_id_of_parent t s Ht).
    destruct s; cbn [wrapper]; unfold calendar_assistant, research_assistant,
      advisor_assistant, invoke; cbn [snd invocations]; rewrite E; reflexivity.
Qed.

End Sessions.

Section SessionExamples.

Import PyStr Agent Session.
Local Open Scope string_scope.

Lemma latest_ask_names_the_threads_witness :
  sub_thread_id
    (_current_thread_id
       (run (fun _ _ => Returned "ok")
          ([Ask "add the exam" "user_7_10"; Call calendar "add the exam"] ++
           Ask "grading?" "user_9_10" :: [Call advisor "grading?"]) initial))
    calendar = "user_9_10_calendar".
Proof.
  apply (latest_ask_names_the_threads (fun _ _ => Returned "ok")
           [Ask "add the exam" "user_7_10"; Call calendar "add the exam"]
           [Call advisor "grading?"] "grading?" "user_9_10" "add the exam" calendar initial).
  - discriminate.
  - reflexivity.
Defined.

End SessionExamples.

(** ** The adapter *)

Section Adapter.

Import PyStr Spec Agent Bot Texts.
Local Open Scope string_scope.

Variable h : hosted.

(** X11: [on_message] ignores a message exactly when the bot wrote it, or
    when it neither mentions the bot nor comes by direct message; an
    ignored message leaves the process as it was: no agent is invoked and
    the current thread id is not touched.  A message of the bot itself is
    ignored even in a direct-message channel. *)
Theorem on_message_ignored (self_id : Z) (now : Q) (m : message) (p : process) :
  (fst (on_message h self_id now m p) = None <->
   author_id m = self_id \/ (mentions_bot m = false /\ is_dm m = false)) /\
  (fst (on_message h self_id now m p) = None ->
   snd (on_message h self_id now m p) = p).
Proof.
  unfold on_message.
  destruct (Z.eqb_spec (author_id m) self_id) as [E | N].
  - split; [| reflexivity]. split; auto.
  - destruct (mentions_bot m || is_dm m) eqn:A.
    + cbn [fst]. split.
      * split; [discriminate |]. intros [E | [Hm Hd]]; [now elim N |].
        rewrite Hm, Hd in A. discriminate.
      * discriminate.
    + apply orb_false_iff in A. split; [| reflexivity]. split; auto.
Qed.

Lemma thread_id_not_empty (author : Z) (now : Q) : Bot.thread_id author now <> "".
Proof. unfold Bot.thread_id. discriminate. Qed.

(** X12: after [on_message] has handled a message of an author other than
    the bot, the wrapper tools give their specialists the thread id
    ["user_{author}_{bucket}_{name}"]: the thread id of the message followed
    by the specialist's name. *)
Theorem on_message_then_wrapper (self_id : Z) (now : Q) (m : message) (p : process)
                                (s : specialist) :
  author_id m <> self_id ->
  mentions_bot m || is_dm m = true ->
  _current_thread_id (snd (on_message h self_id now m p)) =
    Some (Bot.thread_id (author_id m) now) /\
  sub_thread_id (_current_thread_id (snd (on_message h self_id now m p))) s =
    "user_" ++ str_of_int (author_id m) ++ "_" ++ str_of_int (time_bucket now) ++
    "_" ++ specialist_name s.
Proof.
  intros Hauthor Haddressed.
  assert (E : _current_thread_id (snd (on_message h self_id now m p)) =
              Some (Bot.thread_id (author_id m) now)).
  { unfold on_message.
    destruct (Z.eqb_spec (author_id m) self_id) as [E | _]; [now elim Hauthor |].
    rewrite Haddressed. reflexivity. }
  split; [exact E |].
  rewrite E, sub_thread_id_of_parent by apply thread_id_not_empty.
  unfold Bot.thread_id. now rewrite !append_assoc.
Qed.

(** X13: the thread id tells the author and the bucket: two messages get
    the same thread id only if they have the same author and fall in the
    same bucket, so no two users ever share a thread. *)
Theorem thread_id_injective (author author' : Z) (now now' : Q) :
  Bot.thread_id author now = Bot.thread_id author' now' ->
  author = author' /\ time_bucket now = time_bucket now'.
Proof.
  unfold Bot.thread_id. intros H. apply append_inv_head in H.
  change (str_of_int author ++ "_" ++ str_of_int (time_bucket now))
    with (str_of_int author ++ String "_" (str_of_int (time_bucket now))) in H.
  change (str_of_int author' ++ "_" ++ str_of_int (time_bucket now'))
    with (str_of_int author' ++ String "_" (str_of_int (time_bucket now'))) in H.
  apply split_at_marker in H as [Ha Hb];
    try (apply str_of_int_chars; [reflexivity | discriminate]).
  split; now apply str_of_int_inj.
Qed.

(** X14: the bucket of a timestamp is [k] exactly when the timestamp lies
    in the window from [1800 k] (included) to [1800 (k + 1)] (excluded); two
    messages of one author in one window share a thread id. *)
Theorem bucket_of_window (author : Z) (now now' : Q) (k : Z) :
  (time_bucket now = k <->
   (inject_Z (1800 * k) <= now)%Q /\ (now < inject_Z (1800 * (k + 1)))%Q) /\
  ((inject_Z (1800 * k) <= now)%Q /\ (now < inject_Z (1800 * (k + 1)))%Q ->
   (inject_Z (1800 * k) <= now')%Q /\ (now' < inject_Z (1800 * (k + 1)))%Q ->
   Bot.thread_id author now = Bot.thread_id author now').
Proof.
  assert (U : forall t, (inject_Z (1800 * k) <= t)%Q /\ (t < inject_Z (1800 * (k + 1)))%Q ->
                        time_bucket t = k).
  { intros t [Hlo Hhi]. destruct (time_bucket_window t) as [Blo Bhi].
    pose proof (Qle_lt_trans _ _ _ Hlo Bhi) as H1.
    pose proof (Qle_lt_trans _ _ _ Blo Hhi) as H2.
    rewrite <- Zlt_Qlt in H1, H2. lia. }
  split.
  - split; [| apply U]. intros <-. apply time_bucket_window.
  - intros W W'. apply thread_id_of_bucket. now rewrite (U _ W), (U _ W').
Qed.

(** A text in which [old] does not occur is left as it is by [replace]. *)
Lemma replace_absent (s old new : string) :
  old <> "" -> ~ occurs old s -> replace s old new = s.
Proof.
  intros Hold. destruct old as [|x old']; [now elim Hold |]. unfold replace.
  induction s as [|c s IH]; intros Habsent; [reflexivity |].
  cbn [replace_scan].
  destruct (prefix (String x old') (String c s)) eqn:P.
  - exfalso. apply Habsent. apply prefix_split in P as [post ->]. apply occurs_here.
  - rewrite IH; [reflexivity |]. intros Hocc. apply Habsent.
    now apply (occurs_later _ (String c "")).
Qed.

(** X15: a message in which the token ["<@!{bot id}>"] does not occur, such
    as a direct message without mention, is dispatched as its content
    stripped of surrounding white space. *)
Theorem query_without_token (self_id : Z) (content : string) :
  ~ occurs (mention_token self_id) content ->
  user_query self_id content = strip content.
Proof.
  intros Habsent. unfold user_query.
  rewrite replace_absent; [reflexivity | discriminate | exact Habsent].
Qed.

(** X16: a mention written ["<@{bot id}>"], without the exclamation mark,
    is not the token that [on_message] removes: a content that starts with
    it and has no other ["<"] is dispatched with the mention in it. *)
Theorem plain_mention_kept (self_id : Z) (rest : string) :
  free_of "<" rest ->
  ~ occurs (mention_token self_id) ("<@" ++ str_of_int self_id ++ ">" ++ rest) /\
  user_query self_id ("<@" ++ str_of_int self_id ++ ">" ++ rest) =
    strip ("<@" ++ str_of_int self_id ++ ">" ++ rest).
Proof.
  intros Hrest.
  assert (Habsent : ~ occurs (mention_token self_id)
                      ("<@" ++ str_of_int self_id ++ ">" ++ rest)).
  { intros (pre & post & E). rewrite mention_token_head in E.
    assert (Htail : free_of "<" ("@" ++ str_of_int self_id ++ ">" ++ rest)).
    { cbn [append free_of]. split; [discriminate |].
      apply free_of_append. split.
      - apply str_of_int_chars; [reflexivity | discriminate].
      - cbn [append free_of]. split; [discriminate | exact Hrest]. }
    cbn [append] in Htail.
    destruct pre as [|c pre].
    - cbn [append] in E. injection E as E.
      pose proof (str_of_int_not_empty self_id) as Hne.
      pose proof (str_of_int_chars "!" self_id eq_refl) as Hbang.
      destruct (str_of_int self_id) as [|d ds]; [now elim Hne |].
      cbn [append] in E. injection E as Ed _.
      assert (Hd : free_of "!" (String d ds)) by (apply Hbang; discriminate).
      destruct Hd as [Hd _]. now elim Hd.
    - cbn [append] in E. injection E as _ E. rewrite E in Htail.
      apply free_of_append in Htail as [_ Htail].
      cbn [append free_of] in Htail. destruct Htail as [N _]. now elim N. }
  split; [exact Habsent |]. unfold user_query.
  rewrite replace_absent; [reflexivity | discriminate | exact Habsent].
Qed.

Lemma lstrip_first (s : string) (c : ascii) :
  first_char (lstrip s) = Some c -> isspace c = false.
Proof.
  induction s as [|x s IH]; simpl; [discriminate |].
  destruct (isspace x) eqn:E; [exact IH |]. simpl. now intros [= <-].
Qed.

Lemma lstrip_last (s : string) (c : ascii) :
  last_char (lstrip s) = Some c -> last_char s = Some c.
Proof.
  induction s as [|x s IH]; simpl; [discriminate |].
  destruct (isspace x) eqn:E; [| exact (fun H => H)].
  intros H. now rewrite (IH H).
Qed.

Lemma rstrip_last (s : string) (c : ascii) :
  last_char (rstrip s) = Some c -> isspace c = false.
Proof.
  revert c. induction s as [|x s IH]; intros c; simpl; [discriminate |].
  destruct (rstrip s) as [|y r] eqn:R.
  - destruct (isspace x) eqn:E; simpl; [discriminate | now intros [= <-]].
  - cbn [last_char]. cbn [last_char] in IH.
    destruct (match last_char r with None => Some y | Some c' => Some c' end)
      as [c' |] eqn:L.
    + intros [= <-]. now apply IH.
    + destruct (last_char r); discriminate.
Qed.

(** X17: the text that [on_message] dispatches neither starts nor ends
    with a white space character. *)
Theorem user_query_trimmed (self_id : Z) (content : string) (c : ascii) :
  (first_char (user_query self_id content) = Some c -> isspace c = false) /\
  (last_char (user_query self_id content) = Some c -> isspace c = false).
Proof.
  unfold user_query, strip. split.
  - apply lstrip_first.
  - intros H. apply lstrip_last in H. now apply rstrip_last in H.
Qed.

End Adapter.

Section AdapterExamples.

Import PyStr Spec Agent Bot Texts.
Local Open Scope string_scope.

Lemma on_message_then_wrapper_witness :
  sub_thread_id
    (_current_thread_id
       (snd (on_message (fun _ _ => Returned "ok") 42 (3600 # 1)
               (mkMessage 7 "add the exam" false true) initial)))
    research = "user_7_2_research".
Proof.
  assert (Hauthor : author_id (mkMessage 7 "add the exam" false true) <> 42%Z)
    by (vm_compute; discriminate).
  exact (proj2 (on_message_then_wrapper (fun _ _ => Returned "ok") 42 (3600 # 1)
                  (mkMessage 7 "add the exam" false true) initial research
                  Hauthor eq_refl)).
Defined.

Lemma thread_id_injective_witness :
  7%Z = 7%Z /\ time_bucket (3599 # 1) = time_bucket (1800 # 1).
Proof.
  apply (thread_id_injective 7 7 (3599 # 1) (1800 # 1)). reflexivity.
Defined.

Lemma query_without_token_witness :
  user_query 42 "  what is the grading policy? " = "what is the grading policy?".
Proof.
  assert (Habsent : ~ occurs (mention_token 42) "  what is the grading policy? ")
    by (apply contains_false_iff; reflexivity).
  rewrite (query_without_token 42 "  what is the grading policy? " Habsent).
  reflexivity.
Defined.

Lemma plain_mention_kept_witness :
  user_query 42 ("<@" ++ str_of_int 42 ++ ">" ++ " add the exam") = "<@42> add the exam".
Proof.
  assert (Hrest : free_of "<" " add the exam")
    by (simpl; repeat split; discriminate).
  rewrite (proj2 (plain_mention_kept 42 " add the exam" Hrest)).
  reflexivity.
Defined.

End AdapterExamples.

(** * Properties of the ingestion *)

Section Ingestion.

Import PyStr Spec Ingest.
Local Open Scope string_scope.

Variable Doc : Type.
Variable w : world Doc.

(** [s.endswith(suffix)] holds exactly when [s] is some text followed by
    [suffix]. *)
Lemma endswith_spec (s suffix : string) :
  endswith s suffix = true <-> exists stem, s = stem ++ suffix.
Proof.
  split.
  - induction s as [|c s IH]; cbn [endswith]; rewrite orb_true_iff; intros [H | H].
    + apply String.eqb_eq in H. now exists "".
    + discriminate.
    + apply String.eqb_eq in H. now exists "".
    + destruct (IH H) as [stem ->]. now exists (String c stem).
  - intros [stem ->]. induction stem as [|c stem IH].
    + simpl append. destruct suffix; cbn [endswith]; now rewrite String.eqb_refl.
    + simpl append. cbn [endswith]. rewrite IH. apply orb_true_r.
Qed.

Lemma pdf_paths_cons (source_dir file : string) (files : list string) :
  pdf_paths source_dir (file :: files) =
  if endswith file ".pdf"
  then path_join source_dir file :: pdf_paths source_dir files
  else pdf_paths source_dir files.
Proof. unfold pdf_paths. cbn [filter]. now destruct (endswith file ".pdf"). Qed.

Lemma load_each_cons (source_dir file : string) (files : list string)
                     (all_docs : list Doc) (log : list (action Doc)) :
  load_each Doc w source_dir (file :: files) all_docs log =
  if endswith file ".pdf"
  then
    match load_pdf Doc w log (path_join source_dir file) with
    | Returned docs =>
        load_each Doc w source_dir files (all_docs ++ docs)%list
          (log ++ [LoadPdf (path_join source_dir file)])%list
    | Raised e => (Raised e, (log ++ [LoadPdf (path_join source_dir file)])%list)
    end
  else load_each Doc w source_dir files all_docs log.
Proof.
  cbn [load_each]. destruct (endswith file ".pdf"); [| reflexivity].
  unfold andthen, ask. now destruct (load_pdf Doc w log (path_join source_dir file)).
Qed.

(** The loop when every load succeeds. *)
Lemma load_each_all (source_dir : string) (files : list string)
                    (pages : list (list Doc)) (all_docs : list Doc)
                    (log : list (action Doc)) :
  loads_succeed Doc w (pdf_paths source_dir files) pages log ->
  load_each Doc w source_dir files all_docs log =
  (Returned (all_docs ++ concat pages)%list,
   (log ++ map LoadPdf (pdf_paths source_dir files))%list).
Proof.
  revert pages all_docs log.
  induction files as [|file files IH]; intros pages all_docs log H.
  - destruct pages; [| destruct H]. simpl. unfold done. now rewrite !List.app_nil_r.
  - rewrite load_each_cons. rewrite pdf_paths_cons in *.
    destruct (endswith file ".pdf").
    + destruct pages as [|docs pages]; [destruct H |]. destruct H as [Hload H].
      rewrite Hload, (IH _ _ _ H). cbn [concat map].
      now rewrite <- !List.app_assoc.
    + now apply IH.
Qed.

(** The loop when a load fails. *)
Lemma load_each_failed (source_dir : string) (files : list string)
                       (before after : list string) (bad : string)
                       (pages : list (list Doc)) (all_docs : list Doc)
                       (e : exn) (log : list (action Doc)) :
  pdf_paths source_dir files = (before ++ bad :: after)%list ->
  loads_succeed Doc w before pages log ->
  load_pdf Doc w (log ++ map LoadPdf before)%list bad = Raised e ->
  load_each Doc w source_dir files all_docs log =
  (Raised e, (log ++ map LoadPdf before ++ [LoadPdf bad])%list).
Proof.
  revert before pages all_docs log.
  induction files as [|file files IH]; intros before pages all_docs log Hp Hok Hbad.
  - destruct before; discriminate.
  - rewrite load_each_cons. rewrite pdf_paths_cons in Hp.
    destruct (endswith file ".pdf").
    + destruct before as [|path before].
      * cbn [app] in Hp. injection Hp as -> _. cbn [map] in Hbad.
        rewrite List.app_nil_r in Hbad. now rewrite Hbad.
      * cbn [app] in Hp. injection Hp as -> Hp.
        destruct pages as [|docs pages]; [destruct Hok |]. destruct Hok as [Hload Hok].
        rewrite Hload. cbn [map] in Hbad.
        rewrite (IH before pages _ _ Hp Hok) by (now rewrite <- List.app_assoc).
        cbn [map app]. now rewrite <- !List.app_assoc.
    + now apply (IH before pages).
Qed.

(** Whatever the loads answer, the loop only asks for files of
    [pdf_paths], after the requests made before it. *)
Lemma load_each_log (source_dir : string) (files : list string)
                    (all_docs : list Doc) (log : list (action Doc)) :
  exists paths,
    snd (load_each Doc w source_dir files all_docs log) =
      (log ++ map LoadPdf paths)%list /\
    incl paths (pdf_paths source_dir files).
Proof.
  revert all_docs log. induction files as [|file files IH]; intros all_docs log.
  - exists []. split; [simpl; now rewrite List.app_nil_r | apply incl_refl].
  - rewrite load_each_cons, pdf_paths_cons. destruct (endswith file ".pdf").
    + destruct (load_pdf Doc w log (path_join source_dir file)) as [docs | e].
      * destruct (IH (all_docs ++ docs)%list
                    (log ++ [LoadPdf (path_join source_dir file)])%list)
          as (paths & Hlog & Hincl).
        exists (path_join source_dir file :: paths). split.
        -- rewrite Hlog. cbn [map]. now rewrite <- List.app_assoc.
        -- apply incl_cons; [now left | now apply incl_tl].
      * exists [path_join source_dir file]. split; [reflexivity |].
        apply incl_cons; [now left | apply incl_nil_l].
    + apply IH.
Qed.

Lemma pdf_paths_spec (source_dir : string) (files : list string) (path : string) :
  In path (pdf_paths source_dir files) <->
  exists stem, In (stem ++ ".pdf") files /\ path = path_join source_dir (stem ++ ".pdf").
Proof.
  unfold pdf_paths. rewrite in_map_iff. split.
  - intros (file & <- & Hin). apply filter_In in Hin as [Hin Hpdf].
    apply endswith_spec in Hpdf as [stem ->]. now exists stem.
  - intros (stem & Hin & ->). exists (stem ++ ".pdf"). split; [reflexivity |].
    apply filter_In. split; [exact Hin |]. apply endswith_spec. now exists stem.
Qed.

(** X18: when the folder ["data/Syllabi"] does not exist, [run_ingestion]
    returns after the one check: nothing is listed, loaded, split or
    stored. *)
Theorem run_ingestion_missing_folder (log : list (action Doc)) :
  path_exists Doc w log "data/Syllabi" = false ->
  run_ingestion Doc w log = (Returned tt, (log ++ [PathExists "data/Syllabi"])%list).
Proof.
  intros H. unfold run_ingestion, andthen, ask, done. now rewrite H.
Qed.

(** X19: when the folder exists and every request succeeds, the files
    loaded are the listed names that end in [".pdf"], each once, in the
    order of the listing; all their pages together are split in one request
    with chunk size 1000 and overlap 200, and the resulting chunks are
    stored in ["db"] by the last request. *)
Theorem run_ingestion_stores_chunks (files : list string) (pages : list (list Doc))
                                    (chunks : list Doc) (log : list (action Doc)) :
  path_exists Doc w log "data/Syllabi" = true ->
  listdir Doc w (log ++ [PathExists "data/Syllabi"])%list "data/Syllabi" =
    Returned files ->
  loads_succeed Doc w (pdf_paths "data/Syllabi" files) pages
    (log ++ [PathExists "data/Syllabi"; ListDir "data/Syllabi"])%list ->
  split_documents Doc w
    (log ++ [PathExists "data/Syllabi"; ListDir "data/Syllabi"] ++
     map LoadPdf (pdf_paths "data/Syllabi" files))%list 1000 200 (concat pages) =
    Returned chunks ->
  from_documents Doc w
    (log ++ [PathExists "data/Syllabi"; ListDir "data/Syllabi"] ++
     map LoadPdf (pdf_paths "data/Syllabi" files) ++
     [SplitDocuments 1000 200 (concat pages)])%list chunks "db" = Returned tt ->
  run_ingestion Doc w log =
    (Returned tt,
     (log ++ [PathExists "data/Syllabi"; ListDir "data/Syllabi"] ++
      map LoadPdf (pdf_paths "data/Syllabi" files) ++
      [SplitDocuments 1000 200 (concat pages); FromDocuments chunks "db"])%list).
Proof.
  intros Hex Hls Hloads Hsplit Hstore.
  unfold run_ingestion, andthen, ask, done. rewrite Hex. cbn [negb]. rewrite Hls.
  rewrite <- (List.app_assoc log [_] [_]). cbn [app].
  rewrite (load_each_all _ _ pages [] _ Hloads).
  rewrite <- !List.app_assoc. cbn [app]. cbn [app] in Hsplit, Hstore.
  rewrite Hsplit.
  rewrite <- !List.app_assoc. cbn [app].
  rewrite Hstore. now rewrite <- !List.app_assoc.
Qed.

(** X20: whatever the file system and the libraries answer, a file that
    [run_ingestion] asks to load is one of the listed names that end in
    [".pdf"] (in lower case), taken from the folder ["data/Syllabi"]. *)
Theorem run_ingestion_loads_only_pdfs (log : list (action Doc)) (path : string) :
  In (LoadPdf path) (snd (run_ingestion Doc w log)) ->
  In (LoadPdf path) log \/
  exists files stem,
    listdir Doc w (log ++ [PathExists "data/Syllabi"])%list "data/Syllabi" =
      Returned files /\
    In (stem ++ ".pdf") files /\
    path = path_join "data/Syllabi" (stem ++ ".pdf").
Proof.
  intros Hin. unfold run_ingestion, andthen, ask, done in Hin.
  destruct (path_exists Doc w log "data/Syllabi"); cbn [negb] in Hin.
  - destruct (listdir Doc w (log ++ [PathExists "data/Syllabi"])%list "data/Syllabi")
      as [files | e] eqn:Hls.
    + destruct (load_each_log "data/Syllabi" files []
                  ((log ++ [PathExists "data/Syllabi"]) ++ [ListDir "data/Syllabi"])%list)
        as (paths & Hlog & Hincl).
      assert (Hloaded : In (LoadPdf path) log \/ In path paths).
      { destruct (load_each Doc w "data/Syllabi" files [] _) as [[docs | e] log'];
          cbn [snd] in Hlog; subst log'.
        - destruct (split_documents Doc w _ 1000 200 docs) as [chunks | e].
          + destruct (from_documents Doc w _ chunks "db"); cbn [snd] in Hin;
              repeat (apply in_app_or in Hin as [Hin | Hin]);
              first [ now left
                    | apply in_map_iff in Hin as (x & [= ->] & Hin); now right
                    | repeat (destruct Hin as [Hin | Hin]; [discriminate |]);
                      destruct Hin ].
          + cbn [snd] in Hin;
              repeat (apply in_app_or in Hin as [Hin | Hin]);
              first [ now left
                    | apply in_map_iff in Hin as (x & [= ->] & Hin); now right
                    | repeat (destruct Hin as [Hin | Hin]; [discriminate |]);
                      destruct Hin ].
        - cbn [snd] in Hin;
            repeat (apply in_app_or in Hin as [Hin | Hin]);
            first [ now left
                  | apply in_map_iff in Hin as (x & [= ->] & Hin); now right
                  | repeat (destruct Hin as [Hin | Hin]; [discriminate |]);
                    destruct Hin ]. }
      destruct Hloaded as [Hold | Hnew]; [now left | right].
      apply Hincl, pdf_paths_spec in Hnew as (stem & Hfile & ->).
      now exists files, stem.
    + cbn [snd] in Hin. left.
      repeat (apply in_app_or in Hin as [Hin | Hin]);
        first [ assumption
              | repeat (destruct Hin as [Hin | Hin]; [discriminate |]); destruct Hin ].
  - cbn [snd] in Hin. left.
    repeat (apply in_app_or in Hin as [Hin | Hin]);
      first [ assumption
            | repeat (destruct Hin as [Hin | Hin]; [discriminate |]); destruct Hin ].
Qed.

(** X21: when the load of a file fails, the exception leaves
    [run_ingestion] at once: the files listed after it are not loaded,
    nothing is split and nothing is stored. *)
Theorem run_ingestion_load_failure (files before after : list string) (bad : string)
                                   (pages : list (list Doc)) (e : exn)
                                   (log : list (action Doc)) :
  path_exists Doc w log "data/Syllabi" = true ->
  listdir Doc w (log ++ [PathExists "data/Syllabi"])%list "data/Syllabi" =
    Returned files ->
  pdf_paths "data/Syllabi" files = (before ++ bad :: after)%list ->
  loads_succeed Doc w before pages
    (log ++ [PathExists "data/Syllabi"; ListDir "data/Syllabi"])%list ->
  load_pdf Doc w
    (log ++ [PathExists "data/Syllabi"; ListDir "data/Syllabi"] ++ map LoadPdf before)%list
    bad = Raised e ->
  run_ingestion Doc w log =
    (Raised e,
     (log ++ [PathExists "data/Syllabi"; ListDir "data/Syllabi"] ++
      map LoadPdf before ++ [LoadPdf bad])%list) /\
  filter is_store (snd (run_ingestion Doc w log)) = filter is_store log.
Proof.
  intros Hex Hls Hp Hok Hbad.
  assert (E : run_ingestion Doc w log =
              (Raised e,
               (log ++ [PathExists "data/Syllabi"; ListDir "data/Syllabi"] ++
                map LoadPdf before ++ [LoadPdf bad])%list)).
  { unfold run_ingestion, andthen, ask, done. rewrite Hex. cbn [negb]. rewrite Hls.
    rewrite <- (List.app_assoc log [_] [_]). cbn [app].
    rewrite (load_each_failed _ _ before after bad pages [] e _ Hp Hok).
    - now rewrite <- !List.app_assoc.
    - rewrite <- Hbad. f_equal. now rewrite <- !List.app_assoc. }
  split; [exact E |]. rewrite E. cbn [snd].
  rewrite !filter_app. cbn [filter is_store].
  assert (F : forall paths, filter is_store (map (@LoadPdf Doc) paths) = []).
  { induction paths as [|x paths IH]; [reflexivity | exact IH]. }
  now rewrite F, !List.app_nil_r.
Qed.

End Ingestion.

Section IngestionExamples.

Import PyStr Spec Ingest IngestSample.
Local Open Scope string_scope.

Lemma run_ingestion_missing_folder_witness :
  run_ingestion string empty_world [] = (Returned tt, [PathExists "data/Syllabi"]).
Proof.
  apply (run_ingestion_missing_folder string empty_world []). reflexivity.
Defined.

Lemma run_ingestion_stores_chunks_witness :
  run_ingestion string sound_world [] =
  (Returned tt,
   [PathExists "data/Syllabi"; ListDir "data/Syllabi";
    LoadPdf "data/Syllabi/math291.pdf"; LoadPdf "data/Syllabi/cs260.pdf";
    SplitDocuments 1000 200 ["page 1"; "page 2"; "page A"];
    FromDocuments ["page 1"; "page 2"; "page A"] "db"]).
Proof.
  apply (run_ingestion_stores_chunks string sound_world
           ["math291.pdf"; "notes.txt"; "cs260.pdf"; "old.PDF"]
           [["page 1"; "page 2"]; ["page A"]] ["page 1"; "page 2"; "page A"] []);
    try reflexivity.
  simpl. auto.
Defined.

Lemma run_ingestion_loads_only_pdfs_witness :
  In (LoadPdf "data/Syllabi/cs260.pdf") (@nil (action string)) \/
  exists files stem,
    listdir string sound_world [PathExists "data/Syllabi"] "data/Syllabi" =
      Returned files /\
    In (stem ++ ".pdf") files /\
    "data/Syllabi/cs260.pdf" = path_join "data/Syllabi" (stem ++ ".pdf").
Proof.
  apply (run_ingestion_loads_only_pdfs string sound_world [] "data/Syllabi/cs260.pdf").
  vm_compute. auto.
Defined.

Lemma run_ingestion_load_failure_witness :
  run_ingestion string sample_world [] =
  (Raised (ExternalError "damaged file"),
   [PathExists "data/Syllabi"; ListDir "data/Syllabi";
    LoadPdf "data/Syllabi/math291.pdf"; LoadPdf "data/Syllabi/cs260.pdf"]).
Proof.
  apply (run_ingestion_load_failure string sample_world
           ["math291.pdf"; "notes.txt"; "cs260.pdf"; "old.PDF"]
           ["data/Syllabi/math291.pdf"] [] "data/Syllabi/cs260.pdf"
           [["page 1"; "page 2"]] (ExternalError "damaged file") []);
    try reflexivity.
  simpl. auto.
Defined.

End IngestionExamples.
